(** * Research Analyzer: the storage and query engine of
      [src/research_analyzer.py], embedded shallowly.

    Conventions of the embedding.
    - A Python [str] is a [string]; its characters are read as the code
      points 0..255.
    - A Python [float] (scores, confidences, rates) is a finite double,
      held as the rational of [Q] it denotes; the sign of a zero is not
      kept.  Comparisons, [min] and [max] are exact; a sum, a quotient and
      [round] give the double nearest to the exact result, a tie going to
      the even significand ([fl]), and an infinity beyond the largest
      double ([float]).  The theorems hold for every rational in the place
      of a float, the doubles among them.
    - A Python [int] is a [Z]; SQLite takes the integers of 64 bits.
    - The SQLite tables are lists of rows, in rowid (insertion) order.
    - Each method takes the database and the clock readings it consumes
      and returns the new database with its result; an exception that
      leaves the method is a value of [exn] (the transaction of the
      [with] block is rolled back, so the database is the old one).
    - [hashlib.md5], [json.dumps], [json.loads], [str.lower], [re.sub],
      [strftime], [isoformat] and SQLite's [LIKE] and [lower] are
      implemented below for the data the analyzer gives them.
    - The rows of a [SELECT] come in the order SQLite reads them with the
      indexes of [_init_db]; where SQL leaves an order open (equal
      scores), the theorems do not depend on it. *)

From Stdlib Require Import ZArith QArith Qabs Qpower List String Ascii Bool Lia Lqa
  Sorted Permutation.
Import ListNotations.
Local Open Scope string_scope.
Local Open Scope Z_scope.

(** ** Exceptions and fallible results *)

Inductive exn : Type :=
| ValueError
| KeyError
| ZeroDivisionError
| JSONDecodeError
| IntegrityError
| OperationalError
| DatabaseError
| OverflowError.

Inductive result (A : Type) : Type :=
| Ok (a : A)
| Raise (e : exn).
Arguments Ok {A} a.
Arguments Raise {A} e.

Definition bind {A B : Type} (r : result A) (k : A -> result B) : result B :=
  match r with
  | Ok a => k a
  | Raise e => Raise e
  end.

Notation "x <- r ;; k" := (bind r (fun x => k))
  (at level 61, r at next level, right associativity).

Fixpoint mapM {A B : Type} (f : A -> result B) (l : list A) : result (list B) :=
  match l with
  | [] => Ok []
  | a :: l' => b <- f a ;; bs <- mapM f l' ;; Ok (b :: bs)
  end.

(** ** Strings *)

Definition code (c : ascii) : Z := Z.of_nat (nat_of_ascii c).
Definition chr (z : Z) : ascii := ascii_of_nat (Z.to_nat z).

Definition in_range (lo hi : Z) (c : ascii) : bool :=
  (lo <=? code c) && (code c <=? hi).

Fixpoint smap (f : ascii -> ascii) (s : string) : string :=
  match s with
  | EmptyString => EmptyString
  | String c s' => String (f c) (smap f s')
  end.

(** [str.lower()] on the code points 0..255: A-Z, and the Latin-1
    capitals U+00C0..U+00DE without the multiplication sign U+00D7. *)
Definition py_lower_char (c : ascii) : ascii :=
  if in_range 65 90 c then chr (code c + 32)
  else if in_range 192 222 c && negb (code c =? 215) then chr (code c + 32)
  else c.
Definition py_lower : string -> string := smap py_lower_char.

(** SQLite's [lower()] folds the ASCII letters only. *)
Definition sql_lower_char (c : ascii) : ascii :=
  if in_range 65 90 c then chr (code c + 32) else c.
Definition sql_lower : string -> string := smap sql_lower_char.

(** [sep.join(l)] *)
Fixpoint join (sep : string) (l : list string) : string :=
  match l with
  | [] => ""
  | [x] => x
  | x :: l' => x ++ sep ++ join sep l'
  end.

(** [q in hay] on strings *)
Fixpoint contains (q hay : string) : bool :=
  prefix q hay ||
  match hay with
  | EmptyString => false
  | String _ hay' => contains q hay'
  end.

(** [s[:n]] *)
Fixpoint take (n : nat) (s : string) : string :=
  match n, s with
  | S n', String c s' => String c (take n' s')
  | _, _ => EmptyString
  end.

Fixpoint srev_onto (s acc : string) : string :=
  match s with
  | EmptyString => acc
  | String c s' => srev_onto s' (String c acc)
  end.
Definition srev (s : string) : string := srev_onto s EmptyString.

Fixpoint lstrip (c : ascii) (s : string) : string :=
  match s with
  | String d s' => if Ascii.eqb c d then lstrip c s' else s
  | EmptyString => EmptyString
  end.

(** [s.strip(c)] for a single character [c] *)
Definition strip (c : ascii) (s : string) : string :=
  srev (lstrip c (srev (lstrip c s))).

(** every character of [s] passes [f] *)
Fixpoint sall (f : ascii -> bool) (s : string) : bool :=
  match s with
  | EmptyString => true
  | String c s' => f c && sall f s'
  end.

(** some character of [s] passes [f] *)
Definition sany (f : ascii -> bool) (s : string) : bool :=
  negb (sall (fun c => negb (f c)) s).

(** a C string: the characters before the first NUL *)
Fixpoint until_nul (s : string) : string :=
  match s with
  | EmptyString => EmptyString
  | String c s' => if code c =? 0 then EmptyString else String c (until_nul s')
  end.

(** [c.isspace()] on the code points 0..255 *)
Definition py_isspace (c : ascii) : bool :=
  in_range 9 13 c || in_range 28 32 c || (code c =? 133) || (code c =? 160).

(** [s.split()]: the maximal runs of characters that are not white
    space; [cur] is the run being read, last character first *)
Fixpoint py_split_from (cur s : string) : list string :=
  match s with
  | EmptyString =>
      match cur with
      | EmptyString => []
      | String _ _ => [srev cur]
      end
  | String c s' =>
      if py_isspace c then
        match cur with
        | EmptyString => py_split_from EmptyString s'
        | String _ _ => srev cur :: py_split_from EmptyString s'
        end
      else py_split_from (String c cur) s'
  end.

Definition py_split (s : string) : list string := py_split_from EmptyString s.

(** a word: not empty and without white space *)
Definition is_word (w : string) : bool :=
  sall (fun c => negb (py_isspace c)) w && negb (String.eqb w "").

(** ** MD5 ([hashlib.md5]), on 32-bit words held in [Z] *)

Module Md5.
Local Open Scope list_scope.

Definition mask32 : Z := 4294967295.
Definition w32 (x : Z) : Z := Z.land x mask32.
Definition not32 (x : Z) : Z := Z.lxor (w32 x) mask32.
Definition add32 (x y : Z) : Z := w32 (x + y).
Definition rotl32 (x n : Z) : Z :=
  w32 (Z.lor (Z.shiftl x n) (Z.shiftr (w32 x) (32 - n))).

Definition K : list Z :=
  [ 3614090360; 3905402710; 606105819; 3250441966;
    4118548399; 1200080426; 2821735955; 4249261313;
    1770035416; 2336552879; 4294925233; 2304563134;
    1804603682; 4254626195; 2792965006; 1236535329;
    4129170786; 3225465664; 643717713; 3921069994;
    3593408605; 38016083; 3634488961; 3889429448;
    568446438; 3275163606; 4107603335; 1163531501;
    2850285829; 4243563512; 1735328473; 2368359562;
    4294588738; 2272392833; 1839030562; 4259657740;
    2763975236; 1272893353; 4139469664; 3200236656;
    681279174; 3936430074; 3572445317; 76029189;
    3654602809; 3873151461; 530742520; 3299628645;
    4096336452; 1126891415; 2878612391; 4237533241;
    1700485571; 2399980690; 4293915773; 2240044497;
    1873313359; 4264355552; 2734768916; 1309151649;
    4149444226; 3174756917; 718787259; 3951481745 ].

Definition shifts : list Z :=
  [ 7; 12; 17; 22; 7; 12; 17; 22; 7; 12; 17; 22; 7; 12; 17; 22;
    5; 9; 14; 20; 5; 9; 14; 20; 5; 9; 14; 20; 5; 9; 14; 20;
    4; 11; 16; 23; 4; 11; 16; 23; 4; 11; 16; 23; 4; 11; 16; 23;
    6; 10; 15; 21; 6; 10; 15; 21; 6; 10; 15; 21; 6; 10; 15; 21 ].

Record state : Type := mkState { sa : Z; sb : Z; sc : Z; sd : Z }.

Definition init : state :=
  mkState 1732584193 4023233417 2562383102 271733878.

(** the round function and the message index of step [i] *)
Definition mix (i b c d : Z) : Z :=
  if i <? 16 then Z.lor (Z.land b c) (Z.land (not32 b) d)
  else if i <? 32 then Z.lor (Z.land d b) (Z.land (not32 d) c)
  else if i <? 48 then Z.lxor b (Z.lxor c d)
  else Z.lxor c (Z.lor b (not32 d)).

Definition msg_index (i : Z) : Z :=
  if i <? 16 then i
  else if i <? 32 then (5 * i + 1) mod 16
  else if i <? 48 then (3 * i + 5) mod 16
  else (7 * i) mod 16.

Definition step (m : list Z) (st : state) (i : Z) : state :=
  let f := mix i (sb st) (sc st) (sd st) in
  let k := nth (Z.to_nat i) K 0 in
  let w := nth (Z.to_nat (msg_index i)) m 0 in
  let s := nth (Z.to_nat i) shifts 0 in
  let x := add32 (add32 (add32 (sa st) f) k) w in
  mkState (sd st) (add32 (sb st) (rotl32 x s)) (sb st) (sc st).

Definition steps : list Z := map Z.of_nat (seq 0 64).

(** one 512-bit block, as 16 little-endian words *)
Definition compress (st : state) (m : list Z) : state :=
  let r := fold_left (step m) steps st in
  mkState (add32 (sa st) (sa r)) (add32 (sb st) (sb r))
          (add32 (sc st) (sc r)) (add32 (sd st) (sd r)).

Definition le_bytes (n : nat) (x : Z) : list Z :=
  map (fun i => Z.land (Z.shiftr x (8 * Z.of_nat i)) 255) (seq 0 n).

Definition pad (msg : list Z) : list Z :=
  let len := Z.of_nat (List.length msg) in
  let zeros := Z.to_nat ((55 - len) mod 64) in
  msg ++ [128] ++ repeat 0 zeros ++ le_bytes 8 (8 * len).

Fixpoint words (bs : list Z) : list Z :=
  match bs with
  | b0 :: b1 :: b2 :: b3 :: bs' =>
      (b0 + Z.shiftl b1 8 + Z.shiftl b2 16 + Z.shiftl b3 24) :: words bs'
  | _ => []
  end.

Fixpoint blocks (fuel : nat) (ws : list Z) : list (list Z) :=
  match fuel, ws with
  | S fuel', _ :: _ => firstn 16 ws :: blocks fuel' (skipn 16 ws)
  | _, _ => []
  end.

Definition digest (msg : list Z) : list Z :=
  let bs := pad msg in
  let ws := words bs in
  let r := fold_left compress (blocks (List.length ws) ws) init in
  le_bytes 4 (sa r) ++ le_bytes 4 (sb r) ++ le_bytes 4 (sc r) ++ le_bytes 4 (sd r).

Definition hex_digit (z : Z) : ascii :=
  if z <? 10 then chr (48 + z) else chr (87 + z).

Fixpoint hex (bs : list Z) : string :=
  match bs with
  | [] => EmptyString
  | b :: bs' => String (hex_digit (Z.shiftr b 4)) (String (hex_digit (Z.land b 15)) (hex bs'))
  end.

(** [str.encode()]: UTF-8 of the code points 0..255 *)
Fixpoint utf8 (s : string) : list Z :=
  match s with
  | EmptyString => []
  | String c s' =>
      let z := code c in
      if z <? 128 then z :: utf8 s'
      else Z.lor 192 (Z.shiftr z 6) :: Z.lor 128 (Z.land z 63) :: utf8 s'
  end.

(** [hashlib.md5(s.encode()).hexdigest()] *)
Definition hexdigest (s : string) : string := hex (digest (utf8 s)).

End Md5.

(** ** JSON text of a list of strings ([json.dumps], [json.loads]) *)

Module Json.

Definition dquote : ascii := Ascii false true false false false true false false.
Definition backslash : ascii := "\"%char.

(** [json.dumps] escapes with [ensure_ascii=True]: the two-character
    escapes, the printable ASCII characters as they are, and a
    four-digit escape for every other code point. *)
Definition escape_char (c : ascii) : string :=
  let z := code c in
  if z =? 34 then String backslash (String dquote "")
  else if z =? 92 then "\\"
  else if z =? 10 then "\n"
  else if z =? 13 then "\r"
  else if z =? 9 then "\t"
  else if z =? 12 then "\f"
  else if z =? 8 then "\b"
  else if (32 <=? z) && (z <=? 126) then String c ""
  else "\u00" ++ String (Md5.hex_digit (z / 16)) (String (Md5.hex_digit (z mod 16)) "").

Fixpoint escape (s : string) : string :=
  match s with
  | EmptyString => EmptyString
  | String c s' => escape_char c ++ escape s'
  end.

Definition encode_string (s : string) : string :=
  String dquote (escape s ++ String dquote "").

(** [json.dumps(l)] for a list of strings, with the default separators *)
Definition dumps (l : list string) : string :=
  "[" ++ join ", " (map encode_string l) ++ "]".

(** what follows the first element in the text of [dumps] *)
Fixpoint tail_text (l : list string) : string :=
  match l with
  | [] => "]"
  | x :: l' => ", " ++ encode_string x ++ tail_text l'
  end.

Inductive pstate : Type := PStart | POpen | PString | PAfter | PComma | PEnd.

Definition is_ws (c : ascii) : bool :=
  let z := code c in (z =? 32) || (z =? 9) || (z =? 10) || (z =? 13).

Definition unhex (c : ascii) : option Z :=
  let z := code c in
  if in_range 48 57 c then Some (z - 48)
  else if in_range 97 102 c then Some (z - 87)
  else if in_range 65 70 c then Some (z - 55)
  else None.

Definition unhex4 (h1 h2 h3 h4 : ascii) : option Z :=
  match unhex h1, unhex h2, unhex h3, unhex h4 with
  | Some a, Some b, Some c, Some d => Some (((a * 16 + b) * 16 + c) * 16 + d)
  | _, _, _, _ => None
  end.

(** the character a two-character escape stands for *)
Definition unescape (e : ascii) : option ascii :=
  let z := code e in
  if z =? 34 then Some dquote
  else if z =? 92 then Some backslash
  else if z =? 47 then Some "/"%char
  else if z =? 98 then Some (chr 8)
  else if z =? 102 then Some (chr 12)
  else if z =? 110 then Some (chr 10)
  else if z =? 114 then Some (chr 13)
  else if z =? 116 then Some (chr 9)
  else None.

(** The decoder reads the text once, left to right.  [cur] holds the
    characters of the string being read, last one first; [done] the
    strings read so far, last one first.  [None] is the
    [JSONDecodeError] of [json.loads]; it is also the answer for a JSON
    value that is not an array of strings over the code points 0..255,
    which the analyzer never writes. *)
Fixpoint run (st : pstate) (cur : string) (done : list string) (s : string)
  : option (list string) :=
  match s with
  | EmptyString =>
      match st with
      | PEnd => Some (rev done)
      | _ => None
      end
  | String c s' =>
      match st with
      | PStart =>
          if is_ws c then run PStart cur done s'
          else if code c =? 91 then run POpen cur done s'
          else None
      | POpen =>
          if is_ws c then run POpen cur done s'
          else if code c =? 93 then run PEnd cur done s'
          else if code c =? 34 then run PString EmptyString done s'
          else None
      | PString =>
          if code c =? 34 then run PAfter EmptyString (srev cur :: done) s'
          else if code c =? 92 then
            match s' with
            | EmptyString => None
            | String e s'' =>
                if code e =? 117 then
                  match s'' with
                  | String h1 (String h2 (String h3 (String h4 s5))) =>
                      match unhex4 h1 h2 h3 h4 with
                      | Some z =>
                          if z <? 256 then run PString (String (chr z) cur) done s5
                          else None
                      | None => None
                      end
                  | _ => None
                  end
                else
                  match unescape e with
                  | Some x => run PString (String x cur) done s''
                  | None => None
                  end
            end
          else if code c <? 32 then None
          else run PString (String c cur) done s'
      | PAfter =>
          if is_ws c then run PAfter cur done s'
          else if code c =? 44 then run PComma cur done s'
          else if code c =? 93 then run PEnd cur done s'
          else None
      | PComma =>
          if is_ws c then run PComma cur done s'
          else if code c =? 34 then run PString EmptyString done s'
          else None
      | PEnd =>
          if is_ws c then run PEnd cur done s' else None
      end
  end.

(** [json.loads(text)] *)
Definition loads (text : string) : result (list string) :=
  match run PStart EmptyString [] text with
  | Some l => Ok l
  | None => Raise JSONDecodeError
  end.

End Json.

(** ** The clock *)

(** A reading of [datetime.now(timezone.utc)]; years 1000..9999. *)
Record datetime : Type := mkDatetime {
  year : Z; month : Z; day : Z;
  hour : Z; minute : Z; second : Z; microsecond : Z
}.

Fixpoint digits (w : nat) (n : Z) (acc : string) : string :=
  match w with
  | O => acc
  | S w' => digits w' (n / 10) (String (chr (48 + n mod 10)) acc)
  end.

(** [n] in decimal, zero-padded to [w] digits *)
Definition zfill (w : nat) (n : Z) : string := digits w n EmptyString.

(** [dt.strftime("%Y%m%dT%H%M%S")] *)
Definition strftime_compact (dt : datetime) : string :=
  zfill 4 (year dt) ++ zfill 2 (month dt) ++ zfill 2 (day dt) ++ "T" ++
  zfill 2 (hour dt) ++ zfill 2 (minute dt) ++ zfill 2 (second dt).

(** [dt.isoformat()] of a UTC reading *)
Definition isoformat (dt : datetime) : string :=
  zfill 4 (year dt) ++ "-" ++ zfill 2 (month dt) ++ "-" ++ zfill 2 (day dt) ++ "T" ++
  zfill 2 (hour dt) ++ ":" ++ zfill 2 (minute dt) ++ ":" ++ zfill 2 (second dt) ++
  (if microsecond dt =? 0 then "" else "." ++ zfill 6 (microsecond dt)) ++ "+00:00".

(** the readings a clock can give *)
Definition valid_datetime (dt : datetime) : Prop :=
  1 <= year dt <= 9999 /\ 1 <= month dt <= 12 /\ 1 <= day dt <= 31
  /\ 0 <= hour dt <= 23 /\ 0 <= minute dt <= 59 /\ 0 <= second dt <= 59
  /\ 0 <= microsecond dt <= 999999.

(** the first comparison that is not [Eq] *)
Definition lex (c1 c2 : comparison) : comparison :=
  match c1 with
  | Eq => c2
  | _ => c1
  end.

(** which of two readings is the earlier one *)
Definition datetime_compare (a b : datetime) : comparison :=
  lex (year a ?= year b)
    (lex (month a ?= month b)
       (lex (day a ?= day b)
          (lex (hour a ?= hour b)
             (lex (minute a ?= minute b)
                (lex (second a ?= second b) (microsecond a ?= microsecond b)))))).

(** [_now()], given the clock reading it takes *)
Definition _now (clk : datetime) : string := isoformat clk.

(** ** Identifiers *)

Definition slug_char (c : ascii) : bool := in_range 97 122 c || in_range 48 57 c.

(** [re.sub(r"[^a-z0-9]+", "-", s)]; [in_run] tells that the previous
    character was already replaced. *)
Fixpoint sub_runs (in_run : bool) (s : string) : string :=
  match s with
  | EmptyString => EmptyString
  | String c s' =>
      if slug_char c then String c (sub_runs false s')
      else if in_run then sub_runs true s'
      else String "-" (sub_runs true s')
  end.

Definition slugify (title : string) : string :=
  strip "-" (take 24 (sub_runs false (py_lower title))).

(** the characters of a slug and of a hexadecimal digest *)
Definition slug_alphabet (c : ascii) : bool := slug_char c || Ascii.eqb c "-".
Definition is_hex (c : ascii) : bool := in_range 48 57 c || in_range 97 102 c.

(** [_paper_id(title)], given the clock reading it takes *)
Definition _paper_id (clk : datetime) (title : string) : string :=
  let ts := strftime_compact clk in
  let h := take 10 (Md5.hexdigest (title ++ ts)) in
  slugify title ++ "-" ++ h.

(** [hashlib.md5(f"{paper_id}{text}{ts}".encode()).hexdigest()[:12]] *)
Definition _hypothesis_id (paper_id text ts : string) : string :=
  take 12 (Md5.hexdigest (paper_id ++ text ++ ts)).

(** ** Numbers *)

(** the integers SQLite holds: [sqlite3] raises [OverflowError] when it is
    given another one for a parameter *)
Definition int64 (n : Z) : bool := (- 2 ^ 63 <=? n) && (n <? 2 ^ 63).

Local Open Scope Q_scope.

Definition Qlt_bool (x y : Q) : bool := negb (Qle_bool y x).

(** the built-ins [min(a, b)] and [max(a, b)]: the first argument is kept
    unless the second is strictly smaller (greater) *)
Definition py_min (a b : Q) : Q := if Qlt_bool b a then b else a.
Definition py_max (a b : Q) : Q := if Qlt_bool a b then b else a.

(** the integer nearest to [x], a tie going to the even one *)
Definition round_half_even (x : Q) : Z :=
  let n := Qnum x in
  let d := Zpos (Qden x) in
  let q := (n / d)%Z in
  let r := (n mod d)%Z in
  if (2 * r <? d)%Z then q
  else if (d <? 2 * r)%Z then (q + 1)%Z
  else if Z.even q then q else (q + 1)%Z.

(** *** Doubles *)

Definition pow2 (e : Z) : Q := 2 ^ e.

(** the exponent of the power of two at or below [|x|] *)
Definition ilog2 (x : Q) : Z :=
  let k := (Z.log2 (Z.abs (Qnum x)) - Z.log2 (Zpos (Qden x)))%Z in
  if Qle_bool (pow2 k) (Qabs x) then k else (k - 1)%Z.

(** the exponent of the last place of a double at [x]: 53 significant
    bits, and the subnormal doubles end at [2^-1074] *)
Definition fexp (x : Q) : Z := Z.max (ilog2 x - 52) (-1074).

(** the double nearest to [x], a tie going to the even significand *)
Definition fl (x : Q) : Q :=
  let e := fexp x in
  Qred (inject_Z (round_half_even (x / pow2 e)) * pow2 e).

(** the value of a sum or a quotient: a double, or an infinity when the
    rounded result is beyond the largest double *)
Inductive float : Type :=
| Finite (x : Q)
| Infinity (negative : bool).

Definition to_float (x : Q) : float :=
  let y := fl x in
  if Qle_bool (pow2 1024) (Qabs y) then Infinity (Qlt_bool y 0) else Finite y.

(** [a + x] *)
Definition float_add (a : float) (x : Q) : float :=
  match a with
  | Finite s => to_float (s + x)
  | Infinity _ => a
  end.

(** [a / b] for [b] other than zero *)
Definition float_div (a : float) (b : Q) : float :=
  match a with
  | Finite s => to_float (s / b)
  | Infinity negative => Infinity (xorb negative (Qlt_bool b 0))
  end.

(** [sum(l)] on floats: the additions run from the left, each one
    rounded (the loop over C doubles of CPython 3.11; SQLite 3.40 adds
    the same way in [AVG]) *)
Definition py_sum (l : list Q) : float := fold_left float_add l (Finite 0).

(** [a / n] for the number [n] of elements of a list *)
Definition py_div (a : float) (n : Z) : result float :=
  if (n =? 0)%Z then Raise ZeroDivisionError
  else Ok (float_div a (fl (inject_Z n))).

(** [a / b] on integers: the double nearest to the quotient *)
Definition int_truediv (a b : Z) : result Q :=
  if (b =? 0)%Z then Raise ZeroDivisionError
  else
    match to_float (inject_Z a / inject_Z b) with
    | Finite y => Ok y
    | Infinity _ => Raise OverflowError
    end.

(** [round(x, nd)]: the decimal of [nd] places nearest to the double [x],
    a tie going to the even last digit, and then the double nearest to
    this decimal *)
Definition py_round (x : Q) (nd : nat) : Q :=
  let s := Z.to_pos (10 ^ Z.of_nat nd) in
  fl (Qmake (round_half_even (x * inject_Z (Zpos s))) s).

(** [round] leaves an infinity as it is *)
Definition float_round (a : float) (nd : nat) : float :=
  match a with
  | Finite x => Finite (py_round x nd)
  | Infinity _ => a
  end.

Local Close Scope Q_scope.

(** ** Lists *)

Section Lists.
Context {A : Type}.

(** [l or []] on an optional list argument *)
Definition or_empty (l : option (list A)) : list A :=
  match l with
  | Some l' => l'
  | None => []
  end.

(** a list is true when it is not empty *)
Definition truthy (l : list A) : bool :=
  match l with
  | [] => false
  | _ :: _ => true
  end.

(** stable sort: [before y x] tells that [y] sorts strictly before [x] *)
Variable before : A -> A -> bool.

Fixpoint insert_by (x : A) (l : list A) : list A :=
  match l with
  | [] => [x]
  | y :: l' => if before y x then y :: insert_by x l' else x :: l
  end.

Fixpoint sort_by (l : list A) : list A :=
  match l with
  | [] => []
  | x :: l' => insert_by x (sort_by l')
  end.
End Lists.

(** [LIMIT n]: a negative [n] is no limit *)
Definition sql_limit {A : Type} (n : Z) (l : list A) : list A :=
  if n <? 0 then l else firstn (Z.to_nat n) l.

(** [dict] counters in insertion order: [d[k] = d.get(k, 0) + 1] *)
Fixpoint bump (k : string) (d : list (string * Z)) : list (string * Z) :=
  match d with
  | [] => [(k, 1)]
  | (k', n) :: d' => if String.eqb k k' then (k', n + 1) :: d' else (k', n) :: bump k d'
  end.

(** [d.get(k, 0)] *)
Fixpoint dict_get (k : string) (d : list (string * Z)) : Z :=
  match d with
  | [] => 0
  | (k', n) :: d' => if String.eqb k k' then n else dict_get k d'
  end.

(** the state of a counter after counting the keys of a list *)
Record counted (d : list (string * Z)) (count : string -> Z) : Prop := mkCounted {
  counted_keys : NoDup (map fst d);
  counted_positive : forall x n, In (x, n) d -> 0 < n;
  counted_get : forall k, dict_get k d = count k
}.

(** ** SQLite's [LIKE] *)

(** [text LIKE pattern] without an escape character: [%] stands for any
    run of characters, [_] for any one character, and ASCII letters
    compare without case. *)
Fixpoint like (pattern : string) : string -> bool :=
  match pattern with
  | EmptyString => fun text =>
      match text with
      | EmptyString => true
      | String _ _ => false
      end
  | String p pattern' =>
      if code p =? 37 then
        fix star (text : string) : bool :=
          like pattern' text ||
          match text with
          | EmptyString => false
          | String _ text' => star text'
          end
      else if code p =? 95 then fun text =>
        match text with
        | EmptyString => false
        | String _ text' => like pattern' text'
        end
      else fun text =>
        match text with
        | EmptyString => false
        | String c text' =>
            Ascii.eqb (sql_lower_char p) (sql_lower_char c) && like pattern' text'
        end
  end.

(** SQLite reads the pattern and the text as C strings: each ends at its
    first NUL character. *)
Definition sql_like (pattern text : string) : bool :=
  like (until_nul pattern) (until_nul text).

(** the length of [s] in bytes of UTF-8 *)
Definition byte_length (s : string) : Z := Z.of_nat (List.length (Md5.utf8 s)).

(** SQLITE_MAX_LIKE_PATTERN_LENGTH: [LIKE] raises on a longer pattern *)
Definition max_like_pattern : Z := 50000.

(** ** Data models *)

Module Hypothesis_.
(** The dataclass [Hypothesis]: a testable hypothesis with confidence
    tracking. *)
Record t : Type := mk {
  id : string;
  text : string;
  status : string;
  confidence : Q;
  evidence : list string;
  created_at : string;
  updated_at : string
}.

Definition is_active (self : t) : bool :=
  String.eqb (status self) "proposed" || String.eqb (status self) "testing".

(** [max(0.0, min(1.0, self.confidence + delta))]; a sum beyond the
    largest double is an infinity in Python, which [min] and [max] bring
    to the same bound as the rounded sum *)
Definition update_confidence (self : t) (delta : Q) : t :=
  mk (id self) (text self) (status self)
     (py_max 0 (py_min 1 (fl (confidence self + delta))))
     (evidence self) (created_at self) (updated_at self).
End Hypothesis_.

Module Citation.
(** A single citation or reference. *)
Record t : Type := mk {
  ref_id : string;
  title : string;
  authors : list string;
  year : option Z;
  url : string;
  notes : string
}.
End Citation.

Module ResearchPaper.
(** A structured research paper or experiment report entry.  The
    [metadata] dictionary is carried as its JSON text. *)
Record t : Type := mk {
  id : string;
  title : string;
  abstract : string;
  authors : list string;
  tags : list string;
  hypotheses : list Hypothesis_.t;
  citations : list Citation.t;
  status : string;
  score : Q;
  created_at : string;
  updated_at : string;
  metadata : string
}.

Definition word_count (self : t) : nat := List.length (py_split (abstract self)).

Definition confirmed_hypotheses (self : t) : list Hypothesis_.t :=
  filter (fun h => String.eqb (Hypothesis_.status h) "confirmed") (hypotheses self).

Definition avg_confidence (self : t) : result (option float) :=
  let active := map Hypothesis_.confidence (filter Hypothesis_.is_active (hypotheses self)) in
  if truthy active then
    a <- py_div (py_sum active) (Z.of_nat (List.length active)) ;; Ok (Some a)
  else Ok None.

(** Case-insensitive search across title, abstract, and tags. *)
Definition matches_query (self : t) (query : string) : bool :=
  let q := py_lower query in
  let hay := py_lower (join " " ([title self; abstract self] ++ tags self)%list) in
  contains q hay.
End ResearchPaper.

(** ** The tables *)

Module PaperRow.
Record t : Type := mk {
  id : string;
  title : string;
  abstract : string;
  authors : string;
  tags : string;
  status : string;
  score : Q;
  created_at : string;
  updated_at : string;
  metadata : string
}.
End PaperRow.

Module HypRow.
Record t : Type := mk {
  id : string;
  paper_id : string;
  text : string;
  status : string;
  confidence : Q;
  evidence : string;
  created_at : string;
  updated_at : string
}.
End HypRow.

Module CitRow.
Record t : Type := mk {
  id : Z;
  paper_id : string;
  ref_id : string;
  title : string;
  authors : string;
  year : option Z;
  url : string;
  notes : string
}.
End CitRow.

Module FtsRow.
(** a row given to the [papers_fts] index *)
Record t : Type := mk {
  id : string;
  title : string;
  abstract : string;
  tags : string
}.
End FtsRow.

(** The database of [_init_db]: the three tables, the rows given to the
    full-text index, and the AUTOINCREMENT counter of [citations]. *)
Record DB : Type := mkDB {
  papers : list PaperRow.t;
  hypotheses : list HypRow.t;
  citations : list CitRow.t;
  papers_fts : list FtsRow.t;
  citations_seq : Z
}.

Definition empty_db : DB := mkDB [] [] [] [] 0.

(** the entries of [_row_to_summary] *)
Module Summary.
Record t : Type := mk {
  id : string;
  title : string;
  status : string;
  score : Q;
  authors : list string;
  tags : list string;
  created_at : string
}.
End Summary.

(** the dictionary of [corpus_stats] *)
Module Stats.
Record t : Type := mk {
  total_papers : Z;
  by_status : list (string * Z);
  avg_score : float;
  total_hypotheses : Z;
  confirmed_hypotheses : Z;
  confirmation_rate : Q;
  top_tags : list (string * Z)
}.
End Stats.

(** ** The analyzer *)

Module ResearchAnalyzer.

(** [s or default] on a string *)
Definition or_str (s default : string) : string :=
  match s with
  | EmptyString => default
  | String _ _ => s
  end.

Definition has_id (pid : string) (r : PaperRow.t) : bool :=
  String.eqb (PaperRow.id r) pid.

Definition hyp_has_id (hid : string) (h : HypRow.t) : bool :=
  String.eqb (HypRow.id h) hid.

Definition hyp_of_paper (pid : string) (h : HypRow.t) : bool :=
  String.eqb (HypRow.paper_id h) pid.

Definition cit_of_paper (pid : string) (c : CitRow.t) : bool :=
  String.eqb (CitRow.paper_id c) pid.

(** *** Paper CRUD *)

(** [INSERT OR IGNORE INTO papers]: the row is dropped when its primary
    key is already stored. *)
Definition insert_or_ignore_paper (row : PaperRow.t) (rows : list PaperRow.t)
  : list PaperRow.t :=
  if existsb (has_id (PaperRow.id row)) rows then rows else (rows ++ [row])%list.

(** [INSERT OR IGNORE INTO papers_fts]: the virtual table has no key
    other than its rowid, which the statement leaves to the table, so
    no conflict can arise and the row is always added. *)
Definition insert_fts (row : FtsRow.t) (rows : list FtsRow.t) : list FtsRow.t :=
  (rows ++ [row])%list.

(** [add_paper]: [clk_id] is the clock reading of [_paper_id] and
    [clk_now] the one of [_now]; [metadata] is the JSON text of the
    dictionary. *)
Definition add_paper (clk_id clk_now : datetime) (title abstract : string)
    (authors tags : option (list string)) (metadata : option string) (db : DB)
  : result (DB * string) :=
  let pid := _paper_id clk_id title in
  let ts := _now clk_now in
  let row :=
    PaperRow.mk pid title abstract
      (Json.dumps (or_empty authors)) (Json.dumps (or_empty tags))
      "draft" 0 ts ts
      (match metadata with Some m => m | None => "{}" end) in
  let papers1 := insert_or_ignore_paper row (papers db) in
  let fts1 :=
    insert_fts (FtsRow.mk pid title abstract (join " " (or_empty tags)))
               (papers_fts db) in
  Ok (mkDB papers1 (hypotheses db) (citations db) fts1 (citations_seq db), pid).

Definition hypothesis_of_row (h : HypRow.t) : result Hypothesis_.t :=
  ev <- Json.loads (HypRow.evidence h) ;;
  Ok (Hypothesis_.mk (HypRow.id h) (HypRow.text h) (HypRow.status h)
        (HypRow.confidence h) ev (HypRow.created_at h) (HypRow.updated_at h)).

Definition citation_of_row (c : CitRow.t) : result Citation.t :=
  au <- Json.loads (CitRow.authors c) ;;
  Ok (Citation.mk (CitRow.ref_id c) (CitRow.title c) au (CitRow.year c)
        (CitRow.url c) (CitRow.notes c)).

(** [ORDER BY created_at]: rows with equal stamps stay in rowid order *)
Definition by_created_at (y x : HypRow.t) : bool :=
  String.ltb (HypRow.created_at y) (HypRow.created_at x).

Definition _row_to_paper (row : PaperRow.t) (db : DB) : result ResearchPaper.t :=
  let pid := PaperRow.id row in
  let hyp_rows := sort_by by_created_at (filter (hyp_of_paper pid) (hypotheses db)) in
  hyps <- mapM hypothesis_of_row hyp_rows ;;
  let cit_rows := filter (cit_of_paper pid) (citations db) in
  cits <- mapM citation_of_row cit_rows ;;
  authors <- Json.loads (or_str (PaperRow.authors row) "[]") ;;
  tags <- Json.loads (or_str (PaperRow.tags row) "[]") ;;
  Ok (ResearchPaper.mk pid (PaperRow.title row) (PaperRow.abstract row)
        authors tags hyps cits (PaperRow.status row) (PaperRow.score row)
        (PaperRow.created_at row) (PaperRow.updated_at row)
        (or_str (PaperRow.metadata row) "{}")).

(** [get_paper]: [None] is the not-found answer *)
Definition get_paper (paper_id : string) (db : DB) : result (option ResearchPaper.t) :=
  match find (has_id paper_id) (papers db) with
  | None => Ok None
  | Some row => p <- _row_to_paper row db ;; Ok (Some p)
  end.

Definition set_score (score : Q) (ts : string) (r : PaperRow.t) : PaperRow.t :=
  PaperRow.mk (PaperRow.id r) (PaperRow.title r) (PaperRow.abstract r)
    (PaperRow.authors r) (PaperRow.tags r) (PaperRow.status r) score
    (PaperRow.created_at r) ts (PaperRow.metadata r).

Definition set_status (status ts : string) (r : PaperRow.t) : PaperRow.t :=
  PaperRow.mk (PaperRow.id r) (PaperRow.title r) (PaperRow.abstract r)
    (PaperRow.authors r) (PaperRow.tags r) status (PaperRow.score r)
    (PaperRow.created_at r) ts (PaperRow.metadata r).

(** [UPDATE papers SET ... WHERE id=?] *)
Definition update_papers (pid : string) (f : PaperRow.t -> PaperRow.t) (db : DB) : DB :=
  mkDB (map (fun r => if has_id pid r then f r else r) (papers db))
       (hypotheses db) (citations db) (papers_fts db) (citations_seq db).

Definition update_score (clk : datetime) (paper_id : string) (score : Q) (db : DB)
  : result (DB * unit) :=
  Ok (update_papers paper_id (set_score (py_max 0 (py_min 10 score)) (_now clk)) db, tt).

Definition valid_statuses : list string := ["draft"; "review"; "published"; "archived"].

Definition update_status (clk : datetime) (paper_id status : string) (db : DB)
  : result (DB * unit) :=
  if negb (existsb (String.eqb status) valid_statuses) then Raise ValueError
  else Ok (update_papers paper_id (set_status status (_now clk)) db, tt).

(** [DELETE FROM hypotheses WHERE paper_id=?] *)
Definition delete_hypotheses (pid : string) (db : DB) : DB :=
  mkDB (papers db) (filter (fun h => negb (hyp_of_paper pid h)) (hypotheses db))
       (citations db) (papers_fts db) (citations_seq db).

(** [DELETE FROM citations WHERE paper_id=?] *)
Definition delete_citations (pid : string) (db : DB) : DB :=
  mkDB (papers db) (hypotheses db)
       (filter (fun c => negb (cit_of_paper pid c)) (citations db))
       (papers_fts db) (citations_seq db).

(** [DELETE FROM papers WHERE id=?], with the statement's [rowcount] *)
Definition delete_papers (pid : string) (db : DB) : DB * Z :=
  (mkDB (filter (fun r => negb (has_id pid r)) (papers db))
        (hypotheses db) (citations db) (papers_fts db) (citations_seq db),
   Z.of_nat (List.length (filter (has_id pid) (papers db)))).

Definition delete_paper (paper_id : string) (db : DB) : result (DB * bool) :=
  let db1 := delete_hypotheses paper_id db in
  let db2 := delete_citations paper_id db1 in
  let '(db3, rowcount) := delete_papers paper_id db2 in
  Ok (db3, 0 <? rowcount).

(** *** Hypotheses *)

(** [add_hypothesis]: the primary key of [hypotheses] rejects a second
    row with the same id. *)
Definition add_hypothesis (clk : datetime) (paper_id text : string) (confidence : Q)
    (evidence : option (list string)) (db : DB) : result (DB * string) :=
  let ts := _now clk in
  let hid := _hypothesis_id paper_id text ts in
  if existsb (hyp_has_id hid) (hypotheses db) then Raise IntegrityError
  else
    let row :=
      HypRow.mk hid paper_id text "proposed" confidence
        (Json.dumps (or_empty evidence)) ts ts in
    Ok (mkDB (papers db) (hypotheses db ++ [row])%list (citations db)
             (papers_fts db) (citations_seq db), hid).

Definition set_hypothesis (status : string) (confidence : Q) (evidence ts : string)
    (h : HypRow.t) : HypRow.t :=
  HypRow.mk (HypRow.id h) (HypRow.paper_id h) (HypRow.text h) status confidence
    evidence (HypRow.created_at h) ts.

Definition update_hypothesis (clk : datetime) (hyp_id : string)
    (status : option string) (confidence : option Q)
    (evidence : option (list string)) (db : DB) : result (DB * unit) :=
  match find (hyp_has_id hyp_id) (hypotheses db) with
  | None => Raise KeyError
  | Some row =>
      let new_status :=
        match status with
        | Some ((String _ _) as s) => s
        | _ => HypRow.status row
        end in
      let new_confidence :=
        match confidence with
        | Some c => c
        | None => HypRow.confidence row
        end in
      ev_list <- (match evidence with
                  | Some ((_ :: _) as l) => Ok l
                  | _ => Json.loads (HypRow.evidence row)
                  end) ;;
      let upd := set_hypothesis new_status new_confidence (Json.dumps ev_list) (_now clk) in
      Ok (mkDB (papers db)
               (map (fun h => if hyp_has_id hyp_id h then upd h else h) (hypotheses db))
               (citations db) (papers_fts db) (citations_seq db), tt)
  end.

(** *** Citations *)

(** an optional integer parameter of a statement *)
Definition bindable (n : option Z) : bool :=
  match n with
  | Some z => int64 z
  | None => true
  end.

(** [add_citation]: the year has to be an integer of SQLite, and
    AUTOINCREMENT gives the id after the largest one ever given, the table
    being full past the largest integer. *)
Definition add_citation (paper_id ref_id title : string) (authors : option (list string))
    (year : option Z) (url notes : string) (db : DB) : result (DB * unit) :=
  if negb (bindable year) then Raise OverflowError
  else if 2 ^ 63 - 1 <=? citations_seq db then Raise OperationalError
  else
    let rowid := citations_seq db + 1 in
    let row :=
      CitRow.mk rowid paper_id ref_id title (Json.dumps (or_empty authors)) year url notes in
    Ok (mkDB (papers db) (hypotheses db) (citations db ++ [row])%list
             (papers_fts db) rowid, tt).

(** *** Search and queries *)

Definition _row_to_summary (row : PaperRow.t) : result Summary.t :=
  authors <- Json.loads (or_str (PaperRow.authors row) "[]") ;;
  tags <- Json.loads (or_str (PaperRow.tags row) "[]") ;;
  Ok (Summary.mk (PaperRow.id row) (PaperRow.title row) (PaperRow.status row)
        (PaperRow.score row) authors tags (PaperRow.created_at row)).

(** the [WHERE] clause of the fallback statement *)
Definition like_where (pat : string) (r : PaperRow.t) : bool :=
  sql_like pat (sql_lower (PaperRow.title r))
  || sql_like pat (sql_lower (PaperRow.abstract r))
  || sql_like pat (sql_lower (PaperRow.tags r)).

(** the [LIKE] statement of the fallback, on the lower-cased query [q]:
    the rows in rowid order; the first row it looks at raises when the
    pattern is too long *)
Definition like_select (q : string) (limit : Z) (db : DB) : result (list PaperRow.t) :=
  let pat := "%" ++ q ++ "%" in
  if (max_like_pattern <? byte_length pat) && negb (limit =? 0) && truthy (papers db)
  then Raise OperationalError
  else Ok (sql_limit limit (filter (like_where pat) (papers db))).

(** The characters that are neither white space, nor part of a bare word,
    nor a symbol of the query syntax of FTS5: outside a quoted string the
    parser of FTS5 stops at them with a syntax error. *)
Definition fts5_stray (c : ascii) : bool :=
  in_range 1 8 c || in_range 11 12 c || in_range 14 25 c || in_range 27 31 c
  || (code c =? 33) || in_range 35 39 c || in_range 46 47 c || in_range 59 64 c
  || in_range 91 93 c || (code c =? 96) || (code c =? 124) || in_range 126 127 c.

(** queries that FTS5 rejects whatever the index holds: no quoted string,
    and a stray character before the end of the C string *)
Definition fts5_syntax_error (query : string) : bool :=
  let q := until_nul query in
  negb (sany (Ascii.eqb Json.dquote) q) && sany fts5_stray q.

Section FullText.
(** The [MATCH] statement is answered by SQLite's FTS5 extension, which
    is not code of the analyzer: on a query that its parser does not
    reject at a stray character, the rows it returns or the exception it
    raises are given by [fts5_select]. *)
Variable fts5_select : DB -> string -> Z -> result (list PaperRow.t).

(** the [MATCH] statement; [LIMIT 0] ends it before the query is read *)
Definition match_select (query : string) (limit : Z) (db : DB)
  : result (list PaperRow.t) :=
  if limit =? 0 then Ok []
  else if fts5_syntax_error query then Raise OperationalError
  else fts5_select db query limit.

Definition search (query : string) (limit : Z) (db : DB) : result (list Summary.t) :=
  let q := py_lower query in
  if negb (int64 limit) then Raise OverflowError
  else
    rows <- (match match_select query limit db with
             | Raise OperationalError => like_select q limit db
             | r => r
             end) ;;
    mapM _row_to_summary rows.
End FullText.

Definition nonempty (s : option string) : option string :=
  match s with
  | Some (String _ _) => s
  | _ => None
  end.

(** [ORDER BY score DESC] in a sort: rows with equal scores stay in
    rowid order *)
Definition by_score_desc (y x : PaperRow.t) : bool :=
  Qlt_bool (PaperRow.score x) (PaperRow.score y).

(** the order of the index [idx_papers_score]: by score, rows with equal
    scores in rowid order *)
Definition by_score_asc (y x : PaperRow.t) : bool :=
  Qlt_bool (PaperRow.score y) (PaperRow.score x).

(** [SELECT * FROM papers WHERE score >= ? (AND status = ?) ORDER BY score
    DESC]: without a status SQLite reads [idx_papers_score] downwards, so
    that of two equal scores the later row comes first; with a status it
    sorts the rows of [idx_papers_status], which keeps them in rowid
    order. *)
Definition select_by_score (status : option string) (min_score : Q) (db : DB)
  : list PaperRow.t :=
  match status with
  | None =>
      rev (sort_by by_score_asc
             (filter (fun r => Qle_bool min_score (PaperRow.score r)) (papers db)))
  | Some s =>
      sort_by by_score_desc
        (filter (fun r => Qle_bool min_score (PaperRow.score r)
                          && String.eqb (PaperRow.status r) s) (papers db))
  end.

Definition list_papers (status tag : option string) (min_score : Q) (limit : Z) (db : DB)
  : result (list Summary.t) :=
  if negb (int64 limit) then Raise OverflowError
  else
    let rows := sql_limit limit (select_by_score (nonempty status) min_score db) in
    res <- mapM _row_to_summary rows ;;
    match nonempty tag with
    | Some t =>
        Ok (filter (fun r => existsb (String.eqb (py_lower t)) (map py_lower (Summary.tags r)))
                   res)
    | None => Ok res
    end.

Definition top_papers (n : Z) (status : option string) (db : DB)
  : result (list Summary.t) :=
  list_papers status None 0 n db.

Definition is_confirmed (h : HypRow.t) : bool := String.eqb (HypRow.status h) "confirmed".

(** [confirmed / hyp_count] rounded, behind its guard *)
Definition confirmation_rate (confirmed hyp_count : Z) : result Q :=
  if negb (hyp_count =? 0) then
    r <- int_truediv confirmed hyp_count ;; Ok (py_round r 3)
  else Ok 0%Q.

Definition by_count_desc (y x : string * Z) : bool := snd x <? snd y.

(** the order of the groups of [GROUP BY status], read from
    [idx_papers_status] *)
Definition by_key (y x : string * Z) : bool := String.ltb (fst y) (fst x).

Fixpoint count_tags (rows : list PaperRow.t) (all_tags : list (string * Z))
  : result (list (string * Z)) :=
  match rows with
  | [] => Ok all_tags
  | r :: rows' =>
      ts <- Json.loads (or_str (PaperRow.tags r) "[]") ;;
      count_tags rows' (fold_left (fun d t => bump t d) ts all_tags)
  end.

(** [SELECT AVG(score) FROM papers WHERE score > 0]: SQLite reads the
    scores from [idx_papers_score], smallest first, adds them up as
    doubles and divides by their number; no row gives NULL *)
Definition avg_positive_score (db : DB) : option float :=
  let scored :=
    sort_by by_score_asc (filter (fun r => Qlt_bool 0 (PaperRow.score r)) (papers db)) in
  match scored with
  | [] => None
  | _ :: _ =>
      Some (float_div (py_sum (map PaperRow.score scored))
              (fl (inject_Z (Z.of_nat (List.length scored)))))
  end.

Definition corpus_stats (db : DB) : result Stats.t :=
  let total := Z.of_nat (List.length (papers db)) in
  let by_status :=
    sort_by by_key (fold_left (fun d r => bump (PaperRow.status r) d) (papers db) []) in
  let avg_score := avg_positive_score db in
  let hyp_count := Z.of_nat (List.length (hypotheses db)) in
  let confirmed := Z.of_nat (List.length (filter is_confirmed (hypotheses db))) in
  all_tags <- count_tags (papers db) [] ;;
  let top_tags := firstn 10 (sort_by by_count_desc all_tags) in
  rate <- confirmation_rate confirmed hyp_count ;;
  Ok (Stats.mk total by_status
        (float_round (match avg_score with Some a => a | None => Finite 0 end) 2)
        hyp_count confirmed rate top_tags).

End ResearchAnalyzer.


(** ** The rows a listing selects *)

(** the [WHERE] clause of [list_papers], as one predicate *)
Definition wanted_row (status : option string) (min_score : Q) (r : PaperRow.t) : bool :=
  Qle_bool min_score (PaperRow.score r)
  && match status with
     | Some s => String.eqb (PaperRow.status r) s
     | None => true
     end.

(** ** Sequences of mutator calls *)

(** a call of one of the mutators, with the clock readings it consumes *)
Inductive call : Type :=
| AddPaper (clk_id clk_now : datetime) (title abstract : string)
    (authors tags : option (list string)) (metadata : option string)
| UpdateScore (clk : datetime) (paper_id : string) (score : Q)
| UpdateStatus (clk : datetime) (paper_id status : string)
| DeletePaper (paper_id : string)
| AddHypothesis (clk : datetime) (paper_id text : string) (confidence : Q)
    (evidence : option (list string))
| UpdateHypothesis (clk : datetime) (hyp_id : string) (status : option string)
    (confidence : option Q) (evidence : option (list string))
| AddCitation (paper_id ref_id title : string) (authors : option (list string))
    (year : option Z) (url notes : string).

(** the database a successful call leaves *)
Definition run_call (c : call) (db : DB) : result DB :=
  match c with
  | AddPaper clk_id clk_now title abstract authors tags metadata =>
      r <- ResearchAnalyzer.add_paper clk_id clk_now title abstract authors tags metadata db ;;
      Ok (fst r)
  | UpdateScore clk paper_id score =>
      r <- ResearchAnalyzer.update_score clk paper_id score db ;; Ok (fst r)
  | UpdateStatus clk paper_id status =>
      r <- ResearchAnalyzer.update_status clk paper_id status db ;; Ok (fst r)
  | DeletePaper paper_id =>
      r <- ResearchAnalyzer.delete_paper paper_id db ;; Ok (fst r)
  | AddHypothesis clk paper_id text confidence evidence =>
      r <- ResearchAnalyzer.add_hypothesis clk paper_id text confidence evidence db ;;
      Ok (fst r)
  | UpdateHypothesis clk hyp_id status confidence evidence =>
      r <- ResearchAnalyzer.update_hypothesis clk hyp_id status confidence evidence db ;;
      Ok (fst r)
  | AddCitation paper_id ref_id title authors year url notes =>
      r <- ResearchAnalyzer.add_citation paper_id ref_id title authors year url notes db ;;
      Ok (fst r)
  end.

(** the databases that successful calls build from the empty one *)
Inductive reachable : DB -> Prop :=
| reachable_empty : reachable empty_db
| reachable_call (c : call) (db db' : DB) :
    reachable db -> run_call c db = Ok db' -> reachable db'.

(** ** Rows the analyzer can read back *)

(** [json.loads] answers on the text *)
Definition decodes (text : string) : bool :=
  match Json.loads text with
  | Ok _ => true
  | Raise _ => false
  end.

Definition wf_paper (r : PaperRow.t) : bool :=
  decodes (ResearchAnalyzer.or_str (PaperRow.authors r) "[]")
  && decodes (ResearchAnalyzer.or_str (PaperRow.tags r) "[]").

Definition wf_hyp (h : HypRow.t) : bool := decodes (HypRow.evidence h).

Definition wf_cit (c : CitRow.t) : bool := decodes (CitRow.authors c).

(** every JSON column of the database holds a list of strings, as all
    rows written by the analyzer do *)
Definition wf_db (db : DB) : bool :=
  forallb wf_paper (papers db) && forallb wf_hyp (hypotheses db)
  && forallb wf_cit (citations db).

(** every stored score lies in the interval [0, 10] *)
Definition scores_in_range (db : DB) : Prop :=
  forall r, In r (papers db) -> (0 <= PaperRow.score r /\ PaperRow.score r <= 10)%Q.

(** primary keys: no two papers, hypotheses or citations share an id, and
    the AUTOINCREMENT counter is at least every citation id *)
Definition keys_unique (db : DB) : Prop :=
  NoDup (map PaperRow.id (papers db))
  /\ NoDup (map HypRow.id (hypotheses db))
  /\ NoDup (map CitRow.id (citations db))
  /\ (forall c, In c (citations db) -> CitRow.id c <= citations_seq db).

(** ** Sample data *)

Module Sample.

(** two readings within one second, and one a second later *)
Definition noon : datetime := mkDatetime 2026 11 3 12 0 0 0.
Definition noon_later : datetime := mkDatetime 2026 11 3 12 0 0 250000.
Definition next_second : datetime := mkDatetime 2026 11 3 12 0 1 0.

Definition title : string := "Trinary Logic".

(** a paper object without an active hypothesis *)
Definition settled_paper : ResearchPaper.t :=
  ResearchPaper.mk "x" "t" "" [] []
    [Hypothesis_.mk "h1" "a" "confirmed" (9 # 10) [] "" "";
     Hypothesis_.mk "h2" "b" "refuted" (1 # 10) [] "" ""]
    [] "draft" 0 "" "" "{}".

(** the database after [add_paper("Trinary Logic", abstract="first", tags=["logic"])] *)
Definition db_one : DB :=
  match ResearchAnalyzer.add_paper noon noon title "first" None (Some ["logic"]) None empty_db with
  | Ok (db, _) => db
  | Raise _ => empty_db
  end.

Definition pid : string := _paper_id noon title.

(** [db_one] with a hypothesis that carries one piece of evidence *)
Definition db_hyp : DB :=
  match ResearchAnalyzer.add_hypothesis noon pid "X" (9 # 10) (Some ["e1"]) db_one with
  | Ok (db, _) => db
  | Raise _ => db_one
  end.

Definition hid : string := _hypothesis_id pid "X" (_now noon).

(** the paper of the test suite, added to [db_one] *)
Definition emergence_title : string := "Emergence in Multi-Agent Systems".

Definition db_two : DB :=
  match ResearchAnalyzer.add_paper next_second next_second emergence_title
          "We study emergence under contradiction pressure in agent networks."
          (Some ["A. Author"]) (Some ["multi-agent"; "emergence"]) None db_one with
  | Ok (db, _) => db
  | Raise _ => db_one
  end.

Definition emergence_pid : string := _paper_id next_second emergence_title.

(** three papers tagged "test", added to the empty database *)
Definition db_three : DB :=
  fold_left
    (fun db t =>
       match ResearchAnalyzer.add_paper noon noon t "" None (Some ["test"]) None db with
       | Ok (db', _) => db'
       | Raise _ => db
       end)
    ["Paper 0"; "Paper 1"; "Paper 2"] empty_db.

(** the float literals [0.1] and [9.2] *)
Definition tenth : Q := fl (1 # 10).
Definition nine_point_two : Q := fl (92 # 10).

(** [db_two] with the scores 8.5 and 9.2 *)
Definition db_scored : DB :=
  match ResearchAnalyzer.update_score next_second pid (85 # 10) db_two with
  | Ok (db, _) =>
      match ResearchAnalyzer.update_score next_second emergence_pid nine_point_two db with
      | Ok (db', _) => db'
      | Raise _ => db
      end
  | Raise _ => db_two
  end.

(** [db_hyp] with its hypothesis confirmed, and two more hypotheses *)
Definition db_confirmed : DB :=
  fold_left
    (fun db c =>
       match run_call c db with
       | Ok db' => db'
       | Raise _ => db
       end)
    [UpdateHypothesis next_second hid (Some "confirmed") None None;
     AddHypothesis next_second pid "Y" (1 # 2) None;
     AddHypothesis next_second pid "Z" (1 # 2) None]
    db_hyp.

(** a paper object with three active hypotheses of confidence 0.1 *)
Definition three_tenths : ResearchPaper.t :=
  ResearchPaper.mk "x" "t" "" [] []
    [Hypothesis_.mk "h1" "a" "proposed" tenth [] "" "";
     Hypothesis_.mk "h2" "b" "testing" tenth [] "" "";
     Hypothesis_.mk "h3" "c" "proposed" tenth [] "" "";
     Hypothesis_.mk "h4" "d" "refuted" 5 [] "" ""]
    [] "draft" 0 "" "" "{}".

End Sample.

(** * Properties *)

(** ** The implementations against the libraries' published values *)

Example md5_empty : Md5.hexdigest "" = "d41d8cd98f00b204e9800998ecf8427e".
Proof. vm_compute. reflexivity. Qed.

Example md5_abc : Md5.hexdigest "abc" = "900150983cd24fb0d6963f7d28e17f72".
Proof. vm_compute. reflexivity. Qed.

Example md5_two_blocks :
  Md5.hexdigest "yyyyyyyyyyyyyyyyyyyyyyyyyyyyyyyyyyyyyyyyyyyyyyyyyyyyyyyyyyyyyyyy"
  = "b0c4864f4e28d2d76929c38d87db7ed5".
Proof. vm_compute. reflexivity. Qed.

Example paper_id_sample : Sample.pid = "trinary-logic-42a38d3b02".
Proof. vm_compute. reflexivity. Qed.

Example isoformat_sample :
  isoformat Sample.noon_later = "2026-11-03T12:00:00.250000+00:00".
Proof. vm_compute. reflexivity. Qed.

Example slugify_sample :
  slugify "  --Hello,   World!! 12345678901234567890 xyz" = "hello-world-12345678901".
Proof. vm_compute. reflexivity. Qed.

(** ** Strings *)

Lemma sapp_assoc (a b c : string) : (a ++ b) ++ c = a ++ (b ++ c).
Proof. induction a as [|x a IH]; simpl; [reflexivity | now rewrite IH]. Qed.

Lemma sapp_nil_r (a : string) : a ++ "" = a.
Proof. induction a as [|x a IH]; simpl; [reflexivity | now rewrite IH]. Qed.

Lemma srev_onto_app (s acc : string) : srev_onto s acc = srev s ++ acc.
Proof.
  unfold srev. revert acc.
  induction s as [|c s IH]; intro acc; simpl; [reflexivity|].
  rewrite IH, (IH (String c "")), sapp_assoc. reflexivity.
Qed.

Lemma srev_app (a b : string) : srev (a ++ b) = srev b ++ srev a.
Proof.
  induction a as [|c a IH]; simpl.
  - now rewrite sapp_nil_r.
  - unfold srev in *. simpl.
    rewrite (srev_onto_app (a ++ b)), (srev_onto_app a).
    unfold srev. rewrite IH, sapp_assoc. reflexivity.
Qed.

Lemma srev_involutive (s : string) : srev (srev s) = s.
Proof.
  induction s as [|c s IH]; [reflexivity|].
  unfold srev at 2. simpl. rewrite srev_onto_app, srev_app, IH. reflexivity.
Qed.

Lemma smap_app (f : ascii -> ascii) (a b : string) : smap f (a ++ b) = smap f a ++ smap f b.
Proof. induction a as [|c a IH]; simpl; [reflexivity | now rewrite IH]. Qed.

Lemma prefix_split (q s : string) : prefix q s = true -> exists post, s = q ++ post.
Proof.
  revert s. induction q as [|c q IH]; intros s H.
  - exists s. reflexivity.
  - destruct s as [|d s]; simpl in H; [discriminate|].
    destruct (ascii_dec c d) as [->|]; [|discriminate].
    destruct (IH _ H) as [post ->]. exists post. reflexivity.
Qed.

(** [q in hay] holds exactly when [hay] is [pre ++ q ++ post]. *)
Lemma contains_split (q hay : string) :
  contains q hay = true -> exists pre post, hay = pre ++ q ++ post.
Proof.
  induction hay as [|c hay IH]; cbn [contains]; intro H;
    apply orb_true_iff in H; destruct H as [H|H].
  - destruct (prefix_split _ _ H) as [post E]. exists "", post. exact E.
  - discriminate.
  - destruct (prefix_split _ _ H) as [post E]. exists "", post. exact E.
  - destruct (IH H) as (pre & post & ->). exists (String c pre), post. reflexivity.
Qed.

(** ** JSON: decoding what was encoded *)

Module JsonFacts.
Import Json.

Lemma run_escape_char (c : ascii) (cur : string) (done : list string) (rest : string) :
  run PString cur done (escape_char c ++ rest) = run PString (String c cur) done rest.
Proof.
  destruct c as [b0 b1 b2 b3 b4 b5 b6 b7].
  destruct b0, b1, b2, b3, b4, b5, b6, b7; reflexivity.
Qed.

Lemma run_escape (s cur : string) (done : list string) (rest : string) :
  run PString cur done (escape s ++ rest) = run PString (srev_onto s cur) done rest.
Proof.
  revert cur. induction s as [|c s IH]; intro cur; simpl; [reflexivity|].
  rewrite sapp_assoc, run_escape_char. apply IH.
Qed.

Lemma run_encode_string (s : string) (done : list string) (rest : string) :
  run PString "" done (escape s ++ String dquote rest) = run PAfter "" (s :: done) rest.
Proof.
  rewrite run_escape. simpl.
  change (srev_onto s "") with (srev s). now rewrite srev_involutive.
Qed.

Lemma dumps_cons (x : string) (l : list string) :
  dumps (x :: l) = "[" ++ encode_string x ++ tail_text l.
Proof.
  unfold dumps. f_equal.
  revert x. induction l as [|y l IH]; intro x.
  - reflexivity.
  - change (join ", " (map encode_string (x :: y :: l)))
      with (encode_string x ++ ", " ++ join ", " (map encode_string (y :: l))).
    rewrite !sapp_assoc. f_equal.
    change (tail_text (y :: l)) with (", " ++ encode_string y ++ tail_text l).
    rewrite <- IH. reflexivity.
Qed.

Lemma run_tail_text (l done : list string) :
  run PAfter "" done (tail_text l) = Some (rev done ++ l)%list.
Proof.
  revert done. induction l as [|x l IH]; intro done.
  - simpl. now rewrite app_nil_r.
  - change (tail_text (x :: l))
      with (String "," (String " " (String dquote (escape x ++ String dquote "") ++ tail_text l))).
    change (run PAfter "" done
              (String "," (String " " (String dquote (escape x ++ String dquote "") ++ tail_text l))))
      with (run PString "" done ((escape x ++ String dquote "") ++ tail_text l)).
    rewrite sapp_assoc. change (String dquote "" ++ tail_text l) with (String dquote (tail_text l)).
    rewrite run_encode_string, IH. simpl. now rewrite <- app_assoc.
Qed.

End JsonFacts.

(** [json.loads(json.dumps(l)) == l] for every list of strings *)
Lemma loads_dumps (l : list string) : Json.loads (Json.dumps l) = Ok l.
Proof.
  destruct l as [|x l]; [reflexivity|].
  rewrite JsonFacts.dumps_cons. unfold Json.loads.
  change (Json.run Json.PStart "" [] ("[" ++ Json.encode_string x ++ Json.tail_text l))
    with (Json.run Json.PString "" []
            ((Json.escape x ++ String Json.dquote "") ++ Json.tail_text l)).
  rewrite sapp_assoc.
  change (String Json.dquote "" ++ Json.tail_text l)
    with (String Json.dquote (Json.tail_text l)).
  now rewrite JsonFacts.run_encode_string, JsonFacts.run_tail_text.
Qed.

(** the text of [json.dumps] is never the empty string *)
Lemma dumps_or_str (l : list string) (d : string) :
  ResearchAnalyzer.or_str (Json.dumps l) d = Json.dumps l.
Proof. reflexivity. Qed.

(** ** Lists and results *)

Lemma mapM_total {A B : Type} (f : A -> result B) (l : list A) :
  (forall a, In a l -> exists b, f a = Ok b) -> exists bs, mapM f l = Ok bs.
Proof.
  induction l as [|a l IH]; intro H; simpl.
  - now exists [].
  - destruct (H a (or_introl eq_refl)) as [b ->].
    destruct IH as [bs ->]; [intros; apply H; now right|].
    now exists (b :: bs).
Qed.

Lemma mapM_Forall2 {A B : Type} (f : A -> result B) (l : list A) (bs : list B) :
  mapM f l = Ok bs -> Forall2 (fun a b => f a = Ok b) l bs.
Proof.
  revert bs. induction l as [|a l IH]; simpl; intros bs H.
  - injection H as <-. constructor.
  - destruct (f a) as [b|e] eqn:Ea; simpl in H; [|discriminate].
    destruct (mapM f l) as [bs'|e] eqn:El; simpl in H; [|discriminate].
    injection H as <-. constructor; [exact Ea | now apply IH].
Qed.

Lemma Forall2_In_r {A B : Type} (R : A -> B -> Prop) (l : list A) (bs : list B) (b : B) :
  Forall2 R l bs -> In b bs -> exists a, In a l /\ R a b.
Proof.
  induction 1 as [|a b' l bs Hab _ IH]; simpl; [tauto|].
  intros [<-|Hin].
  - exists a. auto.
  - destruct (IH Hin) as (a' & ? & ?). exists a'. auto.
Qed.

Lemma Forall2_map {A B C : Type} (R : A -> B -> Prop) (g : A -> C) (h : B -> C)
    (l : list A) (bs : list B) :
  Forall2 R l bs -> (forall a b, R a b -> g a = h b) -> map g l = map h bs.
Proof.
  induction 1 as [|a b l bs Hab _ IH]; intro Hgh; simpl; [reflexivity|].
  rewrite (Hgh _ _ Hab), IH; auto.
Qed.

Lemma insert_by_In {A : Type} (before : A -> A -> bool) (x y : A) (l : list A) :
  In y (insert_by before x l) <-> y = x \/ In y l.
Proof.
  induction l as [|z l IH]; simpl.
  - intuition congruence.
  - destruct (before z x); simpl; rewrite ?IH; intuition congruence.
Qed.

Lemma sort_by_In {A : Type} (before : A -> A -> bool) (y : A) (l : list A) :
  In y (sort_by before l) <-> In y l.
Proof.
  induction l as [|x l IH]; simpl; [tauto|].
  rewrite insert_by_In, IH. intuition congruence.
Qed.

Lemma insert_by_perm {A : Type} (before : A -> A -> bool) (x : A) (l : list A) :
  Permutation (x :: l) (insert_by before x l).
Proof.
  induction l as [|y l IH]; cbn [insert_by]; [apply Permutation_refl|].
  destruct (before y x); [|apply Permutation_refl].
  apply perm_trans with (y :: x :: l); [apply perm_swap | now apply perm_skip].
Qed.

(** sorting keeps the elements, with their multiplicities *)
Lemma sort_by_perm {A : Type} (before : A -> A -> bool) (l : list A) :
  Permutation l (sort_by before l).
Proof.
  induction l as [|x l IH]; cbn [sort_by]; [apply perm_nil|].
  apply perm_trans with (x :: sort_by before l);
    [now apply perm_skip | apply insert_by_perm].
Qed.

Lemma find_filter_neg {A : Type} (f : A -> bool) (l : list A) :
  find f (filter (fun a => negb (f a)) l) = None.
Proof.
  induction l as [|a l IH]; simpl; [reflexivity|].
  destruct (f a) eqn:E; simpl; [exact IH | now rewrite E].
Qed.

Lemma filter_length_existsb {A : Type} (f : A -> bool) (l : list A) :
  (0 <? Z.of_nat (List.length (filter f l))) = existsb f l.
Proof.
  induction l as [|a l IH]; simpl; [reflexivity|].
  destruct (f a); simpl; [|exact IH].
  apply Z.ltb_lt. lia.
Qed.

Lemma filter_neg_length {A : Type} (f : A -> bool) (l : list A) :
  (List.length (filter (fun a => negb (f a)) l) + List.length (filter f l)
   = List.length l)%nat.
Proof.
  induction l as [|a l IH]; simpl; [reflexivity|].
  destruct (f a); simpl; lia.
Qed.

Lemma find_existsb_false {A : Type} (f : A -> bool) (l : list A) :
  existsb f l = false -> find f l = None.
Proof.
  induction l as [|a l IH]; simpl; [reflexivity|].
  destruct (f a); simpl; [discriminate | exact IH].
Qed.

Lemma find_app_fresh {A : Type} (f : A -> bool) (l : list A) (a : A) :
  existsb f l = false -> f a = true -> find f (l ++ [a]) = Some a.
Proof.
  induction l as [|b l IH]; simpl; intros Hl Ha.
  - now rewrite Ha.
  - destruct (f b); [discriminate | now apply IH].
Qed.

(** ** Deleting a paper *)

Section DeletePaper.
Import ResearchAnalyzer.
Variable paper_id : string.
Variable db : DB.

Let db1 : DB := delete_hypotheses paper_id db.
Let db2 : DB := delete_citations paper_id db1.
Let db3 : DB := fst (delete_papers paper_id db2).

Lemma delete_paper_steps :
  delete_paper paper_id db = Ok (db3, existsb (has_id paper_id) (papers db)).
Proof.
  unfold delete_paper, db3, db2, db1. simpl.
  now rewrite filter_length_existsb.
Qed.

Lemma deleted_hypotheses (h : HypRow.t) :
  In h (hypotheses db3) <-> In h (hypotheses db) /\ HypRow.paper_id h <> paper_id.
Proof.
  simpl. rewrite filter_In. unfold hyp_of_paper.
  rewrite negb_true_iff, <- not_true_iff_false, String.eqb_eq. tauto.
Qed.

Lemma deleted_citations (c : CitRow.t) :
  In c (citations db3) <-> In c (citations db) /\ CitRow.paper_id c <> paper_id.
Proof.
  simpl. rewrite filter_In. unfold cit_of_paper.
  rewrite negb_true_iff, <- not_true_iff_false, String.eqb_eq. tauto.
Qed.

Lemma deleted_paper_not_found : get_paper paper_id db3 = Ok None.
Proof.
  unfold get_paper. simpl.
  now rewrite (find_filter_neg (has_id paper_id)).
Qed.

Lemma deleted_unreachable (pid : string) (p : ResearchPaper.t) :
  get_paper pid db3 = Ok (Some p) ->
  (forall h, In h (ResearchPaper.hypotheses p) ->
     exists row, In row (hypotheses db) /\ HypRow.paper_id row <> paper_id
                 /\ hypothesis_of_row row = Ok h)
  /\ (forall c, In c (ResearchPaper.citations p) ->
     exists row, In row (citations db) /\ CitRow.paper_id row <> paper_id
                 /\ citation_of_row row = Ok c).
Proof.
  unfold get_paper.
  destruct (find (has_id pid) (papers db3)) as [row|]; [|discriminate].
  unfold _row_to_paper.
  destruct (mapM hypothesis_of_row _) as [hyps|] eqn:Eh; simpl; [|discriminate].
  destruct (mapM citation_of_row _) as [cits|] eqn:Ec; simpl; [|discriminate].
  destruct (Json.loads (or_str (PaperRow.authors row) "[]")); simpl; [|discriminate].
  destruct (Json.loads (or_str (PaperRow.tags row) "[]")); simpl; [|discriminate].
  intro H. injection H as <-. simpl. split.
  - intros h Hin.
    destruct (Forall2_In_r _ _ _ _ (mapM_Forall2 _ _ _ Eh) Hin) as (r & Hr & Hok).
    apply sort_by_In, filter_In in Hr. destruct Hr as [Hr _].
    apply deleted_hypotheses in Hr. exists r. tauto.
  - intros c Hin.
    destruct (Forall2_In_r _ _ _ _ (mapM_Forall2 _ _ _ Ec) Hin) as (r & Hr & Hok).
    apply filter_In in Hr. destruct Hr as [Hr _].
    apply deleted_citations in Hr. exists r. tauto.
Qed.

End DeletePaper.

(** C6. [delete_paper(id)] deletes the hypotheses of the paper, then its
    citations, then the paper, and answers whether a paper row was
    removed.  In the database it leaves, [get_paper(id)] is the not-found
    answer, the two tables hold exactly the rows that were attached to
    other papers, and whatever [get_paper] loads for any id is built from
    such rows only. *)
Theorem delete_paper_cascade (paper_id : string) (db : DB) :
  exists db' removed,
    ResearchAnalyzer.delete_paper paper_id db = Ok (db', removed)
    /\ db' = fst (ResearchAnalyzer.delete_papers paper_id
                    (ResearchAnalyzer.delete_citations paper_id
                       (ResearchAnalyzer.delete_hypotheses paper_id db)))
    /\ (removed = true <-> (List.length (papers db') < List.length (papers db))%nat)
    /\ removed = existsb (ResearchAnalyzer.has_id paper_id) (papers db)
    /\ ResearchAnalyzer.get_paper paper_id db' = Ok None
    /\ (forall h, In h (hypotheses db') <->
                  In h (hypotheses db) /\ HypRow.paper_id h <> paper_id)
    /\ (forall c, In c (citations db') <->
                  In c (citations db) /\ CitRow.paper_id c <> paper_id)
    /\ (forall pid p, ResearchAnalyzer.get_paper pid db' = Ok (Some p) ->
          (forall h, In h (ResearchPaper.hypotheses p) ->
             exists row, In row (hypotheses db) /\ HypRow.paper_id row <> paper_id
                         /\ ResearchAnalyzer.hypothesis_of_row row = Ok h)
          /\ (forall c, In c (ResearchPaper.citations p) ->
             exists row, In row (citations db) /\ CitRow.paper_id row <> paper_id
                         /\ ResearchAnalyzer.citation_of_row row = Ok c)).
Proof.
  eexists. eexists. split; [apply delete_paper_steps|].
  split; [reflexivity|].
  split.
  { rewrite <- filter_length_existsb, Z.ltb_lt. simpl.
    pose proof (filter_neg_length (ResearchAnalyzer.has_id paper_id) (papers db)).
    lia. }
  split; [reflexivity|].
  split; [apply deleted_paper_not_found|].
  split; [apply deleted_hypotheses|].
  split; [apply deleted_citations|].
  apply deleted_unreachable.
Qed.

(** the sample paper with its hypothesis: deleted, not found, nothing left *)
Lemma delete_paper_cascade_sample :
  ResearchAnalyzer.delete_paper Sample.pid Sample.db_hyp
  = Ok (mkDB [] [] [] (papers_fts Sample.db_hyp) 0, true)
  /\ exists db' removed,
       ResearchAnalyzer.delete_paper Sample.pid Sample.db_hyp = Ok (db', removed)
       /\ ResearchAnalyzer.get_paper Sample.pid db' = Ok None.
Proof.
  split; [vm_compute; reflexivity|].
  destruct (delete_paper_cascade Sample.pid Sample.db_hyp)
    as (db' & removed & H & _ & _ & _ & Hget & _).
  exists db', removed. split; assumption.
Defined.

(** ** Averages and rates *)

Lemma filter_nil_iff {A : Type} (f : A -> bool) (l : list A) :
  filter f l = [] <-> forall a, In a l -> f a = false.
Proof.
  induction l as [|a l IH]; simpl; [tauto|].
  destruct (f a) eqn:E; split.
  - discriminate.
  - intro H. rewrite (H a) in E; [discriminate | now left].
  - intros H b [<-|Hb]; [exact E | now apply IH].
  - intro H. apply IH. intros b Hb. apply H. now right.
Qed.

(** C10. [avg_confidence()] never divides by zero, and on a paper none of
    whose hypotheses is active (none at all included) it answers [None]. *)
Theorem avg_confidence_guarded (p : ResearchPaper.t) :
  ResearchPaper.avg_confidence p <> Raise ZeroDivisionError
  /\ (exists r, ResearchPaper.avg_confidence p = Ok r)
  /\ ((forall h, In h (ResearchPaper.hypotheses p) -> Hypothesis_.is_active h = false) ->
      ResearchPaper.avg_confidence p = Ok None).
Proof.
  unfold ResearchPaper.avg_confidence.
  destruct (filter Hypothesis_.is_active (ResearchPaper.hypotheses p)) as [|h l] eqn:E.
  - simpl. repeat split; [discriminate | now exists None].
  - cbn [map truthy]. unfold py_div.
    replace (Z.of_nat (List.length (Hypothesis_.confidence h :: map Hypothesis_.confidence l)) =? 0)%Z
      with false by (symmetry; apply Z.eqb_neq; simpl; lia).
    simpl. repeat split; [discriminate | eexists; reflexivity |].
    intro H. apply filter_nil_iff in H. congruence.
Qed.

Lemma avg_confidence_guarded_sample :
  ResearchPaper.avg_confidence Sample.settled_paper = Ok None
  /\ ResearchPaper.avg_confidence
       (ResearchPaper.mk "x" "t" "" [] [] [] [] "draft" 0 "" "" "{}") = Ok None.
Proof.
  split.
  - apply (proj2 (proj2 (avg_confidence_guarded Sample.settled_paper))).
    intros h [<-|[<-|[]]]; reflexivity.
  - apply (proj2 (proj2 (avg_confidence_guarded _))). intros h [].
Defined.

Section Doubles.
Local Open Scope Q_scope.

(** *** Rounding to the nearest integer *)

Lemma round_half_even_bound (x : Q) :
  (inject_Z (round_half_even x) - (1 # 2) <= x
   /\ x <= inject_Z (round_half_even x) + (1 # 2))%Q.
Proof.
  destruct x as [n d]. unfold round_half_even. cbn [Qnum Qden].
  pose proof (Z.div_mod n (Zpos d) ltac:(lia)) as Hn.
  pose proof (Z.mod_pos_bound n (Zpos d) ltac:(lia)) as Hr.
  set (q := (n / Zpos d)%Z) in *. set (r := (n mod Zpos d)%Z) in *.
  destruct (2 * r <? Zpos d)%Z eqn:E1; [apply Z.ltb_lt in E1 | apply Z.ltb_ge in E1].
  { unfold Qle, Qminus, Qplus, Qopp, inject_Z; cbn [Qnum Qden]. split; nia. }
  destruct (Zpos d <? 2 * r)%Z eqn:E2; [apply Z.ltb_lt in E2 | apply Z.ltb_ge in E2].
  { unfold Qle, Qminus, Qplus, Qopp, inject_Z; cbn [Qnum Qden]. split; nia. }
  destruct (Z.even q);
    unfold Qle, Qminus, Qplus, Qopp, inject_Z; cbn [Qnum Qden]; split; nia.
Qed.

(** a value half-way between two integers goes to the even one *)
Lemma round_half_even_tie (x : Q) (z : Z) :
  x == inject_Z z + (1 # 2) -> Z.even (round_half_even x) = true.
Proof.
  destruct x as [n d]. unfold round_half_even, Qeq, Qplus, inject_Z. cbn [Qnum Qden].
  intro H.
  pose proof (Z.div_mod n (Zpos d) ltac:(lia)) as Hn.
  pose proof (Z.mod_pos_bound n (Zpos d) ltac:(lia)) as Hr.
  set (q := (n / Zpos d)%Z) in *. set (r := (n mod Zpos d)%Z) in *.
  cbn [Pos.mul] in H.
  assert (Hq2 : z = q).
  { destruct (Z.lt_trichotomy z q) as [Hz|[Hz|Hz]]; [exfalso|exact Hz|exfalso].
    - assert ((z + 1) * Zpos d <= q * Zpos d)%Z by (apply Z.mul_le_mono_nonneg_r; lia). lia.
    - assert ((q + 1) * Zpos d <= z * Zpos d)%Z by (apply Z.mul_le_mono_nonneg_r; lia). lia. }
  assert (Hq1 : (2 * r = Zpos d)%Z) by (subst z; lia).
  replace (2 * r <? Zpos d)%Z with false by (symmetry; apply Z.ltb_ge; lia).
  replace (Zpos d <? 2 * r)%Z with false by (symmetry; apply Z.ltb_ge; lia).
  destruct (Z.even q) eqn:E; [exact E|].
  rewrite Z.even_add, E. reflexivity.
Qed.

Lemma round_half_even_mono (x y : Q) :
  x <= y -> (round_half_even x <= round_half_even y)%Z.
Proof.
  intro Hxy.
  destruct (round_half_even_bound x) as [Hx1 Hx2].
  destruct (round_half_even_bound y) as [Hy1 Hy2].
  destruct (Z_le_gt_dec (round_half_even x) (round_half_even y)) as [H|H]; [exact H|].
  exfalso.
  assert (H1 : (round_half_even y + 1 <= round_half_even x)%Z) by lia.
  rewrite Zle_Qle, inject_Z_plus in H1. change (inject_Z 1) with 1 in H1.
  assert (Ex : x == inject_Z (round_half_even x - 1) + (1 # 2)).
  { unfold Z.sub. rewrite inject_Z_plus, inject_Z_opp. change (inject_Z 1) with 1. lra. }
  assert (Ey : y == inject_Z (round_half_even y) + (1 # 2)) by lra.
  apply round_half_even_tie in Ex. apply round_half_even_tie in Ey.
  assert (E : round_half_even x = (round_half_even y + 1)%Z).
  { apply Z.le_antisymm; [|lia].
    rewrite Zle_Qle, inject_Z_plus. change (inject_Z 1) with 1. lra. }
  rewrite E, Z.even_add, Ey in Ex. discriminate.
Qed.

Lemma round_half_even_int (x : Q) (m : Z) : x == inject_Z m -> round_half_even x = m.
Proof.
  intro H. destruct (round_half_even_bound x) as [H1 H2].
  assert (A : inject_Z (round_half_even x) < inject_Z m + 1) by lra.
  assert (B : inject_Z m < inject_Z (round_half_even x) + 1) by lra.
  change 1 with (inject_Z 1) in A, B. rewrite <- inject_Z_plus in A, B.
  rewrite <- Zlt_Qlt in A, B. lia.
Qed.

(** *** Powers of two *)

Lemma pow2_pos (e : Z) : 0 < pow2 e.
Proof. apply Qpower_0_lt. reflexivity. Qed.

Lemma pow2_add (a b : Z) : pow2 (a + b) == pow2 a * pow2 b.
Proof. apply Qpower_plus. discriminate. Qed.

Lemma pow2_le (a b : Z) : (a <= b)%Z -> pow2 a <= pow2 b.
Proof. intro H. apply Qpower_le_compat_l; [exact H | discriminate]. Qed.

Lemma pow2_lt (a b : Z) : (a < b)%Z -> pow2 a < pow2 b.
Proof. intro H. apply Qpower_lt_compat_l; [exact H | reflexivity]. Qed.

Lemma pow2_lt_inv (a b : Z) : pow2 a < pow2 b -> (a < b)%Z.
Proof. intro H. apply (Qpower_lt_compat_l_inv 2); [exact H | reflexivity]. Qed.

Lemma pow2_le_inv (a b : Z) : pow2 a <= pow2 b -> (a <= b)%Z.
Proof. intro H. apply (Qpower_le_compat_l_inv 2); [exact H | reflexivity]. Qed.

Lemma pow2_inject (e : Z) : (0 <= e)%Z -> pow2 e == inject_Z (2 ^ e).
Proof. intro H. unfold pow2. now rewrite Zpower_Qpower. Qed.

Lemma pow2_opp (e : Z) : pow2 (- e) == / pow2 e.
Proof. apply Qpower_opp. Qed.

Lemma pow2_div (x : Q) (e : Z) : x / pow2 e == x * pow2 (- e).
Proof. unfold Qdiv. now rewrite pow2_opp. Qed.

Lemma pow2_cancel (x : Q) (e : Z) : x / pow2 e * pow2 e == x.
Proof.
  unfold Qdiv. rewrite <- Qmult_assoc, (Qmult_comm (/ _)), Qmult_inv_r, Qmult_1_r;
    [reflexivity|].
  pose proof (pow2_pos e). lra.
Qed.

Lemma pow2_frac (a b : Z) :
  (0 <= a)%Z -> (0 <= b)%Z -> pow2 (a - b) == Qmake (2 ^ a) (Z.to_pos (2 ^ b)).
Proof.
  intros Ha Hb. unfold Z.sub. rewrite pow2_add, pow2_opp, !pow2_inject by assumption.
  assert (Hp : (0 < 2 ^ b)%Z) by (apply Z.pow_pos_nonneg; lia).
  unfold Qeq, Qmult, Qinv, inject_Z. cbn [Qnum Qden].
  destruct (2 ^ b)%Z as [|p|p] eqn:E; try lia.
  cbn [Qnum Qden Z.to_pos]. lia.
Qed.

(** [ilog2 x] is the exponent of the power of two at or below [|x|] *)
Lemma ilog2_spec (x : Q) :
  ~ x == 0 -> pow2 (ilog2 x) <= Qabs x /\ Qabs x < pow2 (ilog2 x + 1).
Proof.
  intro Hx. unfold ilog2.
  destruct x as [n d]. cbn [Qnum Qden].
  assert (Hn : (0 < Z.abs n)%Z).
  { unfold Qeq in Hx. cbn [Qnum Qden] in Hx. lia. }
  pose proof (Z.log2_spec (Z.abs n) Hn) as [Ha1 Ha2].
  pose proof (Z.log2_spec (Zpos d) ltac:(lia)) as [Hd1 Hd2].
  pose proof (Z.log2_nonneg (Z.abs n)) as Hla.
  pose proof (Z.log2_nonneg (Zpos d)) as Hld.
  set (la := Z.log2 (Z.abs n)) in *. set (ld := Z.log2 (Zpos d)) in *.
  assert (Hpa : (0 < 2 ^ la)%Z) by (apply Z.pow_pos_nonneg; lia).
  assert (Hpd : (0 < 2 ^ ld)%Z) by (apply Z.pow_pos_nonneg; lia).
  assert (Hup : Qabs (n # d) < pow2 (la - ld + 1)).
  { replace (la - ld + 1)%Z with (Z.succ la - ld)%Z by lia.
    rewrite pow2_frac by lia.
    unfold Qlt, Qabs. cbn [Qnum Qden]. rewrite Z2Pos.id by lia.
    apply Z.le_lt_trans with (Z.abs n * Zpos d)%Z.
    - apply Z.mul_le_mono_nonneg_l; lia.
    - apply Z.mul_lt_mono_pos_r; lia. }
  assert (Hlo : pow2 (la - ld - 1) < Qabs (n # d)).
  { replace (la - ld - 1)%Z with (la - Z.succ ld)%Z by lia.
    rewrite pow2_frac by lia.
    unfold Qlt, Qabs. cbn [Qnum Qden]. rewrite Z2Pos.id by (apply Z.pow_pos_nonneg; lia).
    apply Z.le_lt_trans with (Z.abs n * Zpos d)%Z.
    - apply Z.mul_le_mono_nonneg_r; lia.
    - apply Z.mul_lt_mono_pos_l; lia. }
  destruct (Qle_bool (pow2 (la - ld)) (Qabs (n # d))) eqn:E.
  - apply Qle_bool_iff in E. split; assumption.
  - split; [now apply Qlt_le_weak|].
    replace (la - ld - 1 + 1)%Z with (la - ld)%Z by lia.
    apply Qnot_le_lt. intro H. apply Qle_bool_iff in H. congruence.
Qed.

(** the exponent of the last place: [|x|] lies below [2^(e+53)], and at
    or above [2^(e+52)] unless [e] is the subnormal exponent *)
Lemma fexp_upper (x : Q) : Qabs x < pow2 (fexp x + 53).
Proof.
  destruct (Qeq_dec x 0) as [E|E].
  - assert (H : Qabs x == 0) by (rewrite E; reflexivity).
    pose proof (pow2_pos (fexp x + 53)). lra.
  - destruct (ilog2_spec x E) as [_ H].
    apply Qlt_le_trans with (1 := H). apply pow2_le. unfold fexp. lia.
Qed.

Lemma fexp_lower (x : Q) :
  ~ x == 0 -> fexp x = (-1074)%Z \/ pow2 (fexp x + 52) <= Qabs x.
Proof.
  intro E. destruct (ilog2_spec x E) as [H _]. unfold fexp.
  destruct (Z.max_spec (ilog2 x - 52) (-1074)) as [[_ ->]|[_ ->]]; [now left|right].
  now replace (ilog2 x - 52 + 52)%Z with (ilog2 x) by lia.
Qed.

Lemma fexp_min (x : Q) : (-1074 <= fexp x)%Z.
Proof. unfold fexp. lia. Qed.

Lemma fl_eq (x : Q) :
  fl x == inject_Z (round_half_even (x / pow2 (fexp x))) * pow2 (fexp x).
Proof. unfold fl. apply Qred_correct. Qed.

(** rounding moves a value by at most half a unit of its last place *)
Lemma fl_error (x : Q) : Qabs (fl x - x) <= pow2 (fexp x) * (1 # 2).
Proof.
  rewrite fl_eq. set (e := fexp x).
  destruct (round_half_even_bound (x / pow2 e)) as [H1 H2].
  set (m := inject_Z (round_half_even (x / pow2 e))) in *.
  pose proof (pow2_pos e) as Hp.
  pose proof (pow2_cancel x e) as Hc. fold e in Hc.
  apply Qabs_Qle_condition. split.
  - assert (H : (x / pow2 e - (1 # 2)) * pow2 e <= m * pow2 e)
      by (apply Qmult_le_compat_r; lra).
    lra.
  - assert (H : m * pow2 e <= (x / pow2 e + (1 # 2)) * pow2 e)
      by (apply Qmult_le_compat_r; lra).
    lra.
Qed.

Lemma fl_nonneg (x : Q) : 0 <= x -> 0 <= fl x.
Proof.
  intro H. rewrite fl_eq. apply Qmult_le_0_compat; [|apply Qlt_le_weak, pow2_pos].
  change 0 with (inject_Z 0). rewrite <- Zle_Qle.
  change 0%Z with (round_half_even 0). apply round_half_even_mono.
  apply Qle_shift_div_l; [apply pow2_pos | lra].
Qed.

Lemma round_half_even_le (x : Q) (k : Z) : x <= inject_Z k -> (round_half_even x <= k)%Z.
Proof.
  intro H. apply round_half_even_mono in H.
  now rewrite (round_half_even_int (inject_Z k) k) in H by reflexivity.
Qed.

Lemma round_half_even_ge (x : Q) (k : Z) : inject_Z k <= x -> (k <= round_half_even x)%Z.
Proof.
  intro H. apply round_half_even_mono in H.
  now rewrite (round_half_even_int (inject_Z k) k) in H by reflexivity.
Qed.

(** rounding keeps the order *)
Lemma fl_mono (x y : Q) : 0 <= x -> x <= y -> fl x <= fl y.
Proof.
  intros H0 Hxy.
  destruct (Qeq_dec x 0) as [Ex|Ex].
  { assert (E : fl x == 0).
    { rewrite fl_eq.
      rewrite (round_half_even_int _ 0); [ring|].
      unfold Qdiv. apply (Qeq_trans _ (0 * / pow2 (fexp x))); [|ring].
      apply Qmult_comp; [exact Ex | reflexivity]. }
    rewrite E. apply fl_nonneg. lra. }
  assert (Ey : ~ y == 0) by (intro E; apply Ex; lra).
  pose proof (fexp_upper x) as Hux. pose proof (fexp_upper y) as Huy.
  rewrite Qabs_pos in Hux, Huy by lra.
  pose proof (pow2_pos (fexp x)) as Hpx. pose proof (pow2_pos (fexp y)) as Hpy.
  rewrite !fl_eq.
  destruct (Z.lt_trichotomy (fexp x) (fexp y)) as [Hlt|[Heq|Hgt]].
  - (* [y] is in a higher binade *)
    destruct (fexp_lower y Ey) as [Hy|Hy]; [pose proof (fexp_min x); lia|].
    rewrite Qabs_pos in Hy by lra.
    assert (Hmx : (round_half_even (x / pow2 (fexp x)) <= 2 ^ 53)%Z).
    { apply round_half_even_le. apply Qle_shift_div_r; [exact Hpx|].
      rewrite <- (pow2_inject 53), <- pow2_add, Z.add_comm by lia. lra. }
    assert (Hmy : (2 ^ 52 <= round_half_even (y / pow2 (fexp y)))%Z).
    { apply round_half_even_ge. apply Qle_shift_div_l; [exact Hpy|].
      rewrite <- (pow2_inject 52), <- pow2_add, Z.add_comm by lia. lra. }
    rewrite Zle_Qle in Hmx, Hmy.
    rewrite <- (pow2_inject 53) in Hmx by lia. rewrite <- (pow2_inject 52) in Hmy by lia.
    apply Qle_trans with (pow2 53 * pow2 (fexp x)); [apply Qmult_le_compat_r; lra|].
    apply Qle_trans with (pow2 52 * pow2 (fexp y)); [|apply Qmult_le_compat_r; lra].
    rewrite <- !pow2_add. apply pow2_le. lia.
  - rewrite Heq. apply Qmult_le_compat_r; [|lra].
    rewrite <- Zle_Qle. apply round_half_even_mono.
    apply Qmult_le_compat_r; [exact Hxy|]. apply Qlt_le_weak, Qinv_lt_0_compat, Hpy.
  - (* impossible: [x] would be at least a power above [y] *)
    exfalso. destruct (fexp_lower x Ex) as [Hx|Hx]; [pose proof (fexp_min y); lia|].
    rewrite Qabs_pos in Hx by lra.
    assert (H : pow2 (fexp y + 53) <= pow2 (fexp x + 52)) by (apply pow2_le; lia).
    lra.
Qed.

Lemma fl_comp (x y : Q) : 0 <= x -> x == y -> fl x == fl y.
Proof.
  intros H0 E. apply Qle_antisym; apply fl_mono; lra.
Qed.

Lemma fl_zero (x : Q) : x == 0 -> fl x == 0.
Proof.
  intro E. assert (H : fl x == fl 0) by (apply fl_comp; lra).
  rewrite H. vm_compute. reflexivity.
Qed.

(** a value with no digit below its last place is not moved *)
Lemma fl_exact (x : Q) (m : Z) : x == inject_Z m * pow2 (fexp x) -> fl x == x.
Proof.
  intro H. rewrite fl_eq.
  rewrite (round_half_even_int _ m); [now symmetry|].
  apply Qeq_trans with (inject_Z m * pow2 (fexp x) / pow2 (fexp x)).
  - unfold Qdiv. apply Qmult_comp; [exact H | reflexivity].
  - apply Qdiv_mult_l. pose proof (pow2_pos (fexp x)). lra.
Qed.

(** the integers up to 2^53 are doubles *)
Lemma fl_int (k : Z) : (0 <= k <= 2 ^ 53)%Z -> fl (inject_Z k) == inject_Z k.
Proof.
  intros [H0 H53].
  destruct (Z.eq_dec k 0) as [->|Hk0]; [reflexivity|].
  destruct (Z.eq_dec k (2 ^ 53)) as [->|Hk53]; [vm_compute; reflexivity|].
  set (x := inject_Z k).
  assert (Hx : ~ x == 0).
  { unfold x, Qeq. cbn [Qnum Qden inject_Z]. lia. }
  assert (Hpos : 0 < x).
  { unfold x. change 0 with (inject_Z 0). rewrite <- Zlt_Qlt. lia. }
  assert (He : (fexp x <= 0)%Z).
  { destruct (fexp_lower x Hx) as [->|H]; [lia|].
    rewrite Qabs_pos in H by lra.
    assert (Hlt : x < pow2 53).
    { rewrite (pow2_inject 53) by lia. unfold x. rewrite <- Zlt_Qlt. lia. }
    assert (Hp : pow2 (fexp x + 52) < pow2 53) by lra.
    apply pow2_lt_inv in Hp. lia. }
  apply (fl_exact x (k * 2 ^ (- fexp x))).
  rewrite inject_Z_mult, <- (pow2_inject (- fexp x)) by lia.
  rewrite <- Qmult_assoc, <- pow2_add.
  replace (- fexp x + fexp x)%Z with 0%Z by lia.
  unfold x. change (pow2 0) with 1. ring.
Qed.

(** in the unit interval a rounding moves a value by at most 2^-54 *)
Lemma fl_error_unit (x : Q) : 0 <= x -> x <= 1 -> Qabs (fl x - x) <= pow2 (-54).
Proof.
  intros H0 H1.
  destruct (Qeq_dec x 0) as [E0|E0].
  { pose proof (fl_zero x E0) as E. pose proof (pow2_pos (-54)).
    apply Qabs_Qle_condition. split; lra. }
  destruct (Qeq_dec x 1) as [E1|E1].
  { assert (E : fl x == fl 1) by (apply fl_comp; lra).
    change (fl 1) with 1 in E. pose proof (pow2_pos (-54)).
    apply Qabs_Qle_condition. split; lra. }
  apply Qle_trans with (1 := fl_error x).
  assert (He : (fexp x <= -53)%Z).
  { destruct (fexp_lower x E0) as [->|H]; [lia|].
    rewrite Qabs_pos in H by lra.
    assert (Hp : pow2 (fexp x + 52) < pow2 0) by (change (pow2 0) with 1; lra).
    apply pow2_lt_inv in Hp. lia. }
  apply Qle_trans with (pow2 (-53) * (1 # 2)).
  - apply Qmult_le_compat_r; [apply pow2_le; lia | discriminate].
  - vm_compute. discriminate.
Qed.

Lemma fl_le_unit (x : Q) : 0 <= x -> x <= 1 -> 0 <= fl x /\ fl x <= 1.
Proof.
  intros H0 H1. split; [now apply fl_nonneg|].
  apply Qle_trans with (fl 1); [now apply fl_mono | vm_compute; discriminate].
Qed.

(** [round(x, 3)] of a value of the unit interval: the double of a number
    of thousandths at most half a thousandth away *)
Lemma py_round3_unit (x : Q) :
  0 <= x -> x <= 1 ->
  exists k : Z,
    (0 <= k <= 1000)%Z
    /\ py_round x 3 = fl (k # 1000)
    /\ Qabs ((k # 1000) - x) <= 1 # 2000
    /\ Qabs (py_round x 3 - x) <= (1 # 2000) + pow2 (-54).
Proof.
  intros H0 H1. unfold py_round.
  change (Z.to_pos (10 ^ Z.of_nat 3)) with 1000%positive.
  set (k := round_half_even (x * inject_Z 1000)).
  destruct (round_half_even_bound (x * inject_Z 1000)) as [Hlo Hhi]. fold k in Hlo, Hhi.
  change (inject_Z 1000) with (1000 # 1) in Hlo, Hhi.
  assert (Hk : (0 <= k <= 1000)%Z).
  { split; [apply round_half_even_ge | apply round_half_even_le];
      change (inject_Z 1000) with (1000 # 1); change (inject_Z 0) with 0; lra. }
  assert (Hz : k # 1000 == inject_Z k * (1 # 1000)).
  { unfold Qeq, Qmult, inject_Z; cbn [Qnum Qden]. lia. }
  assert (Hd : Qabs ((k # 1000) - x) <= 1 # 2000).
  { apply Qabs_Qle_condition. rewrite Hz. split; lra. }
  exists k. split; [exact Hk|]. split; [reflexivity|]. split; [exact Hd|].
  assert (Hk0 : 0 <= k # 1000) by (unfold Qle; cbn [Qnum Qden]; lia).
  assert (Hk1 : k # 1000 <= 1) by (unfold Qle; cbn [Qnum Qden]; lia).
  pose proof (fl_error_unit (k # 1000) Hk0 Hk1) as He.
  apply Qabs_Qle_condition in Hd. apply Qabs_Qle_condition in He.
  apply Qabs_Qle_condition. split; lra.
Qed.

(** the quotient of a count by a larger count is a double of the unit
    interval, within [2^-54] of the exact quotient *)
Lemma int_truediv_counts (a b : Z) :
  (0 <= a <= b)%Z -> (0 < b)%Z ->
  exists r,
    int_truediv a b = Ok r
    /\ r = fl (inject_Z a / inject_Z b)
    /\ 0 <= r /\ r <= 1
    /\ Qabs (r - inject_Z a / inject_Z b) <= pow2 (-54).
Proof.
  intros Ha Hb.
  assert (Hbq : 0 < inject_Z b) by (change 0 with (inject_Z 0); rewrite <- Zlt_Qlt; lia).
  assert (H0 : 0 <= inject_Z a / inject_Z b).
  { apply Qle_shift_div_l; [exact Hbq|]. rewrite Qmult_0_l.
    change 0 with (inject_Z 0). rewrite <- Zle_Qle. lia. }
  assert (H1 : inject_Z a / inject_Z b <= 1).
  { apply Qle_shift_div_r; [exact Hbq|]. rewrite Qmult_1_l. rewrite <- Zle_Qle. lia. }
  destruct (fl_le_unit _ H0 H1) as [Hr0 Hr1].
  exists (fl (inject_Z a / inject_Z b)).
  split; [|split; [reflexivity|split; [exact Hr0|split; [exact Hr1|now apply fl_error_unit]]]].
  unfold int_truediv, to_float.
  replace (b =? 0)%Z with false by (symmetry; apply Z.eqb_neq; lia).
  destruct (Qle_bool (pow2 1024) (Qabs (fl (inject_Z a / inject_Z b)))) eqn:E; [|reflexivity].
  exfalso. apply Qle_bool_iff in E. rewrite Qabs_pos in E by exact Hr0.
  assert (H : 1 < pow2 1024) by reflexivity. lra.
Qed.

End Doubles.

Lemma count_tags_total (rows : list PaperRow.t) (acc : list (string * Z)) :
  forallb wf_paper rows = true -> exists d, ResearchAnalyzer.count_tags rows acc = Ok d.
Proof.
  revert acc. induction rows as [|r rows IH]; intros acc H; simpl.
  - now exists acc.
  - simpl in H. apply andb_true_iff in H. destruct H as [Hr Hrows].
    unfold wf_paper, decodes in Hr. apply andb_true_iff in Hr. destruct Hr as [_ Ht].
    destruct (Json.loads (ResearchAnalyzer.or_str (PaperRow.tags r) "[]")); [|discriminate].
    simpl. now apply IH.
Qed.

Lemma count_tags_raises (rows : list PaperRow.t) (acc : list (string * Z)) (e : exn) :
  ResearchAnalyzer.count_tags rows acc = Raise e -> e = JSONDecodeError.
Proof.
  revert acc. induction rows as [|r rows IH]; intros acc; simpl; [discriminate|].
  unfold Json.loads.
  destruct (Json.run _ _ _ _); simpl; [apply IH | congruence].
Qed.

Lemma filter_length_le {A : Type} (f : A -> bool) (l : list A) :
  (List.length (filter f l) <= List.length l)%nat.
Proof.
  induction l as [|a l IH]; simpl; [lia|]. destruct (f a); simpl; lia.
Qed.

Lemma confirmation_rate_cases (hyps : list HypRow.t) :
  let total := Z.of_nat (List.length hyps) in
  let confirmed := Z.of_nat (List.length (filter ResearchAnalyzer.is_confirmed hyps)) in
  ResearchAnalyzer.confirmation_rate confirmed total
  = Ok (if (total =? 0)%Z then 0%Q
        else py_round (fl (inject_Z confirmed / inject_Z total)) 3).
Proof.
  intros total confirmed. unfold ResearchAnalyzer.confirmation_rate.
  destruct (total =? 0)%Z eqn:E; [reflexivity|]. apply Z.eqb_neq in E.
  destruct (int_truediv_counts confirmed total) as (r & Hr & -> & _).
  - unfold confirmed, total. pose proof (filter_length_le ResearchAnalyzer.is_confirmed hyps). lia.
  - unfold total in *. lia.
  - cbn [negb]. rewrite Hr. reflexivity.
Qed.

(** C9. [corpus_stats()] never fails on the division.  With no hypothesis
    stored the confirmation rate is 0.0.  Otherwise it is the double of a
    number of thousandths between 0 and 1, and it differs from the exact
    quotient of the number of hypotheses whose status is "confirmed" by
    the number of all hypotheses by at most half a thousandth and the
    rounding of two doubles, [2^-53].  On a database whose tag columns
    decode the statistics are returned. *)
Theorem corpus_stats_confirmation_rate (db : DB) :
  let total := Z.of_nat (List.length (hypotheses db)) in
  let confirmed :=
    Z.of_nat (List.length
                (filter (fun h => String.eqb (HypRow.status h) "confirmed") (hypotheses db))) in
  ResearchAnalyzer.corpus_stats db <> Raise ZeroDivisionError
  /\ ResearchAnalyzer.corpus_stats db <> Raise OverflowError
  /\ (forallb wf_paper (papers db) = true ->
      exists st, ResearchAnalyzer.corpus_stats db = Ok st)
  /\ (forall st, ResearchAnalyzer.corpus_stats db = Ok st ->
        Stats.total_hypotheses st = total
        /\ Stats.confirmed_hypotheses st = confirmed
        /\ (total = 0%Z -> Stats.confirmation_rate st = 0%Q)
        /\ (total <> 0%Z ->
            exists k : Z,
              (0 <= k <= 1000)%Z
              /\ Stats.confirmation_rate st = fl (k # 1000)
              /\ (Qabs (Stats.confirmation_rate st - inject_Z confirmed / inject_Z total)
                  <= (1 # 2000) + pow2 (-53))%Q)).
Proof.
  intros total confirmed. unfold ResearchAnalyzer.corpus_stats.
  change (filter (fun h => String.eqb (HypRow.status h) "confirmed") (hypotheses db))
    with (filter ResearchAnalyzer.is_confirmed (hypotheses db)) in confirmed.
  pose proof (confirmation_rate_cases (hypotheses db)) as Hrate.
  cbv zeta in Hrate. fold total in Hrate. fold confirmed in Hrate.
  fold total. fold confirmed. rewrite Hrate.
  split; [|split; [|split]].
  - destruct (ResearchAnalyzer.count_tags (papers db) []) as [d|e] eqn:E; cbn [bind].
    + discriminate.
    + rewrite (count_tags_raises _ _ _ E). discriminate.
  - destruct (ResearchAnalyzer.count_tags (papers db) []) as [d|e] eqn:E; cbn [bind].
    + discriminate.
    + rewrite (count_tags_raises _ _ _ E). discriminate.
  - intro Hwf. destruct (count_tags_total _ [] Hwf) as [d ->]. cbn [bind]. eexists. reflexivity.
  - intros st. destruct (ResearchAnalyzer.count_tags (papers db) []); cbn [bind]; [|discriminate].
    intro H. injection H as <-. cbn [Stats.total_hypotheses Stats.confirmed_hypotheses
                                      Stats.confirmation_rate].
    split; [reflexivity|]. split; [reflexivity|]. split.
    + intros ->. reflexivity.
    + intro Hne. apply Z.eqb_neq in Hne. rewrite Hne.
      destruct (int_truediv_counts confirmed total) as (r & _ & Er & Hr0 & Hr1 & Herr).
      { unfold confirmed, total.
        pose proof (filter_length_le ResearchAnalyzer.is_confirmed (hypotheses db)). lia. }
      { apply Z.eqb_neq in Hne. unfold total in *. lia. }
      rewrite <- Er.
      destruct (py_round3_unit r Hr0 Hr1) as (k & Hk & Ek & _ & Hround).
      exists k. split; [exact Hk|]. split; [exact Ek|].
      apply Qabs_Qle_condition in Herr. apply Qabs_Qle_condition in Hround.
      assert (Hp : (pow2 (-53) == pow2 (-54) + pow2 (-54))%Q) by reflexivity.
      apply Qabs_Qle_condition. split; lra.
Qed.

Lemma corpus_stats_confirmation_rate_sample :
  exists st,
    ResearchAnalyzer.corpus_stats Sample.db_confirmed = Ok st
    /\ Stats.total_hypotheses st = 3
    /\ Stats.confirmed_hypotheses st = 1
    /\ (Qabs (Stats.confirmation_rate st - (1 # 3)) <= (1 # 2000) + pow2 (-53))%Q.
Proof.
  destruct (proj1 (proj2 (proj2 (corpus_stats_confirmation_rate Sample.db_confirmed))) eq_refl)
    as [st Hst].
  exists st. split; [exact Hst|].
  pose proof (proj2 (proj2 (proj2 (corpus_stats_confirmation_rate Sample.db_confirmed))) st Hst)
    as H.
  cbv zeta in H.
  assert (E1 : Z.of_nat (List.length (hypotheses Sample.db_confirmed)) = 3)
    by (vm_compute; reflexivity).
  assert (E2 : Z.of_nat (List.length
                           (filter (fun h => String.eqb (HypRow.status h) "confirmed")
                              (hypotheses Sample.db_confirmed))) = 1)
    by (vm_compute; reflexivity).
  rewrite E1, E2 in H. destruct H as (Ht & Hc & _ & Hr).
  split; [exact Ht|]. split; [exact Hc|].
  destruct (Hr ltac:(discriminate)) as (k & _ & _ & Hk). exact Hk.
Defined.

(** the values of Python for 1/80 and 3/80, whose exact decimal lies on
    and next to a tie, and the rate of the sample *)
Example confirmation_rate_values :
  ResearchAnalyzer.confirmation_rate 1 80 = Ok (fl (13 # 1000))
  /\ ResearchAnalyzer.confirmation_rate 3 80 = Ok (fl (37 # 1000))
  /\ ResearchAnalyzer.confirmation_rate 1 3 = Ok (fl (333 # 1000))
  /\ ResearchAnalyzer.confirmation_rate 0 0 = Ok 0%Q.
Proof. repeat split; vm_compute; reflexivity. Qed.

(** ** Adding a paper *)

Section AddPaper.
Import ResearchAnalyzer.
Variables clk_id clk_now : datetime.
Variables title abstract : string.
Variables authors tags : option (list string).
Variable metadata : option string.
Variable db : DB.

Let pid : string := _paper_id clk_id title.
Let ts : string := _now clk_now.

Lemma add_paper_returns :
  exists db', add_paper clk_id clk_now title abstract authors tags metadata db = Ok (db', pid)
              /\ papers db' = insert_or_ignore_paper
                   (PaperRow.mk pid title abstract (Json.dumps (or_empty authors))
                      (Json.dumps (or_empty tags)) "draft" 0 ts ts
                      (match metadata with Some m => m | None => "{}" end))
                   (papers db)
              /\ hypotheses db' = hypotheses db
              /\ citations db' = citations db
              /\ papers_fts db' =
                 (papers_fts db ++ [FtsRow.mk pid title abstract (join " " (or_empty tags))])%list.
Proof. eexists. repeat split. Qed.

End AddPaper.

(** C1, as the code has it.  [add_paper] raises nothing, whatever the
    title, the empty one included, and returns the id it derives from the
    title and the clock.  When no stored paper has that id it adds one row,
    with status 'draft', score 0.0 and [created_at = updated_at] the
    reading of [_now()]; when one has, the papers table stays as it is. *)
Theorem add_paper_inserts_if_absent (clk_id clk_now : datetime) (title abstract : string)
    (authors tags : option (list string)) (metadata : option string) (db : DB) :
  exists db',
    ResearchAnalyzer.add_paper clk_id clk_now title abstract authors tags metadata db
    = Ok (db', _paper_id clk_id title)
    /\ (existsb (ResearchAnalyzer.has_id (_paper_id clk_id title)) (papers db) = false ->
        exists row,
          papers db' = (papers db ++ [row])%list
          /\ PaperRow.id row = _paper_id clk_id title
          /\ PaperRow.title row = title
          /\ PaperRow.status row = "draft"
          /\ PaperRow.score row = 0%Q
          /\ PaperRow.created_at row = _now clk_now
          /\ PaperRow.updated_at row = _now clk_now)
    /\ (existsb (ResearchAnalyzer.has_id (_paper_id clk_id title)) (papers db) = true ->
        papers db' = papers db).
Proof.
  destruct (add_paper_returns clk_id clk_now title abstract authors tags metadata db)
    as (db' & Hadd & Hp & _).
  exists db'. split; [exact Hadd|].
  rewrite Hp. unfold ResearchAnalyzer.insert_or_ignore_paper. cbn [PaperRow.id].
  split; intros ->.
  - eexists. repeat split.
  - reflexivity.
Qed.

(** the first paper of an empty database *)
Lemma add_paper_inserts_if_absent_sample :
  exists db' row,
    ResearchAnalyzer.add_paper Sample.noon Sample.noon Sample.title "first" None
      (Some ["logic"]) None empty_db = Ok (db', Sample.pid)
    /\ papers db' = [row]
    /\ PaperRow.status row = "draft"
    /\ PaperRow.score row = 0%Q.
Proof.
  destruct (add_paper_inserts_if_absent Sample.noon Sample.noon Sample.title "first" None
              (Some ["logic"]) None empty_db) as (db' & Hadd & Hnew & _).
  destruct (Hnew eq_refl) as (row & Hp & _ & _ & Hst & Hsc & _).
  exists db', row. repeat split; assumption.
Defined.

(** C1 as stated fails: an empty title is accepted and stored, and a
    second call for a title within the same second stores nothing. *)
Lemma add_paper_empty_title_accepted :
  (exists db' pid,
     ResearchAnalyzer.add_paper Sample.noon Sample.noon "" "" None None None empty_db
     = Ok (db', pid)
     /\ map PaperRow.title (papers db') = [""]
     /\ List.length (papers empty_db) = 0%nat)
  /\ (exists db' pid,
     ResearchAnalyzer.add_paper Sample.noon_later Sample.noon_later Sample.title "first" None
       (Some ["logic"]) None Sample.db_one = Ok (db', pid)
     /\ papers db' = papers Sample.db_one).
Proof.
  split; eexists; eexists; (split; [vm_compute; reflexivity|]); repeat split.
Qed.

(** ** Reading a paper back *)

Lemma decodes_loads (text : string) :
  decodes text = true -> exists l, Json.loads text = Ok l.
Proof.
  unfold decodes. destruct (Json.loads text) as [l|]; [|discriminate].
  now exists l.
Qed.

Lemma hypotheses_load (pid : string) (db : DB) :
  forallb wf_hyp (hypotheses db) = true ->
  exists hyps,
    mapM ResearchAnalyzer.hypothesis_of_row
      (sort_by ResearchAnalyzer.by_created_at
         (filter (ResearchAnalyzer.hyp_of_paper pid) (hypotheses db))) = Ok hyps.
Proof.
  intro Hwf. apply mapM_total. intros h Hin.
  apply sort_by_In, filter_In in Hin. destruct Hin as [Hin _].
  rewrite forallb_forall in Hwf.
  destruct (decodes_loads _ (Hwf h Hin)) as [ev Hev].
  unfold ResearchAnalyzer.hypothesis_of_row. rewrite Hev. simpl. eexists. reflexivity.
Qed.

Lemma citations_load (pid : string) (db : DB) :
  forallb wf_cit (citations db) = true ->
  exists cits,
    mapM ResearchAnalyzer.citation_of_row
      (filter (ResearchAnalyzer.cit_of_paper pid) (citations db)) = Ok cits.
Proof.
  intro Hwf. apply mapM_total. intros c Hin.
  apply filter_In in Hin. destruct Hin as [Hin _].
  rewrite forallb_forall in Hwf.
  destruct (decodes_loads _ (Hwf c Hin)) as [au Hau].
  unfold ResearchAnalyzer.citation_of_row. rewrite Hau. simpl. eexists. reflexivity.
Qed.

(** C4, as the code has it.  On a database whose stored rows decode, when
    the id that [add_paper] derives is not yet stored, [get_paper] on the
    returned id gives a paper with exactly the title, the abstract, the
    authors and the tags that were passed, in their order. *)
Theorem get_paper_add_paper_roundtrip (clk_id clk_now : datetime) (title abstract : string)
    (authors tags : list string) (metadata : option string) (db : DB) :
  wf_db db = true ->
  existsb (ResearchAnalyzer.has_id (_paper_id clk_id title)) (papers db) = false ->
  exists db' pid p,
    ResearchAnalyzer.add_paper clk_id clk_now title abstract (Some authors) (Some tags)
      metadata db = Ok (db', pid)
    /\ ResearchAnalyzer.get_paper pid db' = Ok (Some p)
    /\ ResearchPaper.title p = title
    /\ ResearchPaper.abstract p = abstract
    /\ ResearchPaper.authors p = authors
    /\ ResearchPaper.tags p = tags.
Proof.
  intros Hwf Hfresh.
  destruct (add_paper_returns clk_id clk_now title abstract (Some authors) (Some tags)
              metadata db) as (db' & Hadd & Hp & Hh & Hc & _).
  unfold wf_db in Hwf. apply andb_true_iff in Hwf. destruct Hwf as [Hwf Hwc].
  apply andb_true_iff in Hwf. destruct Hwf as [_ Hwh].
  destruct (hypotheses_load (_paper_id clk_id title) db Hwh) as [hyps Hhyps].
  destruct (citations_load (_paper_id clk_id title) db Hwc) as [cits Hcits].
  exists db', (_paper_id clk_id title). eexists. split; [exact Hadd|].
  unfold ResearchAnalyzer.get_paper. rewrite Hp.
  unfold ResearchAnalyzer.insert_or_ignore_paper. cbn [PaperRow.id]. rewrite Hfresh.
  rewrite find_app_fresh;
    [ | exact Hfresh | unfold ResearchAnalyzer.has_id; apply String.eqb_refl ].
  unfold ResearchAnalyzer._row_to_paper.
  cbn [PaperRow.id PaperRow.title PaperRow.abstract PaperRow.authors PaperRow.tags
       PaperRow.status PaperRow.score PaperRow.created_at PaperRow.updated_at
       PaperRow.metadata or_empty].
  rewrite Hh, Hc, Hhyps, Hcits, !dumps_or_str, !loads_dumps.
  cbn [bind]. repeat split.
Qed.

Lemma get_paper_add_paper_roundtrip_sample :
  exists db' pid p,
    ResearchAnalyzer.add_paper Sample.next_second Sample.next_second "Emergence" "We study"
      (Some ["A. Author"; "B. Smart"]) (Some ["multi-agent"; "emergence"]) None Sample.db_hyp
    = Ok (db', pid)
    /\ ResearchAnalyzer.get_paper pid db' = Ok (Some p)
    /\ ResearchPaper.title p = "Emergence"
    /\ ResearchPaper.abstract p = "We study"
    /\ ResearchPaper.authors p = ["A. Author"; "B. Smart"]
    /\ ResearchPaper.tags p = ["multi-agent"; "emergence"].
Proof.
  apply (get_paper_add_paper_roundtrip Sample.next_second Sample.next_second "Emergence"
           "We study" ["A. Author"; "B. Smart"] ["multi-agent"; "emergence"] None
           Sample.db_hyp); vm_compute; reflexivity.
Defined.

(** C4 as stated fails: the second of two calls for one title within a
    second returns the id of the first, and [get_paper] gives the abstract
    and the tags of the first call, not those just passed. *)
Lemma get_paper_add_paper_collision :
  exists db' p,
    ResearchAnalyzer.add_paper Sample.noon_later Sample.noon_later Sample.title "second"
      (Some []) (Some ["other"]) None Sample.db_one = Ok (db', Sample.pid)
    /\ ResearchAnalyzer.get_paper Sample.pid db' = Ok (Some p)
    /\ ResearchPaper.abstract p = "first"
    /\ ResearchPaper.tags p = ["logic"]
    /\ String.eqb (ResearchPaper.abstract p) "second" = false.
Proof.
  eexists. eexists. split; [vm_compute; reflexivity|].
  split; [vm_compute; reflexivity|]. repeat split.
Qed.

(** ** Clamping *)

Lemma Qlt_bool_iff (x y : Q) : Qlt_bool x y = true <-> (x < y)%Q.
Proof.
  unfold Qlt_bool. rewrite negb_true_iff, <- not_true_iff_false, Qle_bool_iff.
  split; [apply Qnot_le_lt | apply Qlt_not_le].
Qed.

(** [max(lo, min(hi, x))] lies between the bounds *)
Lemma clamp_range (lo hi x : Q) :
  (lo <= hi)%Q -> (lo <= py_max lo (py_min hi x) /\ py_max lo (py_min hi x) <= hi)%Q.
Proof.
  intro Hb. unfold py_max, py_min.
  destruct (Qlt_bool x hi) eqn:E1.
  - apply Qlt_bool_iff in E1.
    destruct (Qlt_bool lo x) eqn:E2.
    + apply Qlt_bool_iff in E2. split; lra.
    + split; [lra | exact Hb].
  - destruct (Qlt_bool lo hi) eqn:E2.
    + split; [exact Hb | lra].
    + split; [lra | exact Hb].
Qed.

(** [update_score] writes a score of the interval [0, 10] *)
Lemma update_score_clamped (clk : datetime) (pid : string) (score : Q) (db : DB) :
  exists db',
    ResearchAnalyzer.update_score clk pid score db = Ok (db', tt)
    /\ forall r, In r (papers db') ->
         (In r (papers db) /\ ResearchAnalyzer.has_id pid r = false)
         \/ (0 <= PaperRow.score r /\ PaperRow.score r <= 10)%Q.
Proof.
  eexists. split; [reflexivity|].
  intros r Hin. simpl in Hin. apply in_map_iff in Hin.
  destruct Hin as (r0 & <- & Hr0).
  destruct (ResearchAnalyzer.has_id pid r0) eqn:E.
  - right. cbn [ResearchAnalyzer.set_score PaperRow.score].
    apply clamp_range. lra.
  - left. rewrite E. split; [exact Hr0 | reflexivity].
Qed.

(** the dataclass method [update_confidence] clamps into [0, 1] *)
Lemma update_confidence_clamped (h : Hypothesis_.t) (delta : Q) :
  (0 <= Hypothesis_.confidence (Hypothesis_.update_confidence h delta)
   /\ Hypothesis_.confidence (Hypothesis_.update_confidence h delta) <= 1)%Q.
Proof. apply clamp_range. lra. Qed.

(** C2, at the failing input.  [add_hypothesis] and [update_hypothesis]
    store the confidence they are given: 1.5 is stored as 1.5, and raising
    a stored 0.9 to 1.4 stores 1.4, both outside [0, 1]. *)
Theorem hypothesis_confidence_not_clamped :
  (exists db',
     ResearchAnalyzer.add_hypothesis Sample.noon Sample.pid "X" (3 # 2) None Sample.db_one
     = Ok (db', Sample.hid)
     /\ map HypRow.confidence (hypotheses db') = [(3 # 2)%Q])
  /\ (exists db',
     ResearchAnalyzer.update_hypothesis Sample.next_second Sample.hid None
       (Some (14 # 10)%Q) None Sample.db_hyp = Ok (db', tt)
     /\ map HypRow.confidence (hypotheses db') = [(14 # 10)%Q])
  /\ Qle_bool (3 # 2)%Q 1%Q = false
  /\ Qle_bool (14 # 10)%Q 1%Q = false.
Proof.
  split; [|split]; [| |split; reflexivity];
    (eexists; split; [vm_compute; reflexivity | reflexivity]).
Qed.

(** C3, at the failing input.  After [add_paper] and [delete_paper] of the
    paper it added, the papers table is empty and the row given to the
    full-text index for that paper is still there. *)
Theorem delete_paper_leaves_projection :
  exists db1 db2,
    ResearchAnalyzer.add_paper Sample.noon Sample.noon Sample.title "first" None
      (Some ["logic"]) None empty_db = Ok (db1, Sample.pid)
    /\ ResearchAnalyzer.delete_paper Sample.pid db1 = Ok (db2, true)
    /\ papers db2 = []
    /\ papers_fts db2 = [FtsRow.mk Sample.pid "Trinary Logic" "first" "logic"].
Proof.
  eexists. eexists. split; [vm_compute; reflexivity|].
  split; [vm_compute; reflexivity|]. split; reflexivity.
Qed.

(** C5, at the failing input.  [update_hypothesis(hid, evidence=[])] on a
    hypothesis whose stored evidence is ["e1"] succeeds and leaves the
    stored evidence at ["e1"]: the empty list is taken for no list. *)
Theorem update_hypothesis_keeps_evidence_on_empty_list :
  map HypRow.evidence (hypotheses Sample.db_hyp) = [Json.dumps ["e1"]]
  /\ exists db',
       ResearchAnalyzer.update_hypothesis Sample.next_second Sample.hid None None (Some [])
         Sample.db_hyp = Ok (db', tt)
       /\ map HypRow.evidence (hypotheses db') = [Json.dumps ["e1"]]
       /\ String.eqb (Json.dumps ["e1"]) (Json.dumps []) = false.
Proof.
  split; [vm_compute; reflexivity|].
  eexists. split; [vm_compute; reflexivity|]. split; reflexivity.
Qed.

(** what [update_hypothesis] does do: an unknown id is a [KeyError], and a
    non-empty evidence list replaces the stored one *)
Lemma update_hypothesis_missing (clk : datetime) (hyp_id : string) (status : option string)
    (confidence : option Q) (evidence : option (list string)) (db : DB) :
  existsb (ResearchAnalyzer.hyp_has_id hyp_id) (hypotheses db) = false ->
  ResearchAnalyzer.update_hypothesis clk hyp_id status confidence evidence db = Raise KeyError.
Proof.
  intro H. unfold ResearchAnalyzer.update_hypothesis.
  now rewrite (find_existsb_false _ _ H).
Qed.

Example update_hypothesis_replaces_evidence :
  exists db',
    ResearchAnalyzer.update_hypothesis Sample.next_second Sample.hid None None
      (Some ["e2"; "e3"]) Sample.db_hyp = Ok (db', tt)
    /\ map HypRow.evidence (hypotheses db') = [Json.dumps ["e2"; "e3"]].
Proof. eexists. split; [vm_compute; reflexivity | reflexivity]. Qed.

Example update_hypothesis_merges_status :
  exists db',
    ResearchAnalyzer.update_hypothesis Sample.next_second Sample.hid (Some "confirmed")
      (Some (95 # 100)%Q) None Sample.db_hyp = Ok (db', tt)
    /\ map HypRow.status (hypotheses db') = ["confirmed"]
    /\ map HypRow.confidence (hypotheses db') = [(95 # 100)%Q]
    /\ map HypRow.evidence (hypotheses db') = [Json.dumps ["e1"]]
    /\ map HypRow.updated_at (hypotheses db') = [_now Sample.next_second].
Proof. eexists. split; [vm_compute; reflexivity | repeat split]. Qed.

(** the clock's fraction of a second does not reach the id *)
Lemma paper_id_same_second (c1 c2 : datetime) (title : string) :
  strftime_compact c1 = strftime_compact c2 -> _paper_id c1 title = _paper_id c2 title.
Proof. unfold _paper_id. now intros ->. Qed.

(** C8, at the failing input.  The same call a quarter of a second later
    returns the same id and leaves the papers table as it was, and it adds
    a second row for that id to the full-text index: the database after
    the second call is not the database after the first. *)
Theorem add_paper_twice_adds_projection_row :
  exists db1 db2,
    ResearchAnalyzer.add_paper Sample.noon Sample.noon Sample.title "first" None
      (Some ["logic"]) None empty_db = Ok (db1, Sample.pid)
    /\ ResearchAnalyzer.add_paper Sample.noon_later Sample.noon_later Sample.title "first" None
      (Some ["logic"]) None db1 = Ok (db2, Sample.pid)
    /\ papers db2 = papers db1
    /\ papers_fts db1 = [FtsRow.mk Sample.pid "Trinary Logic" "first" "logic"]
    /\ papers_fts db2 = [FtsRow.mk Sample.pid "Trinary Logic" "first" "logic";
                         FtsRow.mk Sample.pid "Trinary Logic" "first" "logic"].
Proof.
  eexists. eexists. split; [vm_compute; reflexivity|].
  split; [vm_compute; reflexivity|]. repeat split.
Qed.

(** ** Searching *)

Lemma like_cons (p : ascii) (pattern : string) (c : ascii) (text : string) :
  like (String p pattern) (String c text)
  = if code p =? 37 then like pattern (String c text) || like (String p pattern) text
    else if code p =? 95 then like pattern text
    else Ascii.eqb (sql_lower_char p) (sql_lower_char c) && like pattern text.
Proof.
  cbn [like]. destruct (code p =? 37); [reflexivity|].
  destruct (code p =? 95); reflexivity.
Qed.

Lemma like_percent_here (p : ascii) (pattern text : string) :
  (code p =? 37) = true -> like pattern text = true -> like (String p pattern) text = true.
Proof.
  intros Hp H. destruct text as [|c text].
  - cbn [like]. rewrite Hp, H. reflexivity.
  - rewrite like_cons, Hp, H. reflexivity.
Qed.

(** [%] lets the match start anywhere *)
Lemma like_skip (pattern pre text : string) :
  like (String "%" pattern) text = true -> like (String "%" pattern) (pre ++ text) = true.
Proof.
  intro H. induction pre as [|c pre IH]; [exact H|].
  change (String c pre ++ text) with (String c (pre ++ text)).
  rewrite like_cons. change (code "%" =? 37) with true. cbv iota.
  rewrite IH. apply orb_true_r.
Qed.

Lemma like_percent_any (text : string) : like "%" text = true.
Proof.
  induction text as [|c text IH]; [reflexivity|].
  rewrite like_cons. change (code "%" =? 37) with true. cbv iota.
  rewrite IH. apply orb_true_r.
Qed.

(** a pattern matches the text it is made of, its wildcards included *)
Lemma like_self (m post : string) : like (m ++ "%") (m ++ post) = true.
Proof.
  induction m as [|c m IH]; [apply like_percent_any|].
  change (like (String c (m ++ "%")) (String c (m ++ post)) = true).
  rewrite like_cons.
  destruct (code c =? 37) eqn:E37.
  - rewrite (like_percent_here c _ _ E37 IH). apply orb_true_r.
  - destruct (code c =? 95); [exact IH|].
    rewrite IH, andb_true_r. apply Ascii.eqb_refl.
Qed.

Lemma like_contains (q text : string) :
  contains q text = true -> like ("%" ++ q ++ "%") text = true.
Proof.
  intro H. destruct (contains_split _ _ H) as (pre & post & ->).
  change ("%" ++ q ++ "%") with (String "%" (q ++ "%")).
  apply like_skip, like_percent_here; [reflexivity | apply like_self].
Qed.

Lemma sql_limit_In {A : Type} (n : Z) (l : list A) (a : A) : In a (sql_limit n l) -> In a l.
Proof.
  unfold sql_limit. destruct (n <? 0); [tauto|].
  revert l. induction (Z.to_nat n) as [|k IH]; intros l; simpl; [tauto|].
  destruct l as [|b l]; simpl; [tauto|]. intros [->|H]; [now left | right; now apply IH].
Qed.

Lemma sql_limit_all {A : Type} (n : Z) (l : list A) :
  n < 0 \/ Z.of_nat (List.length l) <= n -> sql_limit n l = l.
Proof.
  unfold sql_limit. intros [H|H].
  - apply Z.ltb_lt in H. now rewrite H.
  - destruct (n <? 0); [reflexivity|]. apply firstn_all2. lia.
Qed.

Lemma sql_limit_length {A : Type} (n : Z) (l : list A) :
  0 <= n -> Z.of_nat (List.length (sql_limit n l)) <= n.
Proof.
  intro H. unfold sql_limit.
  replace (n <? 0) with false by (symmetry; apply Z.ltb_ge; exact H).
  pose proof (firstn_le_length (Z.to_nat n) l).
  rewrite length_firstn. lia.
Qed.

Lemma summaries_total (rows : list PaperRow.t) :
  (forall r, In r rows -> wf_paper r = true) ->
  exists res, mapM ResearchAnalyzer._row_to_summary rows = Ok res
              /\ map Summary.id res = map PaperRow.id rows.
Proof.
  intro Hwf.
  destruct (mapM_total ResearchAnalyzer._row_to_summary rows) as [res Hres].
  { intros r Hr. specialize (Hwf r Hr). unfold wf_paper in Hwf.
    apply andb_true_iff in Hwf. destruct Hwf as [Ha Ht].
    destruct (decodes_loads _ Ha) as [au Hau]. destruct (decodes_loads _ Ht) as [tg Htg].
    unfold ResearchAnalyzer._row_to_summary. rewrite Hau, Htg. simpl. eexists. reflexivity. }
  exists res. split; [exact Hres|].
  symmetry. apply (Forall2_map _ _ _ _ _ (mapM_Forall2 _ _ _ Hres)).
  intros r sm. unfold ResearchAnalyzer._row_to_summary.
  destruct (Json.loads _); simpl; [|discriminate].
  destruct (Json.loads _); simpl; [|discriminate].
  intro E. injection E as <-. reflexivity.
Qed.

(** a query that FTS5 rejects is answered by the [LIKE] statement,
    whatever the index holds *)
Lemma search_rejected_query (fts5_select : DB -> string -> Z -> result (list PaperRow.t))
    (query : string) (limit : Z) (db : DB) :
  ResearchAnalyzer.fts5_syntax_error query = true ->
  int64 limit = true -> limit <> 0 ->
  ResearchAnalyzer.search fts5_select query limit db
  = (rows <- ResearchAnalyzer.like_select (py_lower query) limit db ;;
     mapM ResearchAnalyzer._row_to_summary rows).
Proof.
  intros Hq Hl H0. unfold ResearchAnalyzer.search, ResearchAnalyzer.match_select.
  rewrite Hl, Hq. cbn [negb].
  replace (limit =? 0) with false by (symmetry; now apply Z.eqb_neq).
  reflexivity.
Qed.

(** C7, at the failing input.  After [add_paper("Trinary Logic",
    abstract="first", tags=["logic"])] the query [[] occurs in no title,
    abstract or tag, and the row given to the full-text index holds the
    tags joined by spaces.  FTS5 rejects the query with a syntax error
    whatever its index holds, and the [LIKE] statement of the fallback
    finds the bracket in the JSON text of the tags column: [search]
    returns the paper, with every FTS5 engine, where the in-memory
    [matches_query] of the same paper answers no. *)
Theorem search_matches_json_punctuation
    (fts5_select : DB -> string -> Z -> result (list PaperRow.t)) :
  papers Sample.db_one
  = [PaperRow.mk Sample.pid "Trinary Logic" "first" (Json.dumps []) (Json.dumps ["logic"])
       "draft" 0 (_now Sample.noon) (_now Sample.noon) "{}"]
  /\ papers_fts Sample.db_one = [FtsRow.mk Sample.pid "Trinary Logic" "first" "logic"]
  /\ contains "[" "Trinary Logic" = false
  /\ contains "[" "first" = false
  /\ existsb (contains "[") ["logic"] = false
  /\ ResearchAnalyzer.search fts5_select "[" 20 Sample.db_one
     = Ok [Summary.mk Sample.pid "Trinary Logic" "draft" 0 [] ["logic"] (_now Sample.noon)]
  /\ (exists p, ResearchAnalyzer.get_paper Sample.pid Sample.db_one = Ok (Some p)
                /\ ResearchPaper.matches_query p "[" = false).
Proof.
  split; [vm_compute; reflexivity|]. split; [vm_compute; reflexivity|].
  split; [reflexivity|]. split; [reflexivity|]. split; [reflexivity|]. split.
  - rewrite search_rejected_query by (vm_compute; try reflexivity; discriminate).
    vm_compute. reflexivity.
  - eexists. split; vm_compute; reflexivity.
Qed.

(** the queries of the test suite: [emergence] and [xyzzy_nonexistent]
    are left to FTS5, the hyphen of [multi-agent] is a symbol of its
    syntax, and brackets, dots and apostrophes are rejected *)
Example fts5_syntax_error_samples :
  map ResearchAnalyzer.fts5_syntax_error
    ["emergence"; "xyzzy_nonexistent"; "multi-agent"; "["; "a.b"; "it's"; "tri["]
  = [false; false; false; true; true; true; true].
Proof. vm_compute. reflexivity. Qed.

(** [LIMIT 0] returns nothing and raises nothing, and a limit beyond 64
    bits is an [OverflowError] *)
Lemma search_limits (fts5_select : DB -> string -> Z -> result (list PaperRow.t))
    (query : string) (limit : Z) (db : DB) :
  (limit = 0 -> ResearchAnalyzer.search fts5_select query limit db = Ok [])
  /\ (int64 limit = false ->
      ResearchAnalyzer.search fts5_select query limit db = Raise OverflowError).
Proof.
  unfold ResearchAnalyzer.search, ResearchAnalyzer.match_select. split.
  - intros ->. reflexivity.
  - intros ->. reflexivity.
Qed.

(** ** What every sequence of calls maintains *)

Lemma decodes_dumps (l : list string) (d : string) :
  decodes (ResearchAnalyzer.or_str (Json.dumps l) d) = true.
Proof. unfold decodes. now rewrite dumps_or_str, loads_dumps. Qed.

Lemma forallb_snoc {A : Type} (f : A -> bool) (l : list A) (a : A) :
  forallb f l = true -> f a = true -> forallb f (l ++ [a]) = true.
Proof. intros Hl Ha. rewrite forallb_app, Hl. simpl. now rewrite Ha. Qed.

Lemma forallb_filter {A : Type} (f g : A -> bool) (l : list A) :
  forallb f l = true -> forallb f (filter g l) = true.
Proof.
  rewrite !forallb_forall. intros H a Ha. apply H. apply filter_In in Ha. tauto.
Qed.

Lemma forallb_map_if {A : Type} (f test : A -> bool) (upd : A -> A) (l : list A) :
  (forall a, f (upd a) = true) -> forallb f l = true ->
  forallb f (map (fun a => if test a then upd a else a) l) = true.
Proof.
  intros Hupd. rewrite !forallb_forall. intros H b Hb.
  apply in_map_iff in Hb. destruct Hb as (a & <- & Ha).
  destruct (test a); [apply Hupd | now apply H].
Qed.

Lemma forallb_map_if_keep {A : Type} (f test : A -> bool) (upd : A -> A) (l : list A) :
  (forall a, f (upd a) = f a) -> forallb f l = true ->
  forallb f (map (fun a => if test a then upd a else a) l) = true.
Proof.
  intros Hupd. rewrite !forallb_forall. intros H b Hb.
  apply in_map_iff in Hb. destruct Hb as (a & <- & Ha).
  destruct (test a); [rewrite Hupd|]; now apply H.
Qed.

Ltac split_wf H :=
  unfold wf_db in H; apply andb_true_iff in H; destruct H as [H ?Hc];
  apply andb_true_iff in H; destruct H as [?Hp ?Hh].

Ltac join_wf :=
  unfold wf_db; cbn [papers hypotheses citations];
  apply andb_true_iff; split; [apply andb_true_iff; split|].

(** every call leaves rows that decode *)
Lemma run_call_wf (c : call) (db db' : DB) :
  wf_db db = true -> run_call c db = Ok db' -> wf_db db' = true.
Proof.
  intros Hwf Hrun. split_wf Hwf.
  destruct c; cbn [run_call] in Hrun.
  - injection Hrun as <-. join_wf; try assumption.
    unfold ResearchAnalyzer.insert_or_ignore_paper.
    destruct (existsb _ _); [assumption|].
    apply forallb_snoc; [assumption|].
    unfold wf_paper. cbn [PaperRow.authors PaperRow.tags]. now rewrite !decodes_dumps.
  - injection Hrun as <-. join_wf; try assumption.
    apply forallb_map_if_keep; [reflexivity | assumption].
  - unfold ResearchAnalyzer.update_status in Hrun.
    destruct (negb _); [discriminate|]. injection Hrun as <-. join_wf; try assumption.
    apply forallb_map_if_keep; [reflexivity | assumption].
  - injection Hrun as <-. join_wf; now apply forallb_filter.
  - unfold ResearchAnalyzer.add_hypothesis in Hrun.
    destruct (existsb _ _); [discriminate|]. injection Hrun as <-. join_wf; try assumption.
    apply forallb_snoc; [assumption|].
    unfold wf_hyp. cbn [HypRow.evidence]. apply (decodes_dumps _ "").
  - unfold ResearchAnalyzer.update_hypothesis in Hrun.
    destruct (find _ _); [|discriminate].
    destruct evidence as [[|e0 l0]|];
      try (destruct (Json.loads _); [|discriminate]);
      cbn [bind fst] in Hrun; injection Hrun as <-; (join_wf; try assumption).
    all: apply forallb_map_if; [|assumption].
    all: intro h; unfold wf_hyp; cbn [ResearchAnalyzer.set_hypothesis HypRow.evidence].
    all: apply (decodes_dumps _ "").
  - unfold ResearchAnalyzer.add_citation in Hrun.
    destruct (negb _); [discriminate|]. destruct (_ <=? _); [discriminate|].
    cbn [bind fst] in Hrun. injection Hrun as <-. join_wf; try assumption.
    apply forallb_snoc; [assumption|].
    unfold wf_cit. cbn [CitRow.authors]. apply (decodes_dumps _ "").
Qed.

Lemma reachable_wf (db : DB) : reachable db -> wf_db db = true.
Proof.
  induction 1 as [|c db db' _ IH Hrun]; [reflexivity|].
  exact (run_call_wf c db db' IH Hrun).
Qed.

Lemma run_call_scores (c : call) (db db' : DB) :
  scores_in_range db -> run_call c db = Ok db' -> scores_in_range db'.
Proof.
  unfold scores_in_range. intros Hs Hrun.
  destruct c; cbn [run_call] in Hrun.
  - injection Hrun as <-. cbn [papers]. intros r.
    unfold ResearchAnalyzer.insert_or_ignore_paper.
    destruct (existsb _ _); [apply Hs|].
    rewrite in_app_iff. intros [Hr|[<-|[]]]; [now apply Hs|].
    cbn [PaperRow.score]. split; lra.
  - destruct (update_score_clamped clk paper_id score db) as (db2 & E & Hr).
    rewrite E in Hrun. injection Hrun as <-.
    intros r Hin. destruct (Hr r Hin) as [[Hold _]|Hnew]; [now apply Hs | exact Hnew].
  - unfold ResearchAnalyzer.update_status in Hrun.
    destruct (negb _); [discriminate|]. injection Hrun as <-. cbn [papers fst].
    intros r Hin. apply in_map_iff in Hin. destruct Hin as (r0 & <- & Hr0).
    destruct (ResearchAnalyzer.has_id paper_id r0); [|now apply Hs].
    cbn [ResearchAnalyzer.set_status PaperRow.score]. now apply Hs.
  - injection Hrun as <-. cbn [papers fst]. intros r Hin.
    apply filter_In in Hin. apply Hs. tauto.
  - unfold ResearchAnalyzer.add_hypothesis in Hrun.
    destruct (existsb _ _); [discriminate|]. injection Hrun as <-. exact Hs.
  - unfold ResearchAnalyzer.update_hypothesis in Hrun.
    destruct (find _ _); [|discriminate].
    destruct evidence as [[|e0 l0]|];
      try (destruct (Json.loads _); [|discriminate]);
      cbn [bind fst] in Hrun; injection Hrun as <-; exact Hs.
  - unfold ResearchAnalyzer.add_citation in Hrun.
    destruct (negb _); [discriminate|]. destruct (_ <=? _); [discriminate|].
    cbn [bind fst] in Hrun. injection Hrun as <-. exact Hs.
Qed.

(** the score half of the range invariant holds after every sequence of
    calls *)
Lemma reachable_scores (db : DB) : reachable db -> scores_in_range db.
Proof.
  induction 1 as [|c db db' _ IH Hrun]; [intros r []|].
  exact (run_call_scores c db db' IH Hrun).
Qed.

(** the confidence half does not: a reachable database with a stored
    confidence of 1.5 *)
Example reachable_confidence_out_of_range :
  exists db,
    reachable db
    /\ map HypRow.confidence (hypotheses db) = [(3 # 2)%Q].
Proof.
  eexists. split.
  - eapply (reachable_call (AddHypothesis Sample.noon Sample.pid "X" (3 # 2) None)).
    + eapply (reachable_call
                (AddPaper Sample.noon Sample.noon Sample.title "first" None
                   (Some ["logic"]) None)).
      * apply reachable_empty.
      * vm_compute. reflexivity.
    + vm_compute. reflexivity.
  - reflexivity.
Qed.

(** ** Further properties of the analyzer *)

Lemma sample_db_one_reachable : reachable Sample.db_one.
Proof.
  eapply (reachable_call
            (AddPaper Sample.noon Sample.noon Sample.title "first" None (Some ["logic"]) None)).
  - apply reachable_empty.
  - vm_compute. reflexivity.
Qed.

Lemma sample_db_hyp_reachable : reachable Sample.db_hyp.
Proof.
  eapply (reachable_call (AddHypothesis Sample.noon Sample.pid "X" (9 # 10) (Some ["e1"]))).
  - apply sample_db_one_reachable.
  - vm_compute. reflexivity.
Qed.

(** X1. Whatever list of strings [json.dumps] writes into a column,
    [json.loads] reads back unchanged: order, duplicates, quotes,
    backslashes, control characters and non-ASCII characters included. *)
Theorem json_round_trip (l : list string) : Json.loads (Json.dumps l) = Ok l.
Proof. apply loads_dumps. Qed.

(** X2. [Hypothesis.update_confidence(delta)] leaves a confidence in
    [0, 1], whatever the confidence before and whatever the delta, and
    changes no other field: the id, the text, the status, the evidence and
    the two time stamps stay. *)
Theorem update_confidence_unit_interval (h : Hypothesis_.t) (delta : Q) :
  (0 <= Hypothesis_.confidence (Hypothesis_.update_confidence h delta) <= 1)%Q
  /\ Hypothesis_.id (Hypothesis_.update_confidence h delta) = Hypothesis_.id h
  /\ Hypothesis_.text (Hypothesis_.update_confidence h delta) = Hypothesis_.text h
  /\ Hypothesis_.status (Hypothesis_.update_confidence h delta) = Hypothesis_.status h
  /\ Hypothesis_.evidence (Hypothesis_.update_confidence h delta) = Hypothesis_.evidence h
  /\ Hypothesis_.created_at (Hypothesis_.update_confidence h delta)
     = Hypothesis_.created_at h
  /\ Hypothesis_.updated_at (Hypothesis_.update_confidence h delta)
     = Hypothesis_.updated_at h.
Proof. split; [apply update_confidence_clamped | repeat split]. Qed.

(** the test of the repository: 0.9 raised by 0.5 is 1.0, and 0.1 lowered
    by 0.5 is 0.0 *)
Example update_confidence_samples :
  Hypothesis_.confidence
    (Hypothesis_.update_confidence
       (Hypothesis_.mk "h" "t" "proposed" (fl (9 # 10)) [] "" "") (1 # 2)) = 1%Q
  /\ Hypothesis_.confidence
       (Hypothesis_.update_confidence
          (Hypothesis_.mk "h" "t" "proposed" Sample.tenth [] "" "") (- (1 # 2))) = 0%Q
  /\ Hypothesis_.confidence
       (Hypothesis_.update_confidence
          (Hypothesis_.mk "h" "t" "proposed" Sample.tenth [] "" "") (fl (2 # 10)))
     = (1351079888211149 # 4503599627370496)%Q.
Proof. repeat split; vm_compute; reflexivity. Qed.

(** X3. After every sequence of successful mutator calls from the empty
    database, every stored paper has a score in [0, 10]. *)
Theorem scores_always_in_range (db : DB) (r : PaperRow.t) :
  reachable db -> In r (papers db) ->
  (0 <= PaperRow.score r /\ PaperRow.score r <= 10)%Q.
Proof. intros Hr Hin. exact (reachable_scores db Hr r Hin). Qed.

Lemma scores_always_in_range_sample :
  (0 <= 0 /\ 0 <= 10)%Q.
Proof.
  apply (scores_always_in_range Sample.db_one
           (PaperRow.mk Sample.pid "Trinary Logic" "first" "[]" (Json.dumps ["logic"])
              "draft" 0 (_now Sample.noon) (_now Sample.noon) "{}")).
  - apply sample_db_one_reachable.
  - vm_compute. left. reflexivity.
Defined.

(** what [_row_to_paper] builds from a row of a database that decodes *)
Lemma row_to_paper_wf (row : PaperRow.t) (db : DB) :
  wf_db db = true -> In row (papers db) ->
  exists p,
    ResearchAnalyzer._row_to_paper row db = Ok p
    /\ ResearchPaper.id p = PaperRow.id row
    /\ ResearchPaper.title p = PaperRow.title row
    /\ ResearchPaper.abstract p = PaperRow.abstract row
    /\ ResearchPaper.status p = PaperRow.status row
    /\ ResearchPaper.score p = PaperRow.score row
    /\ ResearchPaper.created_at p = PaperRow.created_at row
    /\ ResearchPaper.updated_at p = PaperRow.updated_at row
    /\ mapM ResearchAnalyzer.hypothesis_of_row
         (sort_by ResearchAnalyzer.by_created_at
            (filter (ResearchAnalyzer.hyp_of_paper (PaperRow.id row)) (hypotheses db)))
       = Ok (ResearchPaper.hypotheses p)
    /\ mapM ResearchAnalyzer.citation_of_row
         (filter (ResearchAnalyzer.cit_of_paper (PaperRow.id row)) (citations db))
       = Ok (ResearchPaper.citations p).
Proof.
  intros Hwf Hin. split_wf Hwf.
  destruct (hypotheses_load (PaperRow.id row) db Hh) as [hyps Hhyps].
  destruct (citations_load (PaperRow.id row) db Hc) as [cits Hcits].
  rewrite forallb_forall in Hp. specialize (Hp row Hin).
  unfold wf_paper in Hp. apply andb_true_iff in Hp. destruct Hp as [Ha Ht].
  destruct (decodes_loads _ Ha) as [au Hau]. destruct (decodes_loads _ Ht) as [tg Htg].
  unfold ResearchAnalyzer._row_to_paper. rewrite Hhyps, Hcits, Hau, Htg. cbn [bind].
  eexists. split; [reflexivity|]. cbn. repeat split.
Qed.

Lemma find_has_id (pid : string) (rows : list PaperRow.t) (row : PaperRow.t) :
  find (ResearchAnalyzer.has_id pid) rows = Some row -> In row rows /\ PaperRow.id row = pid.
Proof.
  intro H. apply find_some in H. destruct H as [Hin Hid].
  split; [exact Hin | now apply String.eqb_eq].
Qed.

Lemma find_existsb_true {A : Type} (f : A -> bool) (l : list A) :
  existsb f l = true -> exists a, find f l = Some a.
Proof.
  induction l as [|a l IH]; simpl; [discriminate|].
  destruct (f a); [now exists a | exact IH].
Qed.

(** X4. On a database built by the analyzer's calls, [get_paper] raises
    nothing: it answers [None] exactly when no paper has the id, and
    otherwise a paper with that id. *)
Theorem get_paper_never_raises (paper_id : string) (db : DB) :
  reachable db ->
  (existsb (ResearchAnalyzer.has_id paper_id) (papers db) = false ->
   ResearchAnalyzer.get_paper paper_id db = Ok None)
  /\ (existsb (ResearchAnalyzer.has_id paper_id) (papers db) = true ->
      exists p, ResearchAnalyzer.get_paper paper_id db = Ok (Some p)
                /\ ResearchPaper.id p = paper_id).
Proof.
  intro Hr. pose proof (reachable_wf db Hr) as Hwf.
  unfold ResearchAnalyzer.get_paper. split; intro H.
  - now rewrite (find_existsb_false _ _ H).
  - destruct (find_existsb_true _ _ H) as [row Hrow]. rewrite Hrow.
    destruct (find_has_id _ _ _ Hrow) as [Hin Hid].
    destruct (row_to_paper_wf row db Hwf Hin) as (p & Hp & Hpid & _).
    rewrite Hp. cbn [bind]. exists p. split; [reflexivity | congruence].
Qed.

Lemma get_paper_never_raises_sample :
  ResearchAnalyzer.get_paper "nonexistent-id" Sample.db_hyp = Ok None
  /\ exists p, ResearchAnalyzer.get_paper Sample.pid Sample.db_hyp = Ok (Some p)
               /\ ResearchPaper.id p = Sample.pid.
Proof.
  split.
  - apply (proj1 (get_paper_never_raises "nonexistent-id" Sample.db_hyp
                    sample_db_hyp_reachable)).
    vm_compute. reflexivity.
  - apply (proj2 (get_paper_never_raises Sample.pid Sample.db_hyp sample_db_hyp_reachable)).
    vm_compute. reflexivity.
Defined.

(** *** Updating a paper *)

Lemma map_update_absent {A : Type} (test : A -> bool) (upd : A -> A) (l : list A) :
  existsb test l = false -> map (fun a => if test a then upd a else a) l = l.
Proof.
  induction l as [|a l IH]; simpl; [reflexivity|].
  destruct (test a); simpl; [discriminate|]. intro H. now rewrite IH.
Qed.

Lemma find_map_update {A : Type} (test : A -> bool) (upd : A -> A) (l : list A) :
  (forall a, test (upd a) = test a) ->
  find test (map (fun a => if test a then upd a else a) l) = option_map upd (find test l).
Proof.
  intro Hupd. induction l as [|a l IH]; simpl; [reflexivity|].
  destruct (test a) eqn:E.
  - now rewrite Hupd, E.
  - now rewrite E.
Qed.

Lemma update_papers_get (pid : string) (upd : PaperRow.t -> PaperRow.t) (db : DB) :
  (forall r, PaperRow.id (upd r) = PaperRow.id r) ->
  wf_db (ResearchAnalyzer.update_papers pid upd db) = true ->
  existsb (ResearchAnalyzer.has_id pid) (papers db) = true ->
  exists row p,
    find (ResearchAnalyzer.has_id pid) (papers db) = Some row
    /\ ResearchAnalyzer.get_paper pid (ResearchAnalyzer.update_papers pid upd db) = Ok (Some p)
    /\ ResearchPaper.id p = pid
    /\ ResearchPaper.title p = PaperRow.title (upd row)
    /\ ResearchPaper.status p = PaperRow.status (upd row)
    /\ ResearchPaper.score p = PaperRow.score (upd row)
    /\ ResearchPaper.created_at p = PaperRow.created_at (upd row)
    /\ ResearchPaper.updated_at p = PaperRow.updated_at (upd row).
Proof.
  intros Hid Hwf Hex.
  destruct (find_existsb_true _ _ Hex) as [row Hrow].
  assert (Hfind : find (ResearchAnalyzer.has_id pid)
                    (papers (ResearchAnalyzer.update_papers pid upd db)) = Some (upd row)).
  { cbn [ResearchAnalyzer.update_papers papers].
    rewrite find_map_update, Hrow; [reflexivity|].
    intro r. unfold ResearchAnalyzer.has_id. now rewrite Hid. }
  destruct (find_has_id _ _ _ Hfind) as [Hin Hpid].
  destruct (row_to_paper_wf _ _ Hwf Hin) as (p & Hp & H1 & H2 & _ & H4 & H5 & H6 & H7 & _).
  exists row, p. split; [exact Hrow|].
  split; [unfold ResearchAnalyzer.get_paper; rewrite Hfind, Hp; reflexivity|].
  repeat split; congruence.
Qed.

(** X5. [update_score] on an id that is not stored changes nothing and
    raises nothing.  On a stored id, [get_paper] afterwards reads the score
    clamped into [0, 10] (the score itself when it lies in the interval),
    with [updated_at] the time of the call and the title, status and
    creation time as before. *)
Theorem update_score_read_back (clk : datetime) (paper_id : string) (score : Q) (db : DB) :
  wf_db db = true ->
  (existsb (ResearchAnalyzer.has_id paper_id) (papers db) = false ->
   ResearchAnalyzer.update_score clk paper_id score db = Ok (db, tt))
  /\ (existsb (ResearchAnalyzer.has_id paper_id) (papers db) = true ->
      exists db' row p,
        ResearchAnalyzer.update_score clk paper_id score db = Ok (db', tt)
        /\ find (ResearchAnalyzer.has_id paper_id) (papers db) = Some row
        /\ ResearchAnalyzer.get_paper paper_id db' = Ok (Some p)
        /\ ResearchPaper.score p = py_max 0 (py_min 10 score)
        /\ (0 <= ResearchPaper.score p /\ ResearchPaper.score p <= 10)%Q
        /\ ((0 <= score /\ score <= 10)%Q -> (ResearchPaper.score p == score)%Q)
        /\ ResearchPaper.updated_at p = _now clk
        /\ ResearchPaper.title p = PaperRow.title row
        /\ ResearchPaper.status p = PaperRow.status row
        /\ ResearchPaper.created_at p = PaperRow.created_at row).
Proof.
  intro Hwf. split; intro Hex.
  - unfold ResearchAnalyzer.update_score, ResearchAnalyzer.update_papers.
    rewrite (map_update_absent _ _ _ Hex). now destruct db.
  - assert (Hwf' : wf_db (ResearchAnalyzer.update_papers paper_id
                           (ResearchAnalyzer.set_score (py_max 0 (py_min 10 score)) (_now clk))
                           db) = true).
    { apply (run_call_wf (UpdateScore clk paper_id score) db); [exact Hwf | reflexivity]. }
    destruct (update_papers_get paper_id
                (ResearchAnalyzer.set_score (py_max 0 (py_min 10 score)) (_now clk))
                db (fun r => eq_refl) Hwf' Hex)
      as (row & p & Hrow & Hget & _ & Ht & Hst & Hsc & Hcr & Hup).
    eexists. exists row, p. split; [reflexivity|].
    split; [exact Hrow|]. split; [exact Hget|].
    cbn [ResearchAnalyzer.set_score PaperRow.score PaperRow.title PaperRow.status
         PaperRow.created_at PaperRow.updated_at] in *.
    rewrite Hsc. split; [reflexivity|]. split; [apply clamp_range; lra|].
    split; [|repeat split; assumption].
    intros [Hlo Hhi]. unfold py_max, py_min.
    destruct (Qlt_bool score 10) eqn:E1.
    + destruct (Qlt_bool 0 score) eqn:E2; [reflexivity|].
      assert (~ (0 < score)%Q) by (rewrite <- Qlt_bool_iff; congruence). lra.
    + assert (~ (score < 10)%Q) by (rewrite <- Qlt_bool_iff; congruence).
      change (Qlt_bool 0 10) with true. cbv iota. lra.
Qed.

Lemma update_score_read_back_sample :
  ResearchAnalyzer.update_score Sample.next_second "nonexistent-id" (17 # 2) Sample.db_one
  = Ok (Sample.db_one, tt)
  /\ exists db' row p,
       ResearchAnalyzer.update_score Sample.next_second Sample.pid 11 Sample.db_one
       = Ok (db', tt)
       /\ find (ResearchAnalyzer.has_id Sample.pid) (papers Sample.db_one) = Some row
       /\ ResearchAnalyzer.get_paper Sample.pid db' = Ok (Some p)
       /\ ResearchPaper.score p = py_max 0 (py_min 10 11).
Proof.
  split.
  - apply (proj1 (update_score_read_back Sample.next_second "nonexistent-id" (17 # 2)
                    Sample.db_one eq_refl)).
    vm_compute. reflexivity.
  - destruct (proj2 (update_score_read_back Sample.next_second Sample.pid 11
                       Sample.db_one eq_refl)) as (db' & row & p & H1 & H2 & H3 & H4 & _).
    + vm_compute. reflexivity.
    + exists db', row, p. repeat split; assumption.
Defined.

(** X6. [update_status] with a status outside draft, review, published,
    archived raises [ValueError] before it touches the database, whether
    the paper exists or not.  With one of the four on a stored id,
    [get_paper] afterwards reads that status, with [updated_at] the time of
    the call and the title, score and creation time as before. *)
Theorem update_status_read_back (clk : datetime) (paper_id status : string) (db : DB) :
  wf_db db = true ->
  (~ In status ResearchAnalyzer.valid_statuses ->
   ResearchAnalyzer.update_status clk paper_id status db = Raise ValueError)
  /\ (In status ResearchAnalyzer.valid_statuses ->
      existsb (ResearchAnalyzer.has_id paper_id) (papers db) = true ->
      exists db' row p,
        ResearchAnalyzer.update_status clk paper_id status db = Ok (db', tt)
        /\ find (ResearchAnalyzer.has_id paper_id) (papers db) = Some row
        /\ ResearchAnalyzer.get_paper paper_id db' = Ok (Some p)
        /\ ResearchPaper.status p = status
        /\ ResearchPaper.updated_at p = _now clk
        /\ ResearchPaper.title p = PaperRow.title row
        /\ ResearchPaper.score p = PaperRow.score row
        /\ ResearchPaper.created_at p = PaperRow.created_at row).
Proof.
  intro Hwf. unfold ResearchAnalyzer.update_status. split.
  - intro Hnot.
    destruct (existsb (String.eqb status) ResearchAnalyzer.valid_statuses) eqn:E;
      [|reflexivity].
    apply existsb_exists in E. destruct E as (s & Hs & Heq).
    apply String.eqb_eq in Heq. subst s. contradiction.
  - intros Hin Hex.
    assert (E : existsb (String.eqb status) ResearchAnalyzer.valid_statuses = true).
    { apply existsb_exists. exists status. split; [exact Hin | apply String.eqb_refl]. }
    rewrite E. cbn [negb].
    assert (Hwf' : wf_db (ResearchAnalyzer.update_papers paper_id
                           (ResearchAnalyzer.set_status status (_now clk)) db) = true).
    { apply (run_call_wf (UpdateStatus clk paper_id status) db); [exact Hwf|].
      cbn [run_call]. unfold ResearchAnalyzer.update_status. rewrite E. reflexivity. }
    destruct (update_papers_get paper_id (ResearchAnalyzer.set_status status (_now clk))
                db (fun r => eq_refl) Hwf' Hex)
      as (row & p & Hrow & Hget & _ & Ht & Hst & Hsc & Hcr & Hup).
    eexists. exists row, p. split; [reflexivity|].
    repeat split; assumption.
Qed.

Lemma update_status_read_back_sample :
  ResearchAnalyzer.update_status Sample.next_second Sample.pid "super-published" Sample.db_one
  = Raise ValueError
  /\ exists db' row p,
       ResearchAnalyzer.update_status Sample.next_second Sample.pid "published" Sample.db_one
       = Ok (db', tt)
       /\ find (ResearchAnalyzer.has_id Sample.pid) (papers Sample.db_one) = Some row
       /\ ResearchAnalyzer.get_paper Sample.pid db' = Ok (Some p)
       /\ ResearchPaper.status p = "published".
Proof.
  split.
  - apply (proj1 (update_status_read_back Sample.next_second Sample.pid "super-published"
                    Sample.db_one eq_refl)).
    intros [H|[H|[H|[H|[]]]]]; discriminate.
  - destruct (proj2 (update_status_read_back Sample.next_second Sample.pid "published"
                       Sample.db_one eq_refl)) as (db' & row & p & H1 & H2 & H3 & H4 & _).
    + right. right. left. reflexivity.
    + vm_compute. reflexivity.
    + exists db', row, p. repeat split; assumption.
Defined.

(** *** Primary keys *)

Lemma existsb_key_notin {A : Type} (key : A -> string) (x : string) (l : list A) :
  existsb (fun a => String.eqb (key a) x) l = false -> ~ In x (map key l).
Proof.
  induction l as [|a l IH]; simpl; [tauto|].
  intros H [E|Hin]; apply orb_false_iff in H; destruct H as [Ha Hl].
  - rewrite E, String.eqb_refl in Ha. discriminate.
  - now apply IH.
Qed.

Lemma NoDup_snoc {A : Type} (l : list A) (a : A) : NoDup l -> ~ In a l -> NoDup (l ++ [a]).
Proof.
  intros Hl Ha. apply NoDup_app; [exact Hl | repeat constructor; intros [] |].
  intros x Hx [<-|[]]. contradiction.
Qed.

Lemma NoDup_map_filter {A B : Type} (f : A -> B) (g : A -> bool) (l : list A) :
  NoDup (map f l) -> NoDup (map f (filter g l)).
Proof.
  induction l as [|a l IH]; simpl; [tauto|].
  intro H. inversion H as [|? ? Hnot Hl]; subst.
  destruct (g a); simpl; [|now apply IH].
  constructor; [|now apply IH].
  intro Hin. apply Hnot. apply in_map_iff in Hin. destruct Hin as (b & Hb & Hin).
  apply in_map_iff. exists b. split; [exact Hb|]. apply filter_In in Hin. tauto.
Qed.

Lemma map_key_update {A B : Type} (key : A -> B) (test : A -> bool) (upd : A -> A)
    (l : list A) :
  (forall a, key (upd a) = key a) ->
  map key (map (fun a => if test a then upd a else a) l) = map key l.
Proof.
  intro H. induction l as [|a l IH]; simpl; [reflexivity|].
  rewrite IH. destruct (test a); [now rewrite H | reflexivity].
Qed.

Lemma run_call_keys (c : call) (db db' : DB) :
  keys_unique db -> run_call c db = Ok db' -> keys_unique db'.
Proof.
  unfold keys_unique. intros (Hp & Hh & Hc & Hseq) Hrun.
  destruct c; cbn [run_call] in Hrun.
  - injection Hrun as <-. cbn [papers hypotheses citations citations_seq fst ResearchAnalyzer.update_papers
         ResearchAnalyzer.delete_papers ResearchAnalyzer.delete_citations
         ResearchAnalyzer.delete_hypotheses].
    repeat split; try assumption.
    unfold ResearchAnalyzer.insert_or_ignore_paper.
    destruct (existsb _ _) eqn:E; [assumption|].
    rewrite map_app. apply NoDup_snoc; [assumption|].
    cbn [map PaperRow.id]. now apply (existsb_key_notin PaperRow.id).
  - injection Hrun as <-. cbn [papers hypotheses citations citations_seq fst ResearchAnalyzer.update_papers
         ResearchAnalyzer.delete_papers ResearchAnalyzer.delete_citations
         ResearchAnalyzer.delete_hypotheses].
    repeat split; try assumption.
    rewrite map_key_update; [assumption | reflexivity].
  - unfold ResearchAnalyzer.update_status in Hrun.
    destruct (negb _); [discriminate|]. injection Hrun as <-.
    cbn [papers hypotheses citations citations_seq fst ResearchAnalyzer.update_papers
         ResearchAnalyzer.delete_papers ResearchAnalyzer.delete_citations
         ResearchAnalyzer.delete_hypotheses].
    repeat split; try assumption.
    rewrite map_key_update; [assumption | reflexivity].
  - injection Hrun as <-. cbn [papers hypotheses citations citations_seq fst ResearchAnalyzer.update_papers
         ResearchAnalyzer.delete_papers ResearchAnalyzer.delete_citations
         ResearchAnalyzer.delete_hypotheses].
    repeat split; try (now apply NoDup_map_filter).
    intros c Hin. apply filter_In in Hin. apply Hseq. tauto.
  - unfold ResearchAnalyzer.add_hypothesis in Hrun.
    destruct (existsb _ _) eqn:E; [discriminate|]. injection Hrun as <-.
    cbn [papers hypotheses citations citations_seq fst ResearchAnalyzer.update_papers
         ResearchAnalyzer.delete_papers ResearchAnalyzer.delete_citations
         ResearchAnalyzer.delete_hypotheses].
    repeat split; try assumption.
    rewrite map_app. apply NoDup_snoc; [assumption|].
    cbn [map HypRow.id]. now apply (existsb_key_notin HypRow.id).
  - unfold ResearchAnalyzer.update_hypothesis in Hrun.
    destruct (find _ _); [|discriminate].
    destruct evidence as [[|e0 l0]|];
      try (destruct (Json.loads _); [|discriminate]);
      cbn [bind fst] in Hrun; injection Hrun as <-;
      cbn [papers hypotheses citations citations_seq];
      (repeat split; try assumption);
      (rewrite map_key_update; [assumption | reflexivity]).
  - unfold ResearchAnalyzer.add_citation in Hrun.
    destruct (negb _); [discriminate|]. destruct (_ <=? _); [discriminate|].
    cbn [bind fst] in Hrun. injection Hrun as <-.
    cbn [papers hypotheses citations citations_seq fst ResearchAnalyzer.update_papers
         ResearchAnalyzer.delete_papers ResearchAnalyzer.delete_citations
         ResearchAnalyzer.delete_hypotheses].
    repeat split; try assumption.
    + rewrite map_app. apply NoDup_snoc; [assumption|].
      cbn [map CitRow.id]. intro Hin. apply in_map_iff in Hin.
      destruct Hin as (c & Hc1 & Hc2). specialize (Hseq c Hc2). lia.
    + intros c Hin. apply in_app_iff in Hin. destruct Hin as [Hin|[<-|[]]].
      * specialize (Hseq c Hin). lia.
      * cbn [CitRow.id]. lia.
Qed.

Lemma reachable_keys (db : DB) : reachable db -> keys_unique db.
Proof.
  induction 1 as [|c db db' _ IH Hrun].
  - repeat split; try constructor. intros c [].
  - exact (run_call_keys c db db' IH Hrun).
Qed.

(** X7. After every sequence of successful mutator calls from the empty
    database no two papers share an id, no two hypotheses share an id and
    no two citations share a row id: [add_paper] ignores a colliding
    insert, [add_hypothesis] fails on one, and the updates and deletes keep
    the keys. *)
Theorem primary_keys_unique (db : DB) :
  reachable db ->
  NoDup (map PaperRow.id (papers db))
  /\ NoDup (map HypRow.id (hypotheses db))
  /\ NoDup (map CitRow.id (citations db)).
Proof.
  intro Hr. destruct (reachable_keys db Hr) as (Hp & Hh & Hc & _). auto.
Qed.

Lemma primary_keys_unique_sample :
  NoDup (map PaperRow.id (papers Sample.db_hyp))
  /\ NoDup (map HypRow.id (hypotheses Sample.db_hyp))
  /\ NoDup (map CitRow.id (citations Sample.db_hyp)).
Proof. exact (primary_keys_unique Sample.db_hyp sample_db_hyp_reachable). Defined.

(** *** Hypotheses and citations read back *)

Lemma Forall2_In_l {A B : Type} (R : A -> B -> Prop) (l : list A) (bs : list B) (a : A) :
  Forall2 R l bs -> In a l -> exists b, In b bs /\ R a b.
Proof.
  induction 1 as [|a' b l bs Hab _ IH]; simpl; [tauto|].
  intros [<-|Hin].
  - exists b. auto.
  - destruct (IH Hin) as (b' & ? & ?). exists b'. auto.
Qed.

Lemma mapM_length {A B : Type} (f : A -> result B) (l : list A) (bs : list B) :
  mapM f l = Ok bs -> List.length bs = List.length l.
Proof.
  intro H. apply mapM_Forall2 in H. symmetry. exact (Forall2_length H).
Qed.

Lemma mapM_snoc {A B : Type} (f : A -> result B) (l : list A) (a : A) (bs : list B) (b : B) :
  mapM f l = Ok bs -> f a = Ok b -> mapM f (l ++ [a]) = Ok (bs ++ [b])%list.
Proof.
  revert bs. induction l as [|x l IH]; simpl; intros bs Hl Ha.
  - injection Hl as <-. now rewrite Ha.
  - destruct (f x) as [y|]; [|discriminate]. cbn [bind] in *.
    destruct (mapM f l) as [ys|]; [|discriminate]. cbn [bind] in *.
    injection Hl as <-. rewrite (IH ys eq_refl Ha). reflexivity.
Qed.

Lemma insert_by_length {A : Type} (before : A -> A -> bool) (x : A) (l : list A) :
  List.length (insert_by before x l) = S (List.length l).
Proof.
  induction l as [|y l IH]; simpl; [reflexivity|].
  destruct (before y x); simpl; [now rewrite IH | reflexivity].
Qed.

Lemma sort_by_length {A : Type} (before : A -> A -> bool) (l : list A) :
  List.length (sort_by before l) = List.length l.
Proof.
  induction l as [|x l IH]; simpl; [reflexivity|].
  now rewrite insert_by_length, IH.
Qed.

(** X8. A hypothesis added to a stored paper is read back by [get_paper]:
    the paper then lists one hypothesis more, among them the new one with
    the returned id, the text, status 'proposed', the confidence and the
    evidence as passed, and both timestamps the time of the call. *)
Theorem add_hypothesis_read_back (clk : datetime) (paper_id text : string) (confidence : Q)
    (evidence : option (list string)) (db : DB) :
  wf_db db = true ->
  existsb (ResearchAnalyzer.has_id paper_id) (papers db) = true ->
  existsb (ResearchAnalyzer.hyp_has_id (_hypothesis_id paper_id text (_now clk)))
    (hypotheses db) = false ->
  exists db' p,
    ResearchAnalyzer.add_hypothesis clk paper_id text confidence evidence db
    = Ok (db', _hypothesis_id paper_id text (_now clk))
    /\ ResearchAnalyzer.get_paper paper_id db' = Ok (Some p)
    /\ In (Hypothesis_.mk (_hypothesis_id paper_id text (_now clk)) text "proposed"
             confidence (or_empty evidence) (_now clk) (_now clk))
          (ResearchPaper.hypotheses p)
    /\ List.length (ResearchPaper.hypotheses p)
       = S (List.length (filter (ResearchAnalyzer.hyp_of_paper paper_id) (hypotheses db))).
Proof.
  intros Hwf Hex Hfresh.
  set (hid := _hypothesis_id paper_id text (_now clk)) in *.
  set (row := HypRow.mk hid paper_id text "proposed" confidence
                (Json.dumps (or_empty evidence)) (_now clk) (_now clk)).
  set (db' := mkDB (papers db) (hypotheses db ++ [row])%list (citations db)
                (papers_fts db) (citations_seq db)).
  assert (Hadd : ResearchAnalyzer.add_hypothesis clk paper_id text confidence evidence db
                 = Ok (db', hid)).
  { unfold ResearchAnalyzer.add_hypothesis. fold hid. now rewrite Hfresh. }
  assert (Hwf' : wf_db db' = true).
  { apply (run_call_wf (AddHypothesis clk paper_id text confidence evidence) db);
      [exact Hwf | cbn [run_call]; now rewrite Hadd]. }
  destruct (find_existsb_true _ _ Hex) as [prow Hprow].
  destruct (find_has_id _ _ _ Hprow) as [Hin Hid].
  destruct (row_to_paper_wf prow db' Hwf' Hin) as (p & Hp & _ & _ & _ & _ & _ & _ & _ & Hhyps & _).
  exists db', p. split; [exact Hadd|].
  split; [unfold ResearchAnalyzer.get_paper; cbn [papers db']; now rewrite Hprow, Hp|].
  rewrite Hid in Hhyps. cbn [hypotheses db'] in Hhyps. split.
  - destruct (Forall2_In_l _ _ _ row (mapM_Forall2 _ _ _ Hhyps)) as (h & Hh & Hrow).
    { apply sort_by_In, filter_In. split; [apply in_app_iff; right; now left|].
      unfold ResearchAnalyzer.hyp_of_paper. apply String.eqb_refl. }
    unfold ResearchAnalyzer.hypothesis_of_row in Hrow. cbn [HypRow.evidence row] in Hrow.
    rewrite loads_dumps in Hrow. cbn [bind] in Hrow. injection Hrow as <-. exact Hh.
  - rewrite (mapM_length _ _ _ Hhyps), sort_by_length, filter_app, length_app.
    cbn [filter]. unfold ResearchAnalyzer.hyp_of_paper at 2. cbn [HypRow.paper_id row].
    rewrite String.eqb_refl. cbn [List.length]. lia.
Qed.

Lemma add_hypothesis_read_back_sample :
  exists db' p,
    ResearchAnalyzer.add_hypothesis Sample.next_second Sample.pid "Agents self-organize"
      (7 # 10) None Sample.db_hyp
    = Ok (db', _hypothesis_id Sample.pid "Agents self-organize" (_now Sample.next_second))
    /\ ResearchAnalyzer.get_paper Sample.pid db' = Ok (Some p)
    /\ List.length (ResearchPaper.hypotheses p) = 2%nat.
Proof.
  destruct (add_hypothesis_read_back Sample.next_second Sample.pid "Agents self-organize"
              (7 # 10) None Sample.db_hyp) as (db' & p & H1 & H2 & _ & H4);
    [vm_compute; reflexivity ..|].
  exists db', p. repeat split; assumption.
Defined.

(** X9. [add_hypothesis] does not check that the paper exists: on an id
    that no stored paper has it succeeds and stores the row, and no
    [get_paper] call answers differently from before. *)
Theorem add_hypothesis_orphan (clk : datetime) (paper_id text : string) (confidence : Q)
    (evidence : option (list string)) (db : DB) :
  existsb (ResearchAnalyzer.has_id paper_id) (papers db) = false ->
  existsb (ResearchAnalyzer.hyp_has_id (_hypothesis_id paper_id text (_now clk)))
    (hypotheses db) = false ->
  exists db',
    ResearchAnalyzer.add_hypothesis clk paper_id text confidence evidence db
    = Ok (db', _hypothesis_id paper_id text (_now clk))
    /\ List.length (hypotheses db') = S (List.length (hypotheses db))
    /\ (exists row, In row (hypotheses db') /\ HypRow.paper_id row = paper_id
                    /\ HypRow.id row = _hypothesis_id paper_id text (_now clk))
    /\ ResearchAnalyzer.get_paper paper_id db' = Ok None
    /\ (forall pid, ResearchAnalyzer.get_paper pid db' = ResearchAnalyzer.get_paper pid db).
Proof.
  intros Habsent Hfresh.
  unfold ResearchAnalyzer.add_hypothesis. rewrite Hfresh.
  eexists. split; [reflexivity|]. cbn [hypotheses].
  split; [rewrite length_app; simpl; lia|].
  split.
  { eexists. split; [apply in_app_iff; right; left; reflexivity|]. split; reflexivity. }
  assert (Hall : forall pid,
             ResearchAnalyzer.get_paper pid
               (mkDB (papers db)
                  (hypotheses db ++
                   [HypRow.mk (_hypothesis_id paper_id text (_now clk)) paper_id text
                      "proposed" confidence (Json.dumps (or_empty evidence))
                      (_now clk) (_now clk)])%list
                  (citations db) (papers_fts db) (citations_seq db))
             = ResearchAnalyzer.get_paper pid db).
  { intro pid. unfold ResearchAnalyzer.get_paper. cbn [papers].
    destruct (find (ResearchAnalyzer.has_id pid) (papers db)) as [prow|] eqn:E; [|reflexivity].
    destruct (find_has_id _ _ _ E) as [Hin Hid].
    unfold ResearchAnalyzer._row_to_paper. cbn [hypotheses citations].
    rewrite filter_app. cbn [filter].
    replace (ResearchAnalyzer.hyp_of_paper (PaperRow.id prow) _) with false.
    { now rewrite app_nil_r. }
    symmetry. unfold ResearchAnalyzer.hyp_of_paper. cbn [HypRow.paper_id].
    apply String.eqb_neq. intros ->.
    apply (existsb_key_notin PaperRow.id (PaperRow.id prow) (papers db) Habsent).
    now apply in_map. }
  split; [|exact Hall].
  rewrite Hall. unfold ResearchAnalyzer.get_paper.
  now rewrite (find_existsb_false _ _ Habsent).
Qed.

Lemma add_hypothesis_orphan_sample :
  exists db',
    ResearchAnalyzer.add_hypothesis Sample.noon "no-such-paper" "X" (1 # 2) None Sample.db_one
    = Ok (db', _hypothesis_id "no-such-paper" "X" (_now Sample.noon))
    /\ ResearchAnalyzer.get_paper "no-such-paper" db' = Ok None.
Proof.
  destruct (add_hypothesis_orphan Sample.noon "no-such-paper" "X" (1 # 2) None Sample.db_one)
    as (db' & H1 & _ & _ & H4 & _); [vm_compute; reflexivity ..|].
  exists db'. split; assumption.
Defined.

(** X10. The id of a hypothesis is a function of the paper id, the text
    and the clock reading: a second [add_hypothesis] for the same three
    fails on the primary key with [IntegrityError], whatever confidence and
    evidence it carries. *)
Theorem add_hypothesis_twice_fails (clk : datetime) (paper_id text : string)
    (confidence confidence' : Q) (evidence evidence' : option (list string))
    (db db' : DB) (hid : string) :
  ResearchAnalyzer.add_hypothesis clk paper_id text confidence evidence db = Ok (db', hid) ->
  ResearchAnalyzer.add_hypothesis clk paper_id text confidence' evidence' db'
  = Raise IntegrityError.
Proof.
  unfold ResearchAnalyzer.add_hypothesis.
  destruct (existsb _ (hypotheses db)); [discriminate|].
  intro H. injection H as <- <-. cbn [hypotheses].
  rewrite existsb_app. cbn [existsb]. unfold ResearchAnalyzer.hyp_has_id at 2.
  cbn [HypRow.id]. rewrite String.eqb_refl, orb_true_r. reflexivity.
Qed.

Lemma add_hypothesis_twice_fails_sample :
  ResearchAnalyzer.add_hypothesis Sample.noon Sample.pid "X" (1 # 2) None Sample.db_hyp
  = Raise IntegrityError.
Proof.
  apply (add_hypothesis_twice_fails Sample.noon Sample.pid "X" (9 # 10) (1 # 2)
           (Some ["e1"]) None Sample.db_one Sample.db_hyp Sample.hid).
  vm_compute. reflexivity.
Defined.

Lemma int64_iff (n : Z) : int64 n = true <-> - 2 ^ 63 <= n < 2 ^ 63.
Proof. unfold int64. rewrite andb_true_iff, Z.leb_le, Z.ltb_lt. tauto. Qed.

(** X11. A citation added to a stored paper, with no year or a year of 64
    bits and the row ids not used up, is read back by [get_paper] as the
    last of the paper's citations, after those it had, with the reference
    id, title, authors, year, url and notes as passed.  A year beyond 64
    bits is an [OverflowError]. *)
Theorem add_citation_read_back (paper_id ref_id title : string)
    (authors : option (list string)) (year : option Z) (url notes : string) (db : DB) :
  wf_db db = true ->
  existsb (ResearchAnalyzer.has_id paper_id) (papers db) = true ->
  citations_seq db < 2 ^ 63 - 1 ->
  (forall y, year = Some y -> - 2 ^ 63 <= y < 2 ^ 63) ->
  (exists db' p0 p,
    ResearchAnalyzer.add_citation paper_id ref_id title authors year url notes db
    = Ok (db', tt)
    /\ ResearchAnalyzer.get_paper paper_id db = Ok (Some p0)
    /\ ResearchAnalyzer.get_paper paper_id db' = Ok (Some p)
    /\ ResearchPaper.citations p
       = (ResearchPaper.citations p0
          ++ [Citation.mk ref_id title (or_empty authors) year url notes])%list
    /\ ResearchPaper.hypotheses p = ResearchPaper.hypotheses p0)
  /\ (forall y, y < - 2 ^ 63 \/ 2 ^ 63 <= y ->
      ResearchAnalyzer.add_citation paper_id ref_id title authors (Some y) url notes db
      = Raise OverflowError).
Proof.
  intros Hwf Hex Hseq Hyear. split.
  2:{ intros y Hy. unfold ResearchAnalyzer.add_citation, ResearchAnalyzer.bindable.
      replace (int64 y) with false; [reflexivity|].
      symmetry. apply not_true_iff_false. rewrite int64_iff. lia. }
  assert (Hb : ResearchAnalyzer.bindable year = true).
  { destruct year as [y|]; [|reflexivity]. apply int64_iff. now apply Hyear. }
  assert (Hfull : (2 ^ 63 - 1 <=? citations_seq db) = false) by (apply Z.leb_gt; lia).
  destruct (find_existsb_true _ _ Hex) as [prow Hprow].
  destruct (find_has_id _ _ _ Hprow) as [Hin Hid].
  destruct (row_to_paper_wf prow db Hwf Hin)
    as (p0 & Hp0 & _ & _ & _ & _ & _ & _ & _ & Hh0 & Hc0).
  set (cit := Citation.mk ref_id title (or_empty authors) year url notes).
  exists (mkDB (papers db) (hypotheses db)
            (citations db ++
             [CitRow.mk (citations_seq db + 1) paper_id ref_id title
                (Json.dumps (or_empty authors)) year url notes])%list
            (papers_fts db) (citations_seq db + 1)),
         p0,
         (ResearchPaper.mk (ResearchPaper.id p0) (ResearchPaper.title p0)
            (ResearchPaper.abstract p0) (ResearchPaper.authors p0) (ResearchPaper.tags p0)
            (ResearchPaper.hypotheses p0) (ResearchPaper.citations p0 ++ [cit])%list
            (ResearchPaper.status p0) (ResearchPaper.score p0) (ResearchPaper.created_at p0)
            (ResearchPaper.updated_at p0) (ResearchPaper.metadata p0)).
  split; [unfold ResearchAnalyzer.add_citation; now rewrite Hb, Hfull|].
  split; [unfold ResearchAnalyzer.get_paper; now rewrite Hprow, Hp0|].
  split; [|split; reflexivity].
  unfold ResearchAnalyzer.get_paper. cbn [papers]. rewrite Hprow.
  unfold ResearchAnalyzer._row_to_paper in *. cbn [hypotheses citations].
  rewrite Hh0 in *. cbn [bind] in *.
  rewrite filter_app. cbn [filter].
  unfold ResearchAnalyzer.cit_of_paper at 2. cbn [CitRow.paper_id].
  rewrite Hid, String.eqb_refl.
  rewrite Hid in Hc0, Hp0. rewrite Hc0 in Hp0. cbn [bind] in Hp0.
  rewrite (mapM_snoc _ _ _ _ cit Hc0).
  2:{ unfold ResearchAnalyzer.citation_of_row. cbn [CitRow.authors].
      rewrite loads_dumps. reflexivity. }
  cbn [bind].
  destruct (Json.loads (ResearchAnalyzer.or_str (PaperRow.authors prow) "[]")) as [au|];
    [|discriminate]. cbn [bind] in *.
  destruct (Json.loads (ResearchAnalyzer.or_str (PaperRow.tags prow) "[]")) as [tg|];
    [|discriminate]. cbn [bind] in *.
  injection Hp0 as <-. reflexivity.
Qed.

Lemma add_citation_read_back_sample :
  exists db' p,
    ResearchAnalyzer.add_citation Sample.pid "ref-001" "Foundational Paper"
      (Some ["B. Smart"]) (Some 2020) "" "" Sample.db_hyp = Ok (db', tt)
    /\ ResearchAnalyzer.get_paper Sample.pid db' = Ok (Some p)
    /\ ResearchPaper.citations p
       = [Citation.mk "ref-001" "Foundational Paper" ["B. Smart"] (Some 2020) "" ""].
Proof.
  destruct (add_citation_read_back Sample.pid "ref-001" "Foundational Paper"
              (Some ["B. Smart"]) (Some 2020) "" "" Sample.db_hyp)
    as ((db' & p0 & p & H1 & H2 & H3 & H4 & _) & _);
    [vm_compute; reflexivity | vm_compute; reflexivity | vm_compute; reflexivity
     | intros y E; injection E as <-; lia |].
  exists db', p. split; [exact H1|]. split; [exact H3|].
  rewrite H4. f_equal.
  assert (E : ResearchAnalyzer.get_paper Sample.pid Sample.db_hyp
              = Ok (Some (ResearchPaper.mk Sample.pid "Trinary Logic" "first" [] ["logic"]
                            [Hypothesis_.mk Sample.hid "X" "proposed" (9 # 10) ["e1"]
                               (_now Sample.noon) (_now Sample.noon)]
                            [] "draft" 0 (_now Sample.noon) (_now Sample.noon) "{}")))
    by (vm_compute; reflexivity).
  rewrite E in H2. injection H2 as <-. reflexivity.
Defined.

(** *** Updating a hypothesis *)

(** X12. [update_hypothesis] on a stored id succeeds (the stored evidence
    decoding) and touches the hypotheses with that id only: a non-empty
    status, a confidence and a non-empty evidence list that are passed are
    written, a field passed as [None] keeps the stored value, [updated_at]
    becomes the time of the call, and the papers, the citations, the search
    rows and the hypotheses with other ids stay as they are. *)
Theorem update_hypothesis_merge (clk : datetime) (hyp_id : string) (status : option string)
    (confidence : option Q) (evidence : option (list string)) (db : DB)
    (row : HypRow.t) (ev0 : list string) :
  find (ResearchAnalyzer.hyp_has_id hyp_id) (hypotheses db) = Some row ->
  Json.loads (HypRow.evidence row) = Ok ev0 ->
  exists db',
    ResearchAnalyzer.update_hypothesis clk hyp_id status confidence evidence db = Ok (db', tt)
    /\ papers db' = papers db /\ citations db' = citations db
    /\ papers_fts db' = papers_fts db
    /\ map HypRow.id (hypotheses db') = map HypRow.id (hypotheses db)
    /\ (forall h, In h (hypotheses db) -> HypRow.id h <> hyp_id -> In h (hypotheses db'))
    /\ (forall h', In h' (hypotheses db') -> HypRow.id h' = hyp_id ->
          (forall c s, status = Some (String c s) -> HypRow.status h' = String c s)
          /\ (status = None -> HypRow.status h' = HypRow.status row)
          /\ (forall c, confidence = Some c -> HypRow.confidence h' = c)
          /\ (confidence = None -> HypRow.confidence h' = HypRow.confidence row)
          /\ (forall e l, evidence = Some (e :: l) ->
                Json.loads (HypRow.evidence h') = Ok (e :: l))
          /\ (evidence = None -> Json.loads (HypRow.evidence h') = Ok ev0)
          /\ HypRow.updated_at h' = _now clk
          /\ exists h, In h (hypotheses db) /\ HypRow.id h = hyp_id
                       /\ HypRow.paper_id h' = HypRow.paper_id h
                       /\ HypRow.text h' = HypRow.text h
                       /\ HypRow.created_at h' = HypRow.created_at h).
Proof.
  intros Hfind Hev. unfold ResearchAnalyzer.update_hypothesis. rewrite Hfind.
  set (ev_list := match evidence with Some ((_ :: _) as l) => l | _ => ev0 end).
  assert (E : match evidence with
              | Some ((_ :: _) as l) => Ok l
              | _ => Json.loads (HypRow.evidence row)
              end = Ok ev_list).
  { unfold ev_list. destruct evidence as [[|e l]|]; auto. }
  rewrite E. cbn [bind]. eexists. split; [reflexivity|].
  cbn [papers citations papers_fts hypotheses].
  split; [reflexivity|]. split; [reflexivity|]. split; [reflexivity|].
  split; [apply map_key_update; reflexivity|].
  split.
  - intros h Hin Hne. apply in_map_iff. exists h. split; [|exact Hin].
    unfold ResearchAnalyzer.hyp_has_id.
    destruct (String.eqb (HypRow.id h) hyp_id) eqn:Eh; [|reflexivity].
    apply String.eqb_eq in Eh. contradiction.
  - intros h' Hin Hid. apply in_map_iff in Hin. destruct Hin as (h & Hh & Hin).
    unfold ResearchAnalyzer.hyp_has_id in Hh.
    destruct (String.eqb (HypRow.id h) hyp_id) eqn:Eh.
    + subst h'. cbn [ResearchAnalyzer.set_hypothesis HypRow.status HypRow.confidence
                     HypRow.evidence HypRow.updated_at HypRow.paper_id HypRow.text
                     HypRow.created_at].
      split; [intros c s ->; reflexivity|].
      split; [intros ->; reflexivity|].
      split; [intros c ->; reflexivity|].
      split; [intros ->; reflexivity|].
      split; [intros e l Hl; rewrite loads_dumps; unfold ev_list; now rewrite Hl|].
      split; [intros Hn; rewrite loads_dumps; unfold ev_list; now rewrite Hn|].
      split; [reflexivity|].
      exists h. apply String.eqb_eq in Eh. repeat split; assumption.
    + subst h'. apply String.eqb_neq in Eh. contradiction.
Qed.

Lemma update_hypothesis_merge_sample :
  exists db',
    ResearchAnalyzer.update_hypothesis Sample.next_second Sample.hid (Some "confirmed")
      (Some (95 # 100)%Q) None Sample.db_hyp = Ok (db', tt)
    /\ papers db' = papers Sample.db_hyp.
Proof.
  destruct (update_hypothesis_merge Sample.next_second Sample.hid (Some "confirmed")
              (Some (95 # 100)%Q) None Sample.db_hyp
              (HypRow.mk Sample.hid Sample.pid "X" "proposed" (9 # 10) (Json.dumps ["e1"])
                 (_now Sample.noon) (_now Sample.noon)) ["e1"])
    as (db' & H1 & H2 & _); [vm_compute; reflexivity ..|].
  exists db'. split; assumption.
Defined.

(** *** Deleting twice, and what a delete or an insert leaves alone *)

Lemma filter_idem {A : Type} (f : A -> bool) (l : list A) :
  filter f (filter f l) = filter f l.
Proof.
  induction l as [|a l IH]; simpl; [reflexivity|].
  destruct (f a) eqn:E; simpl; [rewrite E; now f_equal | exact IH].
Qed.

Lemma filter_filter_neg {A : Type} (f : A -> bool) (l : list A) :
  filter f (filter (fun a => negb (f a)) l) = [].
Proof.
  induction l as [|a l IH]; simpl; [reflexivity|].
  destruct (f a) eqn:E; simpl; [exact IH | now rewrite E].
Qed.

Lemma filter_filter_sub {A : Type} (f g : A -> bool) (l : list A) :
  (forall a, f a = true -> g a = true) -> filter f (filter g l) = filter f l.
Proof.
  intro H. induction l as [|a l IH]; simpl; [reflexivity|].
  destruct (g a) eqn:Eg; simpl.
  - now rewrite IH.
  - destruct (f a) eqn:Ef; [|exact IH]. rewrite (H a Ef) in Eg. discriminate.
Qed.

Lemma find_filter_sub {A : Type} (f g : A -> bool) (l : list A) :
  (forall a, f a = true -> g a = true) -> find f (filter g l) = find f l.
Proof.
  intro H. induction l as [|a l IH]; simpl; [reflexivity|].
  destruct (g a) eqn:Eg; simpl.
  - now rewrite IH.
  - destruct (f a) eqn:Ef; [|exact IH]. rewrite (H a Ef) in Eg. discriminate.
Qed.

(** X13. [delete_paper] is idempotent: a second delete of the same id
    answers false and leaves the database of the first delete as it is. *)
Theorem delete_paper_twice (paper_id : string) (db : DB) :
  exists db' removed,
    ResearchAnalyzer.delete_paper paper_id db = Ok (db', removed)
    /\ ResearchAnalyzer.delete_paper paper_id db' = Ok (db', false).
Proof.
  eexists. eexists. split; [reflexivity|].
  unfold ResearchAnalyzer.delete_paper, ResearchAnalyzer.delete_papers,
    ResearchAnalyzer.delete_citations, ResearchAnalyzer.delete_hypotheses.
  cbn [papers hypotheses citations papers_fts citations_seq fst].
  rewrite !filter_idem, (filter_filter_neg (ResearchAnalyzer.has_id paper_id)).
  reflexivity.
Qed.

Lemma string_eqb_other (a b c : string) :
  b <> c -> String.eqb a b = true -> negb (String.eqb a c) = true.
Proof.
  intros Hne H. apply String.eqb_eq in H. subst a.
  apply negb_true_iff, String.eqb_neq. exact Hne.
Qed.

(** X14. [delete_paper(id)] changes the answer of [get_paper] for no other
    id: the other papers keep their fields, hypotheses and citations. *)
Theorem delete_paper_frame (paper_id other : string) (db : DB) :
  other <> paper_id ->
  exists db' removed,
    ResearchAnalyzer.delete_paper paper_id db = Ok (db', removed)
    /\ ResearchAnalyzer.get_paper other db' = ResearchAnalyzer.get_paper other db.
Proof.
  intro Hne. eexists. eexists. split; [reflexivity|].
  unfold ResearchAnalyzer.get_paper, ResearchAnalyzer.delete_papers,
    ResearchAnalyzer.delete_citations, ResearchAnalyzer.delete_hypotheses.
  cbn [papers hypotheses citations papers_fts citations_seq fst].
  rewrite find_filter_sub.
  2:{ intros r. unfold ResearchAnalyzer.has_id. now apply string_eqb_other. }
  destruct (find (ResearchAnalyzer.has_id other) (papers db)) as [prow|] eqn:E;
    [|reflexivity].
  destruct (find_has_id _ _ _ E) as [_ Hid].
  unfold ResearchAnalyzer._row_to_paper. cbn [hypotheses citations]. rewrite Hid.
  rewrite (filter_filter_sub (ResearchAnalyzer.hyp_of_paper other)).
  2:{ intros h. unfold ResearchAnalyzer.hyp_of_paper. now apply string_eqb_other. }
  rewrite (filter_filter_sub (ResearchAnalyzer.cit_of_paper other)).
  2:{ intros c. unfold ResearchAnalyzer.cit_of_paper. now apply string_eqb_other. }
  reflexivity.
Qed.

Lemma delete_paper_frame_sample :
  exists db' removed,
    ResearchAnalyzer.delete_paper Sample.emergence_pid Sample.db_two = Ok (db', removed)
    /\ ResearchAnalyzer.get_paper Sample.pid db'
       = ResearchAnalyzer.get_paper Sample.pid Sample.db_two.
Proof.
  apply (delete_paper_frame Sample.emergence_pid Sample.pid Sample.db_two).
  vm_compute. discriminate.
Defined.

Lemma find_app_some {A : Type} (f : A -> bool) (l l' : list A) :
  existsb f l = true -> find f (l ++ l') = find f l.
Proof.
  induction l as [|a l IH]; simpl; [discriminate|].
  destruct (f a); [reflexivity | exact IH].
Qed.

(** X15. [add_paper] never overwrites: for every id that is already
    stored, the id of the new paper included when it collides,
    [get_paper] answers after the call what it answered before, and the
    hypotheses and citations tables are untouched. *)
Theorem add_paper_frame (clk_id clk_now : datetime) (title abstract : string)
    (authors tags : option (list string)) (metadata : option string) (db : DB)
    (stored : string) :
  existsb (ResearchAnalyzer.has_id stored) (papers db) = true ->
  exists db' pid,
    ResearchAnalyzer.add_paper clk_id clk_now title abstract authors tags metadata db
    = Ok (db', pid)
    /\ ResearchAnalyzer.get_paper stored db' = ResearchAnalyzer.get_paper stored db
    /\ hypotheses db' = hypotheses db
    /\ citations db' = citations db.
Proof.
  intro Hex. eexists. eexists. split; [reflexivity|].
  split; [|split; reflexivity].
  unfold ResearchAnalyzer.get_paper. cbn [papers].
  unfold ResearchAnalyzer.insert_or_ignore_paper. cbn [PaperRow.id].
  destruct (existsb (ResearchAnalyzer.has_id (_paper_id clk_id title)) (papers db)) eqn:E;
    [reflexivity|].
  rewrite (find_app_some _ _ _ Hex).
  destruct (find _ _); reflexivity.
Qed.

Lemma add_paper_frame_sample :
  exists db' pid,
    ResearchAnalyzer.add_paper Sample.noon_later Sample.noon_later Sample.title "second"
      None (Some ["other"]) None Sample.db_hyp = Ok (db', pid)
    /\ ResearchAnalyzer.get_paper Sample.pid db'
       = ResearchAnalyzer.get_paper Sample.pid Sample.db_hyp.
Proof.
  destruct (add_paper_frame Sample.noon_later Sample.noon_later Sample.title "second"
              None (Some ["other"]) None Sample.db_hyp Sample.pid)
    as (db' & pid & H1 & H2 & _); [vm_compute; reflexivity|].
  exists db', pid. split; assumption.
Defined.

(** *** Listing papers *)

Section SortBy.
Context {A : Type} (before : A -> A -> bool) (R : A -> A -> Prop).
Hypothesis R_trans : forall a b c, R a b -> R b c -> R a c.
Hypothesis before_R : forall y x, before y x = true -> R y x.
Hypothesis not_before_R : forall y x, before y x = false -> R x y.

Lemma insert_by_strongly_sorted (x : A) (l : list A) :
  StronglySorted R l -> StronglySorted R (insert_by before x l).
Proof.
  induction 1 as [|y l Hl IH Hy]; simpl.
  - constructor; constructor.
  - destruct (before y x) eqn:E.
    + constructor; [exact IH|].
      apply Forall_forall. intros z Hz. apply insert_by_In in Hz.
      destruct Hz as [->|Hz]; [now apply before_R|].
      rewrite Forall_forall in Hy. now apply Hy.
    + constructor; [now constructor|].
      constructor; [now apply not_before_R|].
      apply Forall_forall. intros z Hz. rewrite Forall_forall in Hy.
      apply (R_trans _ y); [now apply not_before_R | now apply Hy].
Qed.

Lemma sort_by_strongly_sorted (l : list A) : StronglySorted R (sort_by before l).
Proof.
  induction l as [|x l IH]; simpl; [constructor | now apply insert_by_strongly_sorted].
Qed.
End SortBy.

Lemma StronglySorted_firstn {A : Type} (R : A -> A -> Prop) (n : nat) (l : list A) :
  StronglySorted R l -> StronglySorted R (firstn n l).
Proof.
  revert n. induction l as [|a l IH]; intros n H; destruct n; simpl; try constructor.
  - apply IH. now inversion H.
  - inversion H as [|? ? _ Hall]; subst. apply Forall_forall. intros z Hz.
    rewrite Forall_forall in Hall. apply Hall.
    assert (Hsub : forall (m : nat) (k : list A) (y : A), In y (firstn m k) -> In y k).
    { intros m. induction m as [|m IHm]; intros k y; destruct k; simpl; try tauto.
      intros [->|Hy]; [now left | right; now apply IHm]. }
    exact (Hsub _ _ _ Hz).
Qed.

Lemma StronglySorted_filter {A : Type} (R : A -> A -> Prop) (f : A -> bool) (l : list A) :
  StronglySorted R l -> StronglySorted R (filter f l).
Proof.
  induction 1 as [|a l Hl IH Ha]; simpl; [constructor|].
  destruct (f a); [|exact IH]. constructor; [exact IH|].
  apply Forall_forall. intros z Hz. apply filter_In in Hz.
  rewrite Forall_forall in Ha. apply Ha. tauto.
Qed.

Lemma StronglySorted_Forall2 {A B : Type} (P : A -> B -> Prop) (R : A -> A -> Prop)
    (R' : B -> B -> Prop) (l : list A) (bs : list B) :
  (forall a a' b b', P a b -> P a' b' -> R a a' -> R' b b') ->
  Forall2 P l bs -> StronglySorted R l -> StronglySorted R' bs.
Proof.
  intros HP H. induction H as [|a b l bs Hab Hl IH]; intro Hs; [constructor|].
  inversion Hs as [|? ? Hs' Hall]; subst. constructor; [now apply IH|].
  apply Forall_forall. intros b' Hb'.
  destruct (Forall2_In_r _ _ _ _ Hl Hb') as (a' & Ha' & Pa').
  rewrite Forall_forall in Hall. exact (HP _ _ _ _ Hab Pa' (Hall a' Ha')).
Qed.

Lemma StronglySorted_app_inv {A : Type} (R : A -> A -> Prop) (l1 l2 : list A) :
  StronglySorted R (l1 ++ l2) -> forall a b, In a l1 -> In b l2 -> R a b.
Proof.
  induction l1 as [|x l1 IH]; simpl; intros H a b Ha Hb; [contradiction|].
  inversion H as [|? ? Hs Hall]; subst. destruct Ha as [->|Ha].
  - rewrite Forall_forall in Hall. apply Hall. apply in_app_iff. now right.
  - now apply IH.
Qed.

Lemma sql_limit_strongly_sorted {A : Type} (R : A -> A -> Prop) (n : Z) (l : list A) :
  StronglySorted R l -> StronglySorted R (sql_limit n l).
Proof.
  unfold sql_limit. destruct (n <? 0); [tauto | apply StronglySorted_firstn].
Qed.

Lemma Qlt_bool_false (x y : Q) : Qlt_bool x y = false -> (y <= x)%Q.
Proof.
  unfold Qlt_bool. rewrite negb_false_iff. apply Qle_bool_iff.
Qed.

Lemma score_rows_sorted (rows : list PaperRow.t) :
  StronglySorted (fun a b => (PaperRow.score b <= PaperRow.score a)%Q)
    (sort_by ResearchAnalyzer.by_score_desc rows).
Proof.
  apply sort_by_strongly_sorted; unfold ResearchAnalyzer.by_score_desc.
  - intros a b c Hab Hbc. lra.
  - intros y x H. apply Qlt_bool_iff in H. lra.
  - intros y x H. now apply Qlt_bool_false.
Qed.

Lemma row_to_summary_fields (r : PaperRow.t) (s : Summary.t) :
  ResearchAnalyzer._row_to_summary r = Ok s ->
  Summary.id s = PaperRow.id r /\ Summary.title s = PaperRow.title r
  /\ Summary.status s = PaperRow.status r /\ Summary.score s = PaperRow.score r
  /\ Summary.created_at s = PaperRow.created_at r
  /\ Json.loads (ResearchAnalyzer.or_str (PaperRow.tags r) "[]") = Ok (Summary.tags s)
  /\ Json.loads (ResearchAnalyzer.or_str (PaperRow.authors r) "[]") = Ok (Summary.authors s).
Proof.
  unfold ResearchAnalyzer._row_to_summary.
  destruct (Json.loads (ResearchAnalyzer.or_str (PaperRow.authors r) "[]")); [|discriminate].
  destruct (Json.loads (ResearchAnalyzer.or_str (PaperRow.tags r) "[]")); [|discriminate].
  cbn [bind]. intro H. injection H as <-. repeat split.
Qed.

Lemma score_rows_sorted_asc (rows : list PaperRow.t) :
  StronglySorted (fun a b => (PaperRow.score a <= PaperRow.score b)%Q)
    (sort_by ResearchAnalyzer.by_score_asc rows).
Proof.
  apply sort_by_strongly_sorted; unfold ResearchAnalyzer.by_score_asc.
  - intros a b c Hab Hbc. lra.
  - intros y x H. apply Qlt_bool_iff in H. lra.
  - intros y x H. now apply Qlt_bool_false.
Qed.

Lemma StronglySorted_snoc {A : Type} (R : A -> A -> Prop) (l : list A) (a : A) :
  StronglySorted R l -> (forall b, In b l -> R b a) -> StronglySorted R (l ++ [a]).
Proof.
  induction 1 as [|x l Hl IH Hx]; intro Ha; cbn [app].
  - constructor; constructor.
  - constructor; [apply IH; intros b Hb; apply Ha; now right|].
    apply Forall_forall. intros z Hz. apply in_app_iff in Hz.
    destruct Hz as [Hz|[<-|[]]].
    + rewrite Forall_forall in Hx. now apply Hx.
    + apply Ha. now left.
Qed.

(** a sorted list read backwards is sorted for the converse order *)
Lemma StronglySorted_rev {A : Type} (R : A -> A -> Prop) (l : list A) :
  StronglySorted R l -> StronglySorted (fun a b => R b a) (rev l).
Proof.
  induction 1 as [|x l Hl IH Hx]; cbn [rev]; [constructor|].
  apply StronglySorted_snoc; [exact IH|].
  intros b Hb. apply in_rev in Hb. rewrite Forall_forall in Hx. now apply Hx.
Qed.

(** the statement of [list_papers] returns the wanted rows, each once, in
    descending order of score *)
Lemma select_by_score_perm (status : option string) (min_score : Q) (db : DB) :
  Permutation (ResearchAnalyzer.select_by_score status min_score db)
    (filter (wanted_row status min_score) (papers db)).
Proof.
  unfold ResearchAnalyzer.select_by_score, wanted_row. destruct status as [s|].
  - apply Permutation_sym, sort_by_perm.
  - rewrite (filter_ext (fun r => Qle_bool min_score (PaperRow.score r) && true)
               (fun r => Qle_bool min_score (PaperRow.score r)))
      by (intro r; apply andb_true_r).
    apply Permutation_sym. eapply perm_trans; [apply sort_by_perm | apply Permutation_rev].
Qed.

Lemma select_by_score_sorted (status : option string) (min_score : Q) (db : DB) :
  StronglySorted (fun a b => (PaperRow.score b <= PaperRow.score a)%Q)
    (ResearchAnalyzer.select_by_score status min_score db).
Proof.
  unfold ResearchAnalyzer.select_by_score. destruct status as [s|].
  - apply score_rows_sorted.
  - apply (StronglySorted_rev (fun a b => (PaperRow.score a <= PaperRow.score b)%Q)).
    apply score_rows_sorted_asc.
Qed.

(** [LIMIT n] cuts a list in two, and the number of rows it keeps *)
Lemma sql_limit_split {A : Type} (n : Z) (l : list A) :
  exists rest,
    l = (sql_limit n l ++ rest)%list
    /\ Z.of_nat (List.length (sql_limit n l))
       = if n <? 0 then Z.of_nat (List.length l) else Z.min n (Z.of_nat (List.length l)).
Proof.
  unfold sql_limit. destruct (n <? 0) eqn:E.
  - exists []. split; [now rewrite app_nil_r | reflexivity].
  - apply Z.ltb_ge in E. exists (skipn (Z.to_nat n) l).
    split; [now rewrite firstn_skipn|]. rewrite length_firstn. lia.
Qed.

Lemma int64_false (n : Z) : int64 n = false <-> n < - 2 ^ 63 \/ 2 ^ 63 <= n.
Proof.
  rewrite <- not_true_iff_false, int64_iff. lia.
Qed.

(** the rows [list_papers] reads before it filters them by tag *)
Lemma list_papers_rows (status tag : option string) (min_score : Q) (limit : Z) (db : DB)
    (res : list Summary.t) :
  ResearchAnalyzer.list_papers status tag min_score limit db = Ok res ->
  exists rows res0,
    int64 limit = true
    /\ rows = sql_limit limit
                (ResearchAnalyzer.select_by_score (ResearchAnalyzer.nonempty status)
                   min_score db)
    /\ mapM ResearchAnalyzer._row_to_summary rows = Ok res0
    /\ res = match ResearchAnalyzer.nonempty tag with
             | Some t =>
                 filter (fun r => existsb (String.eqb (py_lower t))
                                    (map py_lower (Summary.tags r))) res0
             | None => res0
             end.
Proof.
  unfold ResearchAnalyzer.list_papers. intro H.
  destruct (int64 limit); [|discriminate]. cbn [negb] in H.
  eexists. destruct (mapM ResearchAnalyzer._row_to_summary _) as [res0|] eqn:E;
    [|discriminate].
  exists res0. split; [reflexivity|]. split; [reflexivity|]. split; [exact E|].
  cbn [bind] in H. destruct (ResearchAnalyzer.nonempty tag); now injection H as <-.
Qed.

(** what [list_papers] returns *)
Lemma list_papers_spec (status tag : option string) (min_score : Q)
    (limit : Z) (db : DB) :
  let selected :=
    filter (wanted_row (ResearchAnalyzer.nonempty status) min_score) (papers db) in
  let tagged (s : Summary.t) :=
    match ResearchAnalyzer.nonempty tag with
    | Some t => existsb (String.eqb (py_lower t)) (map py_lower (Summary.tags s))
    | None => true
    end in
  (int64 limit = false ->
   ResearchAnalyzer.list_papers status tag min_score limit db = Raise OverflowError)
  /\ (int64 limit = true -> forallb wf_paper (papers db) = true ->
      exists res, ResearchAnalyzer.list_papers status tag min_score limit db = Ok res)
  /\ (forall res,
        ResearchAnalyzer.list_papers status tag min_score limit db = Ok res ->
        exists rows rest top,
          Permutation (rows ++ rest) selected
          /\ StronglySorted (fun a b => (PaperRow.score b <= PaperRow.score a)%Q) rows
          /\ (forall a b, In a rows -> In b rest ->
                (PaperRow.score b <= PaperRow.score a)%Q)
          /\ Z.of_nat (List.length rows)
             = (if limit <? 0 then Z.of_nat (List.length selected)
                else Z.min limit (Z.of_nat (List.length selected)))
          /\ mapM ResearchAnalyzer._row_to_summary rows = Ok top
          /\ res = filter tagged top).
Proof.
  intros selected tagged.
  pose proof (select_by_score_perm (ResearchAnalyzer.nonempty status) min_score db) as Hperm.
  pose proof (select_by_score_sorted (ResearchAnalyzer.nonempty status) min_score db)
    as Hsorted.
  fold selected in Hperm.
  set (ordered := ResearchAnalyzer.select_by_score (ResearchAnalyzer.nonempty status)
                    min_score db) in *.
  split; [|split].
  - intro Hl. unfold ResearchAnalyzer.list_papers. now rewrite Hl.
  - intros Hl Hwf. unfold ResearchAnalyzer.list_papers. rewrite Hl. cbn [negb].
    fold ordered.
    destruct (summaries_total (sql_limit limit ordered)) as (res0 & Hres0 & _).
    { intros r Hr. apply sql_limit_In in Hr.
      apply (Permutation_in _ Hperm) in Hr. apply filter_In in Hr.
      rewrite forallb_forall in Hwf. apply Hwf. tauto. }
    rewrite Hres0. cbn [bind].
    destruct (ResearchAnalyzer.nonempty tag); eexists; reflexivity.
  - intros res Hres.
    destruct (list_papers_rows _ _ _ _ _ _ Hres) as (rows & res0 & _ & Hrows & Hmap & Hfil).
    fold ordered in Hrows.
    destruct (sql_limit_split limit ordered) as (rest & Hsplit & Hlen).
    rewrite <- Hrows in Hsplit, Hlen.
    exists rows, rest, res0.
    split; [rewrite <- Hsplit; exact Hperm|].
    split; [rewrite Hrows; now apply sql_limit_strongly_sorted|].
    split; [rewrite Hsplit in Hsorted; exact (StronglySorted_app_inv _ _ _ Hsorted)|].
    split; [rewrite Hlen, (Permutation_length Hperm); reflexivity|].
    split; [exact Hmap|].
    rewrite Hfil. unfold tagged. destruct (ResearchAnalyzer.nonempty tag); [reflexivity|].
    clear. induction res0 as [|x l IH]; [reflexivity|]. cbn [filter]. now rewrite <- IH.
Qed.

Lemma nonempty_cases (s : option string) :
  ResearchAnalyzer.nonempty s
  = match s with
    | Some (String c t) => Some (String c t)
    | _ => None
    end.
Proof. destruct s as [[|c t]|]; reflexivity. Qed.

(** X16. [list_papers] takes the stored papers whose score is at least
    [min_score] and whose status is the one asked for, when one is given,
    in descending order of score; it keeps the first [limit] of them (all
    of them under a negative limit), no paper twice and none that scores
    higher than one it keeps left out; and of those it returns the
    summaries that carry the tag, compared without case, when one is
    given.  A limit beyond 64 bits is an [OverflowError]; otherwise, on a
    database whose rows decode, it raises nothing. *)
Theorem list_papers_filtered_sorted (status tag : option string) (min_score : Q)
    (limit : Z) (db : DB) :
  let wanted (r : PaperRow.t) :=
    Qle_bool min_score (PaperRow.score r)
    && match status with
       | Some (String c st) => String.eqb (PaperRow.status r) (String c st)
       | _ => true
       end in
  let tagged (s : Summary.t) :=
    match tag with
    | Some (String c t) =>
        existsb (String.eqb (py_lower (String c t))) (map py_lower (Summary.tags s))
    | _ => true
    end in
  let selected := filter wanted (papers db) in
  (limit < - 2 ^ 63 \/ 2 ^ 63 <= limit ->
   ResearchAnalyzer.list_papers status tag min_score limit db = Raise OverflowError)
  /\ (- 2 ^ 63 <= limit < 2 ^ 63 -> forallb wf_paper (papers db) = true ->
      exists res, ResearchAnalyzer.list_papers status tag min_score limit db = Ok res)
  /\ (forall res,
        ResearchAnalyzer.list_papers status tag min_score limit db = Ok res ->
        StronglySorted (fun a b => (Summary.score b <= Summary.score a)%Q) res
        /\ (0 <= limit -> Z.of_nat (List.length res) <= limit)
        /\ (forall s, In s res ->
              tagged s = true
              /\ exists row, In row (papers db) /\ wanted row = true
                             /\ ResearchAnalyzer._row_to_summary row = Ok s)
        /\ exists rows rest top,
             Permutation (rows ++ rest) selected
             /\ (forall a b, In a rows -> In b rest ->
                   (PaperRow.score b <= PaperRow.score a)%Q)
             /\ Z.of_nat (List.length rows)
                = (if limit <? 0 then Z.of_nat (List.length selected)
                   else Z.min limit (Z.of_nat (List.length selected)))
             /\ mapM ResearchAnalyzer._row_to_summary rows = Ok top
             /\ res = filter tagged top).
Proof.
  intros wanted tagged selected.
  pose proof (list_papers_spec status tag min_score limit db) as H. cbv zeta in H.
  assert (Ew : wanted_row (ResearchAnalyzer.nonempty status) min_score = wanted).
  { unfold wanted_row, wanted. destruct status as [[|c st]|]; reflexivity. }
  assert (Et : (fun s : Summary.t =>
                  match ResearchAnalyzer.nonempty tag with
                  | Some t => existsb (String.eqb (py_lower t)) (map py_lower (Summary.tags s))
                  | None => true
                  end) = tagged).
  { unfold tagged. destruct tag as [[|c t]|]; reflexivity. }
  rewrite Ew, Et in H. fold selected in H.
  destruct H as (Hover & Htotal & Hres).
  split; [intro Hl; apply Hover; now apply int64_false|].
  split; [intros Hl Hwf; apply Htotal; [now apply int64_iff | exact Hwf]|].
  intros res Hok.
  destruct (Hres res Hok) as (rows & rest & top & Hperm & Hsorted & Hcross & Hlen & Hmap & ->).
  pose proof (mapM_Forall2 _ _ _ Hmap) as HF.
  assert (Hsorted0 : StronglySorted (fun a b => (Summary.score b <= Summary.score a)%Q) top).
  { apply (StronglySorted_Forall2 _ _ _ _ _
             (fun a a' b b' Hab Hab' (HR : (PaperRow.score a' <= PaperRow.score a)%Q) =>
                eq_ind_r (fun x => (x <= Summary.score b)%Q)
                  (eq_ind_r (fun y => (PaperRow.score a' <= y)%Q) HR
                     (proj1 (proj2 (proj2 (proj2 (row_to_summary_fields _ _ Hab))))))
                  (proj1 (proj2 (proj2 (proj2 (row_to_summary_fields _ _ Hab'))))))
             HF Hsorted). }
  split; [now apply StronglySorted_filter|].
  split.
  { intro Hl. apply Z.le_trans with (Z.of_nat (List.length top)).
    - pose proof (filter_length_le tagged top). lia.
    - rewrite (mapM_length _ _ _ Hmap), Hlen.
      replace (limit <? 0) with false by (symmetry; apply Z.ltb_ge; exact Hl). lia. }
  split.
  { intros s Hs. apply filter_In in Hs. destruct Hs as [Hs Htag]. split; [exact Htag|].
    destruct (Forall2_In_r _ _ _ _ HF Hs) as (row & Hrow & Hsum).
    exists row.
    assert (Hin : In row selected).
    { apply (Permutation_in _ Hperm). apply in_app_iff. now left. }
    apply filter_In in Hin. tauto. }
  exists rows, rest, top. repeat split; assumption.
Qed.

Lemma list_papers_filtered_sorted_sample :
  exists res,
    ResearchAnalyzer.list_papers None (Some "MULTI-AGENT") (9 # 1) 50 Sample.db_scored = Ok res
    /\ StronglySorted (fun a b => (Summary.score b <= Summary.score a)%Q) res
    /\ Z.of_nat (List.length res) <= 50.
Proof.
  destruct (proj1 (proj2 (list_papers_filtered_sorted None (Some "MULTI-AGENT") (9 # 1) 50
                            Sample.db_scored)) ltac:(lia) eq_refl) as [res Hres].
  exists res. split; [exact Hres|].
  destruct (proj2 (proj2 (list_papers_filtered_sorted None (Some "MULTI-AGENT") (9 # 1) 50
                            Sample.db_scored)) res Hres) as (H1 & H2 & _).
  split; [exact H1 | apply H2; lia].
Defined.

Example list_papers_by_tag_and_score :
  exists res,
    ResearchAnalyzer.list_papers None (Some "MULTI-AGENT") (9 # 1) 50 Sample.db_scored = Ok res
    /\ map Summary.id res = [Sample.emergence_pid].
Proof. eexists. split; vm_compute; reflexivity. Qed.

(** three papers of score 0.0: without a status SQLite reads the score
    index downwards and the last paper added comes first; with a status it
    sorts, and the papers stay in the order they were added *)
Example list_papers_equal_scores :
  (exists res,
     ResearchAnalyzer.list_papers None None 0 50 Sample.db_three = Ok res
     /\ map Summary.title res = ["Paper 2"; "Paper 1"; "Paper 0"])
  /\ (exists res,
        ResearchAnalyzer.list_papers (Some "draft") None 0 50 Sample.db_three = Ok res
        /\ map Summary.title res = ["Paper 0"; "Paper 1"; "Paper 2"])
  /\ ResearchAnalyzer.list_papers None None 0 (2 ^ 63) Sample.db_three = Raise OverflowError.
Proof.
  split; [|split]; [eexists; split; vm_compute; reflexivity ..| reflexivity].
Qed.

(** X17. [top_papers(n)] returns the summaries of the [n] highest-scored
    papers among those with a score of at least 0 and the status asked
    for, when one is given: as many as [n], or all of them when there are
    fewer or [n] is negative, in descending order of score, no paper twice,
    and no paper left out scores higher than one returned.  An [n] beyond
    64 bits is an [OverflowError]. *)
Theorem top_papers_are_top (n : Z) (status : option string) (db : DB) :
  let wanted (r : PaperRow.t) :=
    Qle_bool 0 (PaperRow.score r)
    && match status with
       | Some (String c st) => String.eqb (PaperRow.status r) (String c st)
       | _ => true
       end in
  let selected := filter wanted (papers db) in
  (n < - 2 ^ 63 \/ 2 ^ 63 <= n ->
   ResearchAnalyzer.top_papers n status db = Raise OverflowError)
  /\ (- 2 ^ 63 <= n < 2 ^ 63 -> forallb wf_paper (papers db) = true ->
      exists res rows rest,
        ResearchAnalyzer.top_papers n status db = Ok res
        /\ mapM ResearchAnalyzer._row_to_summary rows = Ok res
        /\ Permutation (rows ++ rest) selected
        /\ Z.of_nat (List.length res)
           = (if n <? 0 then Z.of_nat (List.length selected)
              else Z.min n (Z.of_nat (List.length selected)))
        /\ StronglySorted (fun a b => (Summary.score b <= Summary.score a)%Q) res
        /\ (forall a b, In a rows -> In b rest ->
              (PaperRow.score b <= PaperRow.score a)%Q)
        /\ (forall row, In row (papers db) -> wanted row = true ->
              (exists s, In s res /\ ResearchAnalyzer._row_to_summary row = Ok s)
              \/ (forall s, In s res -> (PaperRow.score row <= Summary.score s)%Q))).
Proof.
  intros wanted selected. unfold ResearchAnalyzer.top_papers.
  pose proof (list_papers_spec status None 0 n db) as H. cbv zeta in H.
  assert (Ew : wanted_row (ResearchAnalyzer.nonempty status) 0 = wanted).
  { unfold wanted_row, wanted. destruct status as [[|c st]|]; reflexivity. }
  rewrite Ew in H. fold selected in H. cbn [ResearchAnalyzer.nonempty] in H.
  destruct H as (Hover & Htotal & Hres).
  split; [intro Hl; apply Hover; now apply int64_false|].
  intros Hl Hwf. apply int64_iff in Hl.
  destruct (Htotal Hl Hwf) as [res Hok].
  destruct (Hres res Hok) as (rows & rest & top & Hperm & Hsorted & Hcross & Hlen & Hmap & E).
  assert (Etop : res = top).
  { rewrite E. clear. induction top as [|x l IH]; [reflexivity|]. cbn [filter]. now rewrite IH. }
  subst top. clear E.
  pose proof (mapM_Forall2 _ _ _ Hmap) as HF.
  exists res, rows, rest.
  split; [exact Hok|]. split; [exact Hmap|]. split; [exact Hperm|].
  split; [rewrite (mapM_length _ _ _ Hmap); exact Hlen|].
  split.
  { apply (StronglySorted_Forall2 _ _ _ _ _
             (fun a a' b b' Hab Hab' (HR : (PaperRow.score a' <= PaperRow.score a)%Q) =>
                eq_ind_r (fun x => (x <= Summary.score b)%Q)
                  (eq_ind_r (fun y => (PaperRow.score a' <= y)%Q) HR
                     (proj1 (proj2 (proj2 (proj2 (row_to_summary_fields _ _ Hab))))))
                  (proj1 (proj2 (proj2 (proj2 (row_to_summary_fields _ _ Hab'))))))
             HF Hsorted). }
  split; [exact Hcross|].
  intros row Hrow Hw.
  assert (Hin : In row (rows ++ rest)).
  { apply (Permutation_in _ (Permutation_sym Hperm)). apply filter_In. tauto. }
  apply in_app_iff in Hin. destruct Hin as [Hin|Hin].
  - left. destruct (Forall2_In_l _ _ _ row HF Hin) as (s & Hs & Hsum). exists s. tauto.
  - right. intros s Hs.
    destruct (Forall2_In_r _ _ _ _ HF Hs) as (r & Hr & Hsum).
    destruct (row_to_summary_fields _ _ Hsum) as (_ & _ & _ & Hsc & _).
    rewrite Hsc. now apply Hcross.
Qed.

Lemma top_papers_are_top_sample :
  exists res,
    ResearchAnalyzer.top_papers 1 None Sample.db_scored = Ok res
    /\ Z.of_nat (List.length res) = 1.
Proof.
  destruct (proj2 (top_papers_are_top 1 None Sample.db_scored) ltac:(lia) eq_refl)
    as (res & rows & rest & H1 & _ & _ & H2 & _).
  exists res. split; [exact H1|]. rewrite H2. vm_compute. reflexivity.
Defined.

Example top_papers_sample_first :
  exists res,
    ResearchAnalyzer.top_papers 1 None Sample.db_scored = Ok res
    /\ map Summary.id res = [Sample.emergence_pid]
    /\ map Summary.score res = [Sample.nine_point_two].
Proof. eexists. split; [vm_compute; reflexivity|]. split; vm_compute; reflexivity. Qed.

(** *** The paper object: words, queries, averages *)

Lemma split_from_word (w cur rest : string) :
  sall (fun c => negb (py_isspace c)) w = true ->
  py_split_from cur (w ++ rest) = py_split_from (srev_onto w cur) rest.
Proof.
  revert cur. induction w as [|c w IH]; intros cur H; [reflexivity|].
  cbn [sall] in H. apply andb_true_iff in H. destruct H as [Hc Hw].
  apply negb_true_iff in Hc. cbn [append py_split_from srev_onto]. rewrite Hc.
  now apply IH.
Qed.

Lemma srev_onto_nonempty (w cur : string) :
  w <> "" -> exists c s, srev_onto w cur = String c s.
Proof.
  revert cur. induction w as [|c w IH]; intros cur H; [contradiction|].
  destruct w as [|d w].
  - exists c, cur. reflexivity.
  - cbn [srev_onto] in *. apply (IH (String c cur)). discriminate.
Qed.

Lemma is_word_parts (w : string) :
  is_word w = true -> sall (fun c => negb (py_isspace c)) w = true /\ w <> "".
Proof.
  unfold is_word. intro H. apply andb_true_iff in H. destruct H as [H1 H2].
  split; [exact H1|]. apply negb_true_iff in H2. now apply String.eqb_neq.
Qed.

Lemma split_join (ws : list string) :
  forallb is_word ws = true -> py_split (join " " ws) = ws.
Proof.
  unfold py_split. induction ws as [|w ws IH]; intro H; [reflexivity|].
  cbn [forallb] in H. apply andb_true_iff in H. destruct H as [Hw Hws].
  destruct (is_word_parts _ Hw) as [Hns Hne].
  destruct (srev_onto_nonempty w "" Hne) as (c & s & E).
  assert (Erev : srev (String c s) = w).
  { rewrite <- E. change (srev_onto w "") with (srev w). apply srev_involutive. }
  destruct ws as [|w' ws].
  - cbn [join]. rewrite <- (sapp_nil_r w) at 1. rewrite (split_from_word _ _ _ Hns), E.
    cbn [py_split_from]. now rewrite Erev.
  - change (join " " (w :: w' :: ws)) with (w ++ String " " (join " " (w' :: ws))).
    rewrite (split_from_word _ _ _ Hns), E.
    cbn [py_split_from]. change (py_isspace " ") with true. cbv iota.
    rewrite Erev. f_equal. now apply IH.
Qed.

(** X18. [word_count()] counts the words of the abstract: for an abstract
    made of words (non-empty, without white space) separated by single
    spaces it is the number of those words, and [split()] gives back the
    words themselves. *)
Theorem word_count_of_words (p : ResearchPaper.t) (ws : list string) :
  forallb is_word ws = true ->
  ResearchPaper.abstract p = join " " ws ->
  py_split (ResearchPaper.abstract p) = ws
  /\ ResearchPaper.word_count p = List.length ws.
Proof.
  intros Hws Habs. unfold ResearchPaper.word_count. rewrite Habs, (split_join _ Hws).
  split; reflexivity.
Qed.

Lemma word_count_of_words_sample :
  py_split "hello world three words four five"
  = ["hello"; "world"; "three"; "words"; "four"; "five"]
  /\ ResearchPaper.word_count
       (ResearchPaper.mk "x" "t" "hello world three words four five" [] [] [] []
          "draft" 0 "" "" "{}") = 6%nat.
Proof.
  apply (word_count_of_words
           (ResearchPaper.mk "x" "t" "hello world three words four five" [] [] [] []
              "draft" 0 "" "" "{}")
           ["hello"; "world"; "three"; "words"; "four"; "five"]); reflexivity.
Defined.

Example word_count_blank :
  py_split "" = [] /\ py_split "   " = []
  /\ py_split "  two   words  " = ["two"; "words"].
Proof. repeat split. Qed.

Lemma prefix_refl_app (q post : string) : prefix q (q ++ post) = true.
Proof.
  induction q as [|c q IH]; [now destruct post|].
  cbn [append prefix]. destruct (ascii_dec c c) as [_|Hne]; [exact IH | contradiction].
Qed.

Lemma contains_intro (q pre post : string) : contains q (pre ++ q ++ post) = true.
Proof.
  induction pre as [|c pre IH].
  - cbn [append]. destruct (q ++ post) eqn:E.
    + cbn [contains]. rewrite <- E, prefix_refl_app. reflexivity.
    + cbn [contains]. rewrite <- E, prefix_refl_app. reflexivity.
  - cbn [append contains]. rewrite IH. apply orb_true_r.
Qed.

Lemma prefix_before_sep (sep : ascii) (q a b : string) :
  sall (fun c => negb (Ascii.eqb c sep)) q = true ->
  prefix q (a ++ String sep b) = prefix q a.
Proof.
  revert a. induction q as [|c q IH]; intros a H.
  - destruct a; reflexivity.
  - cbn [sall] in H. apply andb_true_iff in H. destruct H as [Hc Hq].
    apply negb_true_iff, Ascii.eqb_neq in Hc.
    destruct a as [|d a]; cbn [append prefix].
    + destruct (ascii_dec c sep); [contradiction | reflexivity].
    + destruct (ascii_dec c d); [now apply IH | reflexivity].
Qed.

Lemma contains_empty_hay (q : string) : contains q "" = prefix q "".
Proof. cbn [contains]. apply orb_false_r. Qed.

(** a query without the separator occurs in [a sep b] exactly when it
    occurs in [a] or in [b] *)
Lemma contains_across_sep (sep : ascii) (q a b : string) :
  sall (fun c => negb (Ascii.eqb c sep)) q = true ->
  contains q (a ++ String sep b) = contains q a || contains q b.
Proof.
  intro H. induction a as [|d a IH].
  - cbn [append]. rewrite contains_empty_hay.
    change (contains q (String sep b)) with (prefix q (String sep b) || contains q b).
    pose proof (prefix_before_sep sep q "" b H) as E. cbn [append] in E.
    now rewrite E.
  - change (contains q (String d a ++ String sep b))
      with (prefix q (String d a ++ String sep b) || contains q (a ++ String sep b)).
    pose proof (prefix_before_sep sep q (String d a) b H) as E. rewrite E, IH.
    change (contains q (String d a)) with (prefix q (String d a) || contains q a).
    now rewrite orb_assoc.
Qed.

Lemma py_lower_space (c : ascii) :
  Ascii.eqb (py_lower_char c) " " = Ascii.eqb c " ".
Proof.
  destruct c as [b0 b1 b2 b3 b4 b5 b6 b7].
  destruct b0, b1, b2, b3, b4, b5, b6, b7; reflexivity.
Qed.

Lemma py_lower_no_space (q : string) :
  sall (fun c => negb (Ascii.eqb c " ")) q = true ->
  sall (fun c => negb (Ascii.eqb c " ")) (py_lower q) = true.
Proof.
  induction q as [|c q IH]; [reflexivity|]. cbn [sall py_lower smap].
  intro H. apply andb_true_iff in H. destruct H as [Hc Hq].
  rewrite py_lower_space, Hc. now apply IH.
Qed.

Lemma py_lower_join (l : list string) :
  py_lower (join " " l) = join " " (map py_lower l).
Proof.
  induction l as [|x l IH]; [reflexivity|].
  destruct l as [|y l]; [reflexivity|].
  change (join " " (x :: y :: l)) with (x ++ " " ++ join " " (y :: l)).
  change (join " " (map py_lower (x :: y :: l)))
    with (py_lower x ++ " " ++ join " " (map py_lower (y :: l))).
  unfold py_lower in *. rewrite !smap_app, IH. reflexivity.
Qed.

Lemma contains_join (q : string) (l : list string) :
  sall (fun c => negb (Ascii.eqb c " ")) q = true ->
  contains q (join " " l) = match l with
                            | [] => contains q ""
                            | _ :: _ => existsb (contains q) l
                            end.
Proof.
  intro H. induction l as [|x l IH]; [reflexivity|].
  destruct l as [|y l].
  - cbn [join existsb]. now rewrite orb_false_r.
  - change (join " " (x :: y :: l)) with (x ++ String " " (join " " (y :: l))).
    rewrite (contains_across_sep " " q _ _ H), IH. reflexivity.
Qed.

(** X19. [matches_query] lower-cases both sides and looks for the query
    in the title, the abstract and the tags joined by spaces: a query that
    occurs, without regard to case, in one of these fields matches; and a
    query without a space matches exactly when it occurs in one of them. *)
Theorem matches_query_fields (p : ResearchPaper.t) (query : string) :
  (forall field,
     In field (ResearchPaper.title p :: ResearchPaper.abstract p :: ResearchPaper.tags p) ->
     contains (py_lower query) (py_lower field) = true ->
     ResearchPaper.matches_query p query = true)
  /\ (sall (fun c => negb (Ascii.eqb c " ")) query = true ->
      ResearchPaper.matches_query p query
      = existsb (fun field => contains (py_lower query) (py_lower field))
          (ResearchPaper.title p :: ResearchPaper.abstract p :: ResearchPaper.tags p)).
Proof.
  unfold ResearchPaper.matches_query.
  change ([ResearchPaper.title p; ResearchPaper.abstract p] ++ ResearchPaper.tags p)%list
    with (ResearchPaper.title p :: ResearchPaper.abstract p :: ResearchPaper.tags p).
  set (fields := ResearchPaper.title p :: ResearchPaper.abstract p :: ResearchPaper.tags p).
  rewrite py_lower_join. split.
  - intros field Hin Hc.
    assert (Hsplit : forall l f, In f l -> exists pre post, join " " l = pre ++ f ++ post).
    { induction l as [|x l IH]; intros f Hf; [contradiction|].
      destruct l as [|y l].
      - destruct Hf as [->|[]]. exists "", "". cbn [join append]. now rewrite sapp_nil_r.
      - change (join " " (x :: y :: l)) with (x ++ " " ++ join " " (y :: l)).
        destruct Hf as [->|Hf].
        + exists "", (" " ++ join " " (y :: l)). reflexivity.
        + destruct (IH f Hf) as (pre & post & E). rewrite E.
          exists (x ++ " " ++ pre), post. now rewrite !sapp_assoc. }
    destruct (Hsplit (map py_lower fields) (py_lower field) (in_map _ _ _ Hin))
      as (pre & post & E).
    destruct (contains_split _ _ Hc) as (pre' & post' & E').
    rewrite E, E', !sapp_assoc, <- (sapp_assoc pre pre').
    apply contains_intro.
  - intro Hq. rewrite (contains_join _ _ (py_lower_no_space _ Hq)).
    unfold fields. cbn [map]. generalize (ResearchPaper.tags p). intro l.
    cbn [existsb]. do 2 f_equal.
    induction l as [|x l IH]; [reflexivity|]. cbn [map existsb]. now rewrite IH.
Qed.

Lemma matches_query_fields_sample :
  ResearchPaper.matches_query
    (ResearchPaper.mk "x" "Trinary Logic" "uncertain world" [] ["logic"] [] []
       "draft" 0 "" "" "{}") "TRINARY" = true
  /\ ResearchPaper.matches_query
       (ResearchPaper.mk "x" "Trinary Logic" "uncertain world" [] ["logic"] [] []
          "draft" 0 "" "" "{}") "xyz_no" = false.
Proof.
  split.
  - apply (proj1 (matches_query_fields _ "TRINARY") "Trinary Logic");
      [left; reflexivity | reflexivity].
  - rewrite (proj2 (matches_query_fields _ "xyz_no") eq_refl). reflexivity.
Defined.

Section Sums.
Local Open Scope Q_scope.

(** a rounded value of at most 2^53 is a double, not an infinity *)
Lemma to_float_finite (x : Q) :
  0 <= fl x -> fl x <= inject_Z (2 ^ 53) -> to_float x = Finite (fl x).
Proof.
  intros H0 H1. unfold to_float.
  destruct (Qle_bool (pow2 1024) (Qabs (fl x))) eqn:E; [|reflexivity].
  exfalso. apply Qle_bool_iff in E. rewrite Qabs_pos in E by exact H0.
  assert (H : inject_Z (2 ^ 53) < pow2 1024) by reflexivity. lra.
Qed.

Lemma inject_Z_nonneg (k : Z) : (0 <= k)%Z -> 0 <= inject_Z k.
Proof. intro H. change 0 with (inject_Z 0). now rewrite <- Zle_Qle. Qed.

(** a sum of numbers of the unit interval: after [k] of them it is at most
    [k], and it stays at 2^53 once it is there *)
Lemma float_sum_unit (l : list Q) (s0 : Q) (k : Z) :
  (0 <= k <= 2 ^ 53)%Z -> 0 <= s0 -> s0 <= inject_Z k ->
  (forall x, In x l -> 0 <= x /\ x <= 1) ->
  exists s,
    fold_left float_add l (Finite s0) = Finite s
    /\ 0 <= s /\ s <= inject_Z (Z.min (k + Z.of_nat (List.length l)) (2 ^ 53)).
Proof.
  revert s0 k. induction l as [|x l IH]; intros s0 k Hk H0 H1 Hl.
  - exists s0. cbn [fold_left List.length]. split; [reflexivity|]. split; [exact H0|].
    replace (Z.min (k + Z.of_nat 0) (2 ^ 53)) with k by lia. exact H1.
  - destruct (Hl x (or_introl eq_refl)) as [Hx0 Hx1].
    set (k' := Z.min (k + 1) (2 ^ 53)).
    assert (Hup : fl (s0 + x) <= inject_Z k').
    { destruct (Z.eq_dec k (2 ^ 53)) as [E|E].
      - apply Qle_trans with (fl (inject_Z (2 ^ 53 + 1))).
        + apply fl_mono; [lra|]. rewrite inject_Z_plus. subst k.
          change (inject_Z 1) with 1. lra.
        + unfold k'. subst k. vm_compute. discriminate.
      - replace k' with (k + 1)%Z by (unfold k'; lia).
        rewrite <- (fl_int (k + 1)) by lia.
        apply fl_mono; [lra|]. rewrite inject_Z_plus. change (inject_Z 1) with 1. lra. }
    assert (Hlo : 0 <= fl (s0 + x)) by (apply fl_nonneg; lra).
    assert (Hk' : (0 <= k' <= 2 ^ 53)%Z) by (unfold k'; lia).
    cbn [fold_left float_add]. rewrite to_float_finite.
    2: exact Hlo.
    2:{ apply Qle_trans with (1 := Hup). rewrite <- Zle_Qle. lia. }
    destruct (IH (fl (s0 + x)) k' Hk' Hlo Hup) as (s & Hs & Hs0 & Hs1).
    { intros y Hy. apply Hl. now right. }
    exists s. split; [exact Hs|]. split; [exact Hs0|].
    replace (Z.min (k + Z.of_nat (List.length (x :: l))) (2 ^ 53))
      with (Z.min (k' + Z.of_nat (List.length l)) (2 ^ 53));
      [exact Hs1|].
    unfold k'. cbn [List.length]. lia.
Qed.

(** a sum of numbers between two whole numbers: while the bounds are
    doubles, the sum of [k] numbers lies between [k] times the one and [k]
    times the other *)
Lemma float_sum_between (lo hi : Z) (l : list Q) (s0 : Q) (k : Z) :
  (0 <= lo <= hi)%Z -> (0 <= k)%Z ->
  ((k + Z.of_nat (List.length l)) * hi <= 2 ^ 53)%Z ->
  inject_Z (k * lo) <= s0 -> s0 <= inject_Z (k * hi) ->
  (forall x, In x l -> inject_Z lo <= x /\ x <= inject_Z hi) ->
  exists s,
    fold_left float_add l (Finite s0) = Finite s
    /\ inject_Z ((k + Z.of_nat (List.length l)) * lo) <= s
    /\ s <= inject_Z ((k + Z.of_nat (List.length l)) * hi).
Proof.
  intros Hb. revert s0 k. induction l as [|x l IH]; intros s0 k Hk Hsize H0 H1 Hl.
  - exists s0. cbn [fold_left List.length]. split; [reflexivity|].
    now replace (k + Z.of_nat 0)%Z with k by lia.
  - destruct (Hl x (or_introl eq_refl)) as [Hx0 Hx1].
    cbn [List.length] in Hsize.
    assert (Hlo0 : 0 <= inject_Z (k * lo)) by (apply inject_Z_nonneg; nia).
    assert (Hup : fl (s0 + x) <= inject_Z ((k + 1) * hi)).
    { rewrite <- (fl_int ((k + 1) * hi)) by nia.
      apply fl_mono; [pose proof (inject_Z_nonneg lo ltac:(lia)); lra|].
      replace ((k + 1) * hi)%Z with (k * hi + hi)%Z by lia. rewrite inject_Z_plus. lra. }
    assert (Hlo : inject_Z ((k + 1) * lo) <= fl (s0 + x)).
    { rewrite <- (fl_int ((k + 1) * lo)) by nia.
      apply fl_mono; [apply inject_Z_nonneg; nia|].
      replace ((k + 1) * lo)%Z with (k * lo + lo)%Z by lia. rewrite inject_Z_plus. lra. }
    cbn [fold_left float_add]. rewrite to_float_finite.
    2:{ apply Qle_trans with (2 := Hlo). apply inject_Z_nonneg. nia. }
    2:{ apply Qle_trans with (1 := Hup). rewrite <- Zle_Qle. nia. }
    destruct (IH (fl (s0 + x)) (k + 1)%Z) as (s & Hs & Hs0 & Hs1);
      [lia | lia | exact Hlo | exact Hup | intros y Hy; apply Hl; now right |].
    exists s. split; [exact Hs|]. cbn [List.length].
    replace (k + Z.of_nat (S (List.length l)))%Z
      with (k + 1 + Z.of_nat (List.length l))%Z by lia.
    split; assumption.
Qed.

(** the quotient of a sum by the number of its terms, between the bounds
    of the terms *)
Lemma float_div_between (lo hi : Z) (s : Q) (n : Z) :
  (0 <= lo <= hi)%Z -> (0 < n <= 2 ^ 53)%Z -> (hi <= 2 ^ 53)%Z ->
  inject_Z (n * lo) <= s -> s <= inject_Z (n * hi) ->
  exists a,
    float_div (Finite s) (fl (inject_Z n)) = Finite a
    /\ inject_Z lo <= a /\ a <= inject_Z hi.
Proof.
  intros Hb Hn Hhi H0 H1.
  pose proof (fl_int n ltac:(lia)) as En.
  assert (Hnq : 0 < inject_Z n) by (change 0 with (inject_Z 0); rewrite <- Zlt_Qlt; lia).
  rewrite !inject_Z_mult in *.
  assert (Hq0 : inject_Z lo <= s / fl (inject_Z n)).
  { rewrite En. apply Qle_shift_div_l; [exact Hnq | lra]. }
  assert (Hq1 : s / fl (inject_Z n) <= inject_Z hi).
  { rewrite En. apply Qle_shift_div_r; [exact Hnq | lra]. }
  pose proof (inject_Z_nonneg lo ltac:(lia)) as Hlo0.
  assert (Ha0 : inject_Z lo <= fl (s / fl (inject_Z n))).
  { rewrite <- (fl_int lo) by lia. apply fl_mono; [exact Hlo0 | exact Hq0]. }
  assert (Ha1 : fl (s / fl (inject_Z n)) <= inject_Z hi).
  { rewrite <- (fl_int hi) by lia. apply fl_mono; [lra | exact Hq1]. }
  exists (fl (s / fl (inject_Z n))). split; [|split; assumption].
  cbn [float_div]. apply to_float_finite; [lra|].
  apply Qle_trans with (1 := Ha1). rewrite <- Zle_Qle. lia.
Qed.

(** [round(a, 2)] between two whole numbers that bound [a]: the double of
    a number of hundredths *)
Lemma py_round2_between (lo hi : Z) (a : Q) :
  (0 <= lo <= hi)%Z -> (hi <= 2 ^ 53)%Z ->
  inject_Z lo <= a -> a <= inject_Z hi ->
  exists k : Z,
    (100 * lo <= k <= 100 * hi)%Z
    /\ py_round a 2 = fl (k # 100)
    /\ inject_Z lo <= py_round a 2 /\ py_round a 2 <= inject_Z hi.
Proof.
  intros Hb Hhi H0 H1. unfold py_round.
  change (Z.to_pos (10 ^ Z.of_nat 2)) with 100%positive.
  set (k := round_half_even (a * inject_Z 100)).
  assert (Hk : (100 * lo <= k <= 100 * hi)%Z).
  { split; [apply round_half_even_ge | apply round_half_even_le];
      rewrite inject_Z_mult; change (inject_Z 100) with (100 # 1); lra. }
  assert (Hz : k # 100 == inject_Z k * (1 # 100)).
  { unfold Qeq, Qmult, inject_Z; cbn [Qnum Qden]. lia. }
  destruct Hk as [Hk0 Hk1]. pose proof Hk0 as Hq0. pose proof Hk1 as Hq1.
  rewrite Zle_Qle, inject_Z_mult in Hq0, Hq1. change (inject_Z 100) with (100 # 1) in Hq0, Hq1.
  pose proof (inject_Z_nonneg lo ltac:(lia)) as Hlo0.
  exists k. split; [split; assumption|]. split; [reflexivity|]. split.
  - rewrite <- (fl_int lo) by lia. apply fl_mono; [exact Hlo0 | lra].
  - rewrite <- (fl_int hi) by lia. apply fl_mono; lra.
Qed.

End Sums.

Lemma is_active_iff (h : Hypothesis_.t) :
  Hypothesis_.is_active h = true
  <-> Hypothesis_.status h = "proposed" \/ Hypothesis_.status h = "testing".
Proof.
  unfold Hypothesis_.is_active. rewrite orb_true_iff, !String.eqb_eq. tauto.
Qed.

(** X20. On a paper with an active hypothesis (status "proposed" or
    "testing"), all of whose active hypotheses have a confidence in [0, 1],
    [avg_confidence()] answers a number of [0, 1]: the sum and the
    quotient of doubles never leave the interval, however many hypotheses
    there are.  Within the interval the average of doubles can exceed each
    of them: three confidences of 0.1 give 0.10000000000000002. *)
Theorem avg_confidence_between (p : ResearchPaper.t) :
  (exists h, In h (ResearchPaper.hypotheses p)
             /\ (Hypothesis_.status h = "proposed" \/ Hypothesis_.status h = "testing")) ->
  (forall h, In h (ResearchPaper.hypotheses p) ->
             Hypothesis_.status h = "proposed" \/ Hypothesis_.status h = "testing" ->
             (0 <= Hypothesis_.confidence h /\ Hypothesis_.confidence h <= 1)%Q) ->
  exists a,
    ResearchPaper.avg_confidence p = Ok (Some (Finite a))
    /\ (0 <= a /\ a <= 1)%Q.
Proof.
  intros (h0 & Hin0 & Hact0) Hb. unfold ResearchPaper.avg_confidence.
  set (act := filter Hypothesis_.is_active (ResearchPaper.hypotheses p)).
  assert (Hne : In h0 act) by (apply filter_In; split; [exact Hin0 | now apply is_active_iff]).
  assert (Et : truthy (map Hypothesis_.confidence act) = true).
  { destruct act; [contradiction | reflexivity]. }
  rewrite Et. unfold py_div, py_sum.
  set (n := Z.of_nat (List.length (map Hypothesis_.confidence act))).
  assert (Hn : (0 < n)%Z).
  { unfold n. rewrite length_map. destruct act; [contradiction|]. cbn [List.length]. lia. }
  replace (n =? 0)%Z with false by (symmetry; apply Z.eqb_neq; lia).
  destruct (float_sum_unit (map Hypothesis_.confidence act) 0 0) as (s & Hs & Hs0 & Hs1);
    [lia | apply Qle_refl | apply Qle_refl | |].
  { intros x Hx. apply in_map_iff in Hx. destruct Hx as (h & <- & Hh).
    apply filter_In in Hh. destruct Hh as [Hh1 Hh2]. apply Hb; [exact Hh1|].
    now apply is_active_iff. }
  fold n in Hs1. rewrite Hs. cbn [bind float_div].
  assert (Hfl : (inject_Z (Z.min (0 + n) (2 ^ 53)) <= fl (inject_Z n))%Q).
  { destruct (Z_le_gt_dec n (2 ^ 53)) as [Hle|Hgt].
    - rewrite (fl_int n) by lia. rewrite <- Zle_Qle. lia.
    - replace (Z.min (0 + n) (2 ^ 53)) with (2 ^ 53)%Z by lia.
      rewrite <- (fl_int (2 ^ 53)) by lia.
      apply fl_mono; [now apply inject_Z_nonneg|]. rewrite <- Zle_Qle. lia. }
  assert (Hpos : (0 < fl (inject_Z n))%Q).
  { apply Qlt_le_trans with (2 := Hfl). change 0%Q with (inject_Z 0).
    rewrite <- Zlt_Qlt. lia. }
  assert (Hq0 : (0 <= s / fl (inject_Z n))%Q).
  { apply Qle_shift_div_l; [exact Hpos | lra]. }
  assert (Hq1 : (s / fl (inject_Z n) <= 1)%Q).
  { apply Qle_shift_div_r; [exact Hpos | lra]. }
  destruct (fl_le_unit _ Hq0 Hq1) as [Ha0 Ha1].
  exists (fl (s / fl (inject_Z n))). split; [|split; assumption].
  rewrite to_float_finite; [reflexivity | exact Ha0|].
  apply Qle_trans with (1 := Ha1). discriminate.
Qed.

Lemma avg_confidence_between_sample :
  exists a,
    ResearchPaper.avg_confidence Sample.three_tenths = Ok (Some (Finite a))
    /\ (0 <= a /\ a <= 1)%Q.
Proof.
  apply (avg_confidence_between Sample.three_tenths).
  - exists (Hypothesis_.mk "h1" "a" "proposed" Sample.tenth [] "" "").
    split; [left; reflexivity | left; reflexivity].
  - intros h [<-|[<-|[<-|[<-|[]]]]] Ha; cbn [Hypothesis_.confidence Hypothesis_.status] in *;
      try (destruct Ha; discriminate); split; vm_compute; discriminate.
Defined.

(** the average of three confidences of 0.1 is the double above 0.1 *)
Example avg_confidence_three_tenths :
  Sample.tenth = (3602879701896397 # 36028797018963968)%Q
  /\ ResearchPaper.avg_confidence Sample.three_tenths
     = Ok (Some (Finite (7205759403792795 # 72057594037927936)))
  /\ Qlt_bool Sample.tenth (7205759403792795 # 72057594037927936) = true.
Proof. repeat split; vm_compute; reflexivity. Qed.

(** *** The shape of a paper id *)

Lemma sall_app (f : ascii -> bool) (a b : string) :
  sall f (a ++ b) = sall f a && sall f b.
Proof.
  induction a as [|c a IH]; [reflexivity|]. cbn [append sall].
  now rewrite IH, andb_assoc.
Qed.

Lemma sall_take (f : ascii -> bool) (n : nat) (s : string) :
  sall f s = true -> sall f (take n s) = true.
Proof.
  revert s. induction n as [|n IH]; intros [|c s]; try reflexivity.
  cbn [take sall]. intro H. apply andb_true_iff in H. destruct H as [Hc Hs].
  rewrite Hc. now apply IH.
Qed.

Lemma sall_lstrip (f : ascii -> bool) (c : ascii) (s : string) :
  sall f s = true -> sall f (lstrip c s) = true.
Proof.
  induction s as [|d s IH]; [reflexivity|]. cbn [lstrip]. intro H.
  destruct (Ascii.eqb c d); [|exact H].
  cbn [sall] in H. apply andb_true_iff in H. now apply IH.
Qed.

Lemma sall_srev_onto (f : ascii -> bool) (s acc : string) :
  sall f (srev_onto s acc) = sall f s && sall f acc.
Proof.
  revert acc. induction s as [|c s IH]; intro acc; [reflexivity|].
  cbn [srev_onto]. rewrite IH. cbn [sall].
  destruct (f c), (sall f s), (sall f acc); reflexivity.
Qed.

Lemma sall_srev (f : ascii -> bool) (s : string) : sall f (srev s) = sall f s.
Proof. unfold srev. rewrite sall_srev_onto. cbn [sall]. apply andb_true_r. Qed.

Lemma length_take (n : nat) (s : string) : (String.length (take n s) <= n)%nat.
Proof.
  revert s. induction n as [|n IH]; intros [|c s]; simpl; try lia.
  specialize (IH s). lia.
Qed.

Lemma length_take_exact (n : nat) (s : string) :
  (n <= String.length s)%nat -> String.length (take n s) = n.
Proof.
  revert s. induction n as [|n IH]; intros [|c s]; simpl; intro H; try lia.
  rewrite IH; lia.
Qed.

Lemma length_lstrip (c : ascii) (s : string) :
  (String.length (lstrip c s) <= String.length s)%nat.
Proof.
  induction s as [|d s IH]; simpl; [lia|]. destruct (Ascii.eqb c d); simpl; lia.
Qed.

Lemma length_srev_onto (s acc : string) :
  String.length (srev_onto s acc) = (String.length s + String.length acc)%nat.
Proof.
  revert acc. induction s as [|c s IH]; intro acc; [reflexivity|].
  cbn [srev_onto]. rewrite IH. simpl. lia.
Qed.

Lemma length_srev (s : string) : String.length (srev s) = String.length s.
Proof. unfold srev. rewrite length_srev_onto. simpl. lia. Qed.

Lemma sub_runs_alphabet (b : bool) (s : string) :
  sall slug_alphabet (sub_runs b s) = true.
Proof.
  revert b. induction s as [|c s IH]; intro b; [reflexivity|].
  cbn [sub_runs]. destruct (slug_char c) eqn:E.
  - cbn [sall]. unfold slug_alphabet at 1. rewrite E. apply IH.
  - destruct b; [apply IH|]. cbn [sall]. rewrite IH. reflexivity.
Qed.

Lemma slugify_shape (title : string) :
  sall slug_alphabet (slugify title) = true
  /\ (String.length (slugify title) <= 24)%nat.
Proof.
  unfold slugify, strip. split.
  - rewrite sall_srev. apply sall_lstrip. rewrite sall_srev.
    apply sall_lstrip, sall_take, sub_runs_alphabet.
  - rewrite length_srev.
    pose proof (length_lstrip "-" (srev (lstrip "-" (take 24 (sub_runs false (py_lower title)))))).
    rewrite length_srev in H.
    pose proof (length_lstrip "-" (take 24 (sub_runs false (py_lower title)))).
    pose proof (length_take 24 (sub_runs false (py_lower title))). lia.
Qed.

Lemma hex_digit_is_hex (z : Z) : 0 <= z < 16 -> is_hex (Md5.hex_digit z) = true.
Proof.
  intro H.
  assert (Hall : forallb (fun n => is_hex (Md5.hex_digit (Z.of_nat n))) (seq 0 16) = true)
    by (vm_compute; reflexivity).
  rewrite forallb_forall in Hall.
  rewrite <- (Z2Nat.id z) by lia. apply Hall. apply in_seq. lia.
Qed.

Lemma hex_shape (bs : list Z) :
  (forall b, In b bs -> 0 <= b < 256) ->
  sall is_hex (Md5.hex bs) = true
  /\ String.length (Md5.hex bs) = (2 * List.length bs)%nat.
Proof.
  induction bs as [|b bs IH]; intro H; [split; reflexivity|].
  destruct IH as [IH1 IH2]; [intros x Hx; apply H; now right|].
  specialize (H b (or_introl eq_refl)).
  cbn [Md5.hex sall String.length List.length]. split.
  - rewrite IH1, !hex_digit_is_hex; [reflexivity | |].
    + change 15 with (Z.ones 4). rewrite Z.land_ones by lia.
      apply Z.mod_pos_bound. lia.
    + rewrite Z.shiftr_div_pow2 by lia. change (2 ^ 4) with 16.
      split; [apply Z.div_pos; lia | apply Z.div_lt_upper_bound; lia].
  - rewrite IH2. lia.
Qed.

Lemma le_bytes_shape (n : nat) (x : Z) :
  List.length (Md5.le_bytes n x) = n
  /\ forall b, In b (Md5.le_bytes n x) -> 0 <= b < 256.
Proof.
  unfold Md5.le_bytes. split; [now rewrite length_map, length_seq|].
  intros b Hb. apply in_map_iff in Hb. destruct Hb as (i & <- & _).
  change 255 with (Z.ones 8). rewrite Z.land_ones by lia.
  apply Z.mod_pos_bound. lia.
Qed.

Lemma length_sapp (a b : string) :
  String.length (a ++ b) = (String.length a + String.length b)%nat.
Proof. induction a as [|c a IH]; simpl; [reflexivity | now rewrite IH]. Qed.

(** the digest is 32 lower-case hexadecimal digits *)
Lemma hexdigest_shape (s : string) :
  sall is_hex (Md5.hexdigest s) = true /\ String.length (Md5.hexdigest s) = 32%nat.
Proof.
  unfold Md5.hexdigest, Md5.digest.
  set (r := fold_left Md5.compress _ Md5.init).
  destruct (hex_shape (Md5.le_bytes 4 (Md5.sa r) ++ Md5.le_bytes 4 (Md5.sb r)
                       ++ Md5.le_bytes 4 (Md5.sc r) ++ Md5.le_bytes 4 (Md5.sd r))%list)
    as [H1 H2].
  { intros b Hb. repeat (apply in_app_iff in Hb; destruct Hb as [Hb|Hb]);
      exact (proj2 (le_bytes_shape 4 _) b Hb). }
  split; [exact H1|]. rewrite H2, !length_app.
  now rewrite !(proj1 (le_bytes_shape 4 _)).
Qed.

(** X21. A paper id is the slug of the title, a hyphen and ten lower-case
    hexadecimal digits: the slug has at most 24 characters, all of them
    lower-case ASCII letters, digits or hyphens, so an id has between 11
    and 35 characters; and the id does not depend on the microseconds of
    the clock reading. *)
Theorem paper_id_shape (clk : datetime) (title : string) :
  exists slug h,
    _paper_id clk title = slug ++ "-" ++ h
    /\ slug = slugify title
    /\ (String.length slug <= 24)%nat
    /\ sall slug_alphabet slug = true
    /\ String.length h = 10%nat
    /\ sall is_hex h = true
    /\ (11 <= String.length (_paper_id clk title) <= 35)%nat
    /\ forall us,
         _paper_id (mkDatetime (year clk) (month clk) (day clk) (hour clk) (minute clk)
                      (second clk) us) title = _paper_id clk title.
Proof.
  unfold _paper_id.
  destruct (hexdigest_shape (title ++ strftime_compact clk)) as [Hhex Hlen].
  destruct (slugify_shape title) as [Halpha Hslug].
  exists (slugify title), (take 10 (Md5.hexdigest (title ++ strftime_compact clk))).
  assert (H10 : String.length (take 10 (Md5.hexdigest (title ++ strftime_compact clk)))
                = 10%nat) by (apply length_take_exact; lia).
  repeat split; try assumption.
  - now apply sall_take.
  - rewrite !length_sapp, H10. simpl. lia.
  - rewrite !length_sapp, H10. simpl. lia.
Qed.

(** *** The counters of the statistics *)

Lemma bump_get (k k' : string) (d : list (string * Z)) :
  dict_get k (bump k' d) = dict_get k d + (if String.eqb k k' then 1 else 0).
Proof.
  induction d as [|[k0 n] d IH]; cbn [bump dict_get].
  - destruct (String.eqb k k'); reflexivity.
  - destruct (String.eqb k' k0) eqn:E0; cbn [dict_get].
    + apply String.eqb_eq in E0. subst k0.
      destruct (String.eqb k k'); lia.
    + destruct (String.eqb k k0) eqn:E1; [|exact IH].
      apply String.eqb_eq in E1. subst k0.
      rewrite String.eqb_sym, E0. lia.
Qed.

Lemma bump_keys (k x : string) (d : list (string * Z)) :
  In x (map fst (bump k d)) <-> x = k \/ In x (map fst d).
Proof.
  induction d as [|[k0 n] d IH]; cbn [bump map fst In].
  - intuition congruence.
  - destruct (String.eqb k k0) eqn:E; cbn [map fst In].
    + apply String.eqb_eq in E. subst k0. intuition congruence.
    + rewrite IH. intuition congruence.
Qed.

Lemma bump_NoDup (k : string) (d : list (string * Z)) :
  NoDup (map fst d) -> NoDup (map fst (bump k d)).
Proof.
  induction d as [|[k0 n] d IH]; cbn [bump map fst]; intro H.
  - repeat constructor. intros [].
  - inversion H as [|? ? Hnot Hd]; subst.
    destruct (String.eqb k k0) eqn:E; cbn [map fst].
    + now constructor.
    + constructor; [|now apply IH].
      rewrite bump_keys. intros [->|Hin]; [|contradiction].
      rewrite String.eqb_refl in E. discriminate.
Qed.

Lemma bump_positive (k : string) (d : list (string * Z)) :
  (forall x n, In (x, n) d -> 0 < n) -> forall x n, In (x, n) (bump k d) -> 0 < n.
Proof.
  induction d as [|[k0 m] d IH]; cbn [bump]; intros H x n Hin.
  - destruct Hin as [E|[]]. injection E as <- <-. lia.
  - destruct (String.eqb k k0).
    + destruct Hin as [E|Hin]; [|apply (H x n); now right].
      injection E as <- <-. specialize (H k0 m (or_introl eq_refl)). lia.
    + destruct Hin as [E|Hin]; [apply (H x n); now left|].
      apply (IH (fun y q Hy => H y q (or_intror Hy)) x n Hin).
Qed.

Lemma dict_get_In (k : string) (n : Z) (d : list (string * Z)) :
  NoDup (map fst d) -> In (k, n) d -> dict_get k d = n.
Proof.
  induction d as [|[k0 m] d IH]; cbn [map fst dict_get]; intros Hnd Hin; [contradiction|].
  inversion Hnd as [|? ? Hnot Hd]; subst. destruct Hin as [E|Hin].
  - injection E as -> ->. now rewrite String.eqb_refl.
  - destruct (String.eqb k k0) eqn:E; [|now apply IH].
    apply String.eqb_eq in E. subst k0. exfalso. apply Hnot.
    apply in_map_iff. exists (k, n). auto.
Qed.

Lemma dict_get_notin (k : string) (d : list (string * Z)) :
  ~ In k (map fst d) -> dict_get k d = 0.
Proof.
  induction d as [|[k0 m] d IH]; cbn [map fst dict_get In]; intro H; [reflexivity|].
  destruct (String.eqb k k0) eqn:E.
  - apply String.eqb_eq in E. subst k0. exfalso. apply H. now left.
  - apply IH. intro Hin. apply H. now right.
Qed.

(** a dictionary answers the same in whatever order its keys are held *)
Lemma dict_get_perm (k : string) (d d' : list (string * Z)) :
  NoDup (map fst d) -> Permutation d d' -> dict_get k d' = dict_get k d.
Proof.
  intros Hnd Hp.
  assert (Hnd' : NoDup (map fst d')) by exact (Permutation_NoDup (Permutation_map fst Hp) Hnd).
  destruct (in_dec string_dec k (map fst d)) as [Hin|Hin].
  - apply in_map_iff in Hin. destruct Hin as ([k0 n] & E & Hin). cbn [fst] in E. subst k0.
    rewrite (dict_get_In k n d Hnd Hin).
    apply dict_get_In; [exact Hnd' | exact (Permutation_in _ Hp Hin)].
  - rewrite (dict_get_notin k d Hin). apply dict_get_notin.
    intro H. apply Hin. exact (Permutation_in _ (Permutation_sym (Permutation_map fst Hp)) H).
Qed.

Lemma counted_nil : counted [] (fun _ => 0).
Proof. split; [constructor | intros x n [] | reflexivity]. Qed.

Lemma counted_bump (k : string) (d : list (string * Z)) (count : string -> Z) :
  counted d count ->
  counted (bump k d) (fun x => count x + (if String.eqb x k then 1 else 0)).
Proof.
  intros [H1 H2 H3]. split.
  - now apply bump_NoDup.
  - now apply bump_positive.
  - intro x. now rewrite bump_get, H3.
Qed.

Lemma counted_fold {A : Type} (key : A -> string) (l : list A) (d : list (string * Z))
    (count : string -> Z) :
  counted d count ->
  counted (fold_left (fun d a => bump (key a) d) l d)
    (fun x => count x + Z.of_nat (List.length (filter (fun a => String.eqb x (key a)) l))).
Proof.
  revert d count. induction l as [|a l IH]; intros d count H; cbn [fold_left filter].
  - destruct H as [H1 H2 H3]. split; try assumption.
    intro k. rewrite H3. simpl. lia.
  - specialize (IH _ _ (counted_bump (key a) d count H)).
    destruct IH as [H1 H2 H3]. split; try assumption.
    intro k. rewrite H3. destruct (String.eqb k (key a)); cbn [List.length]; lia.
Qed.

Lemma count_tags_counted (rows : list PaperRow.t) (acc d : list (string * Z))
    (count : string -> Z) :
  counted acc count ->
  ResearchAnalyzer.count_tags rows acc = Ok d ->
  exists tagss,
    mapM (fun r => Json.loads (ResearchAnalyzer.or_str (PaperRow.tags r) "[]")) rows
    = Ok tagss
    /\ counted d (fun x => count x
                           + Z.of_nat (List.length (filter (String.eqb x) (List.concat tagss)))).
Proof.
  revert acc count. induction rows as [|r rows IH]; intros acc count Hc H.
  - cbn [ResearchAnalyzer.count_tags] in H. injection H as <-.
    exists []. split; [reflexivity|].
    destruct Hc as [H1 H2 H3]. split; try assumption.
    intro k. rewrite H3. simpl. lia.
  - cbn [ResearchAnalyzer.count_tags mapM] in *.
    destruct (Json.loads (ResearchAnalyzer.or_str (PaperRow.tags r) "[]")) as [ts|];
      [|discriminate].
    cbn [bind] in *.
    destruct (IH _ _ (counted_fold (fun t => t) ts acc count Hc) H) as (tagss & Hm & Hd).
    exists (ts :: tagss). rewrite Hm. split; [reflexivity|].
    destruct Hd as [H1 H2 H3]. split; try assumption.
    intro k. rewrite H3. cbn [List.concat]. rewrite filter_app, length_app.
    change (filter (fun a : string => String.eqb k a) ts)
      with (filter (String.eqb k) ts).
    lia.
Qed.

Lemma by_count_sorted (d : list (string * Z)) :
  StronglySorted (fun a b => snd b <= snd a) (sort_by ResearchAnalyzer.by_count_desc d).
Proof.
  apply sort_by_strongly_sorted; unfold ResearchAnalyzer.by_count_desc.
  - intros a b c Hab Hbc. lia.
  - intros y x H. apply Z.ltb_lt in H. lia.
  - intros y x H. apply Z.ltb_ge in H. lia.
Qed.

Lemma firstn_In {A : Type} (n : nat) (l : list A) (a : A) : In a (firstn n l) -> In a l.
Proof.
  revert l. induction n as [|n IH]; intros [|b l]; simpl; try tauto.
  intros [->|H]; [now left | right; now apply IH].
Qed.

Lemma NoDup_map_firstn {A B : Type} (f : A -> B) (n : nat) (l : list A) :
  NoDup (map f l) -> NoDup (map f (firstn n l)).
Proof.
  revert l. induction n as [|n IH]; intros [|x l] H; cbn [firstn map]; try constructor.
  - inversion H as [|? ? Hnot Hl]; subst. intro Hin. apply Hnot.
    apply in_map_iff in Hin. destruct Hin as (y & Hy & Hin).
    apply in_map_iff. exists y. split; [exact Hy | now apply firstn_In in Hin].
  - apply IH. now inversion H.
Qed.

(** X22. The counters of [corpus_stats]: [total_papers] is the number of
    stored papers and [total_hypotheses] the number of stored hypotheses;
    [by_status] gives for every status the number of papers that have it;
    [top_tags] holds at most ten tags, in descending order of count, each
    with the number of times it occurs in the tag lists of the whole
    corpus. *)
Theorem corpus_stats_counts (db : DB) (st : Stats.t) :
  ResearchAnalyzer.corpus_stats db = Ok st ->
  Stats.total_papers st = Z.of_nat (List.length (papers db))
  /\ Stats.total_hypotheses st = Z.of_nat (List.length (hypotheses db))
  /\ (forall s, dict_get s (Stats.by_status st)
                = Z.of_nat (List.length
                              (filter (fun r => String.eqb s (PaperRow.status r)) (papers db))))
  /\ (List.length (Stats.top_tags st) <= 10)%nat
  /\ StronglySorted (fun a b => snd b <= snd a) (Stats.top_tags st)
  /\ exists tagss,
       mapM (fun r => Json.loads (ResearchAnalyzer.or_str (PaperRow.tags r) "[]")) (papers db)
       = Ok tagss
       /\ (forall t n, In (t, n) (Stats.top_tags st) ->
              0 < n /\ n = Z.of_nat (List.length (filter (String.eqb t) (List.concat tagss))))
       /\ NoDup (map fst (Stats.top_tags st)).
Proof.
  unfold ResearchAnalyzer.corpus_stats. intro H.
  destruct (ResearchAnalyzer.count_tags (papers db) []) as [d|] eqn:Ed; [|discriminate].
  cbn [bind] in H.
  destruct (ResearchAnalyzer.confirmation_rate _ _) as [rate|]; [|discriminate].
  cbn [bind] in H.
  remember (firstn 10 (sort_by ResearchAnalyzer.by_count_desc d)) as top eqn:Etop.
  injection H as <-.
  cbn [Stats.total_papers Stats.total_hypotheses Stats.by_status Stats.top_tags].
  subst top.
  split; [reflexivity|]. split; [reflexivity|]. split.
  { intro s.
    pose proof (counted_fold PaperRow.status (papers db) [] _ counted_nil) as Hc.
    rewrite (dict_get_perm s _ _ (counted_keys _ _ Hc) (sort_by_perm _ _)).
    rewrite (counted_get _ _ Hc). lia. }
  split; [apply firstn_le_length|].
  split; [apply StronglySorted_firstn, by_count_sorted|].
  destruct (count_tags_counted _ _ _ _ counted_nil Ed) as (tagss & Hm & [H1 H2 H3]).
  exists tagss. split; [exact Hm|]. split.
  - intros t n Hin. apply firstn_In, sort_by_In in Hin.
    split; [exact (H2 t n Hin)|].
    rewrite <- (dict_get_In t n d H1 Hin), H3. lia.
  - apply NoDup_map_firstn.
    apply (Permutation_NoDup (Permutation_map fst (sort_by_perm _ d)) H1).
Qed.

Lemma corpus_stats_counts_sample :
  exists st,
    ResearchAnalyzer.corpus_stats Sample.db_three = Ok st
    /\ Stats.total_papers st = 3
    /\ dict_get "draft" (Stats.by_status st) = 3.
Proof.
  assert (H : exists st, ResearchAnalyzer.corpus_stats Sample.db_three = Ok st)
    by (eexists; vm_compute; reflexivity).
  destruct H as [st H]. exists st. split; [exact H|].
  destruct (corpus_stats_counts Sample.db_three st H) as (Ht & _ & Hs & _).
  split; [rewrite Ht | rewrite Hs]; vm_compute; reflexivity.
Defined.

Example corpus_stats_three_tagged :
  exists st,
    ResearchAnalyzer.corpus_stats Sample.db_three = Ok st
    /\ Stats.top_tags st = [("test", 3)].
Proof. eexists. split; vm_compute; reflexivity. Qed.

(** *** The order of a paper's hypotheses *)

Section SortedBy.
Context {A : Type} (before : A -> A -> bool).
Hypothesis before_asym : forall y x, before y x = true -> before x y = false.

Lemma insert_by_sorted (x : A) (l : list A) :
  Sorted (fun a b => before b a = false) l ->
  Sorted (fun a b => before b a = false) (insert_by before x l).
Proof.
  induction l as [|y l IH]; intro H; cbn [insert_by].
  - repeat constructor.
  - destruct (before y x) eqn:E.
    + apply Sorted_inv in H. destruct H as [Hl Hy].
      constructor; [now apply IH|].
      destruct l as [|z l]; cbn [insert_by].
      * constructor. now apply before_asym.
      * destruct (before z x); constructor.
        -- now apply HdRel_inv in Hy.
        -- now apply before_asym.
    + constructor; [exact H | now constructor].
Qed.

Lemma sort_by_sorted (l : list A) :
  Sorted (fun a b => before b a = false) (sort_by before l).
Proof.
  induction l as [|x l IH]; cbn [sort_by]; [constructor | now apply insert_by_sorted].
Qed.
End SortedBy.

Lemma Sorted_map {A B : Type} (f : A -> B) (R : B -> B -> Prop) (l : list A) :
  Sorted (fun a b => R (f a) (f b)) l -> Sorted R (map f l).
Proof.
  induction 1 as [|a l Hl IH Ha]; cbn [map]; constructor; [exact IH|].
  destruct Ha; cbn [map]; now constructor.
Qed.

Lemma string_ltb_asym (a b : string) : String.ltb a b = true -> String.ltb b a = false.
Proof.
  unfold String.ltb. rewrite (String.compare_antisym b a).
  destruct (String.compare a b); simpl; congruence.
Qed.

(** X23. [get_paper] lists the hypotheses of the paper in the order of
    their creation stamps (a later one never before an earlier one): they
    are the hypotheses rows attached to the paper, each once; the
    citations are the rows attached to the paper in insertion order. *)
Theorem get_paper_hypotheses_ordered (paper_id : string) (db : DB) (p : ResearchPaper.t) :
  ResearchAnalyzer.get_paper paper_id db = Ok (Some p) ->
  Sorted (fun a b => String.ltb b a = false)
    (map Hypothesis_.created_at (ResearchPaper.hypotheses p))
  /\ (exists rows,
        Permutation (filter (ResearchAnalyzer.hyp_of_paper paper_id) (hypotheses db)) rows
        /\ Forall2 (fun r h => ResearchAnalyzer.hypothesis_of_row r = Ok h)
             rows (ResearchPaper.hypotheses p))
  /\ Forall2 (fun r c => ResearchAnalyzer.citation_of_row r = Ok c)
       (filter (ResearchAnalyzer.cit_of_paper paper_id) (citations db))
       (ResearchPaper.citations p).
Proof.
  unfold ResearchAnalyzer.get_paper.
  destruct (find (ResearchAnalyzer.has_id paper_id) (papers db)) as [row|] eqn:E;
    [|discriminate].
  destruct (find_has_id _ _ _ E) as [_ Hid].
  unfold ResearchAnalyzer._row_to_paper. rewrite Hid.
  destruct (mapM ResearchAnalyzer.hypothesis_of_row _) as [hyps|] eqn:Eh; [|discriminate].
  destruct (mapM ResearchAnalyzer.citation_of_row _) as [cits|] eqn:Ec; [|discriminate].
  cbn [bind].
  destruct (Json.loads (ResearchAnalyzer.or_str (PaperRow.authors row) "[]")); [|discriminate].
  destruct (Json.loads (ResearchAnalyzer.or_str (PaperRow.tags row) "[]")); [|discriminate].
  cbn [bind]. intro H. injection H as <-.
  cbn [ResearchPaper.hypotheses ResearchPaper.citations].
  pose proof (mapM_Forall2 _ _ _ Eh) as HF.
  split; [|split].
  - rewrite <- (Forall2_map _ HypRow.created_at Hypothesis_.created_at _ _ HF).
    + apply Sorted_map.
      apply (sort_by_sorted ResearchAnalyzer.by_created_at).
      intros y x. apply string_ltb_asym.
    + intros r h. unfold ResearchAnalyzer.hypothesis_of_row.
      destruct (Json.loads (HypRow.evidence r)); [|discriminate].
      cbn [bind]. intro Hr. injection Hr as <-. reflexivity.
  - eexists. split; [apply sort_by_perm | exact HF].
  - exact (mapM_Forall2 _ _ _ Ec).
Qed.

Lemma get_paper_hypotheses_ordered_sample :
  exists p,
    ResearchAnalyzer.get_paper Sample.pid Sample.db_hyp = Ok (Some p)
    /\ Sorted (fun a b => String.ltb b a = false)
         (map Hypothesis_.created_at (ResearchPaper.hypotheses p)).
Proof.
  assert (H : exists p, ResearchAnalyzer.get_paper Sample.pid Sample.db_hyp = Ok (Some p))
    by (eexists; vm_compute; reflexivity).
  destruct H as [p H]. exists p. split; [exact H|].
  exact (proj1 (get_paper_hypotheses_ordered Sample.pid Sample.db_hyp p H)).
Defined.

(** X24. A hypothesis updated by [update_hypothesis] is read back by
    [get_paper] on its paper: among the paper's hypotheses is the one with
    the id, carrying the non-empty status, the confidence and the
    non-empty evidence that were passed (the stored ones for those passed
    as [None]), the time of the call as [updated_at], and its text and
    creation stamp as before. *)
Theorem update_hypothesis_read_back (clk : datetime) (hyp_id : string)
    (status : option string) (confidence : option Q) (evidence : option (list string))
    (db : DB) (row : HypRow.t) :
  wf_db db = true ->
  find (ResearchAnalyzer.hyp_has_id hyp_id) (hypotheses db) = Some row ->
  existsb (ResearchAnalyzer.has_id (HypRow.paper_id row)) (papers db) = true ->
  exists db' p h ev0,
    ResearchAnalyzer.update_hypothesis clk hyp_id status confidence evidence db = Ok (db', tt)
    /\ Json.loads (HypRow.evidence row) = Ok ev0
    /\ ResearchAnalyzer.get_paper (HypRow.paper_id row) db' = Ok (Some p)
    /\ In h (ResearchPaper.hypotheses p)
    /\ Hypothesis_.id h = hyp_id
    /\ (forall c s, status = Some (String c s) -> Hypothesis_.status h = String c s)
    /\ (status = None -> Hypothesis_.status h = HypRow.status row)
    /\ (forall c, confidence = Some c -> Hypothesis_.confidence h = c)
    /\ (confidence = None -> Hypothesis_.confidence h = HypRow.confidence row)
    /\ (forall e l, evidence = Some (e :: l) -> Hypothesis_.evidence h = e :: l)
    /\ (evidence = None -> Hypothesis_.evidence h = ev0)
    /\ Hypothesis_.updated_at h = _now clk
    /\ Hypothesis_.text h = HypRow.text row
    /\ Hypothesis_.created_at h = HypRow.created_at row.
Proof.
  intros Hwf Hfind Hex.
  destruct (find_some _ _ Hfind) as [Hin Hid].
  assert (Hdec : exists ev0, Json.loads (HypRow.evidence row) = Ok ev0).
  { pose proof Hwf as Hwf0. split_wf Hwf0. rewrite forallb_forall in Hh.
    exact (decodes_loads _ (Hh row Hin)). }
  destruct Hdec as [ev0 Hev0].
  set (ev_list := match evidence with Some ((_ :: _) as l) => l | _ => ev0 end).
  set (new_status := match status with
                     | Some ((String _ _) as s) => s
                     | _ => HypRow.status row
                     end).
  set (new_conf := match confidence with Some c => c | None => HypRow.confidence row end).
  set (upd := ResearchAnalyzer.set_hypothesis new_status new_conf (Json.dumps ev_list)
                (_now clk)).
  set (db' := mkDB (papers db)
                (map (fun h => if ResearchAnalyzer.hyp_has_id hyp_id h then upd h else h)
                   (hypotheses db))
                (citations db) (papers_fts db) (citations_seq db)).
  assert (Hupd : ResearchAnalyzer.update_hypothesis clk hyp_id status confidence evidence db
                 = Ok (db', tt)).
  { unfold ResearchAnalyzer.update_hypothesis. rewrite Hfind.
    assert (E : match evidence with
                | Some ((_ :: _) as l) => Ok l
                | _ => Json.loads (HypRow.evidence row)
                end = Ok ev_list).
    { unfold ev_list. destruct evidence as [[|e l]|]; auto. }
    rewrite E. reflexivity. }
  assert (Hwf' : wf_db db' = true).
  { apply (run_call_wf (UpdateHypothesis clk hyp_id status confidence evidence) db);
      [exact Hwf | cbn [run_call]; now rewrite Hupd]. }
  destruct (find_existsb_true _ _ Hex) as [prow Hprow].
  destruct (find_has_id _ _ _ Hprow) as [Hpin Hpid].
  destruct (row_to_paper_wf prow db' Hwf' Hpin)
    as (p & Hp & _ & _ & _ & _ & _ & _ & _ & Hhyps & _).
  rewrite Hpid in Hhyps.
  destruct (Forall2_In_l _ _ _ (upd row) (mapM_Forall2 _ _ _ Hhyps)) as (h & Hh & Hrow).
  { apply sort_by_In, filter_In. split.
    - cbn [hypotheses db']. apply in_map_iff. exists row. now rewrite Hid.
    - unfold ResearchAnalyzer.hyp_of_paper. cbn [upd ResearchAnalyzer.set_hypothesis
                                                  HypRow.paper_id].
      apply String.eqb_refl. }
  unfold ResearchAnalyzer.hypothesis_of_row in Hrow.
  cbn [upd ResearchAnalyzer.set_hypothesis HypRow.evidence HypRow.id HypRow.text
       HypRow.status HypRow.confidence HypRow.created_at HypRow.updated_at] in Hrow.
  rewrite loads_dumps in Hrow. cbn [bind] in Hrow. injection Hrow as <-.
  exists db', p. eexists. exists ev0.
  split; [exact Hupd|]. split; [exact Hev0|].
  split; [unfold ResearchAnalyzer.get_paper; cbn [papers db']; now rewrite Hprow, Hp|].
  split; [exact Hh|].
  cbn [Hypothesis_.id Hypothesis_.status Hypothesis_.confidence Hypothesis_.evidence
       Hypothesis_.updated_at Hypothesis_.text Hypothesis_.created_at].
  split; [now apply String.eqb_eq|].
  split; [intros c s ->; reflexivity|].
  split; [intros ->; reflexivity|].
  split; [intros c ->; reflexivity|].
  split; [intros ->; reflexivity|].
  split; [intros e l ->; reflexivity|].
  split; [intros ->; reflexivity|].
  repeat split.
Qed.

Lemma update_hypothesis_read_back_sample :
  exists db' p h,
    ResearchAnalyzer.update_hypothesis Sample.next_second Sample.hid (Some "confirmed")
      (Some (95 # 100)%Q) None Sample.db_hyp = Ok (db', tt)
    /\ ResearchAnalyzer.get_paper Sample.pid db' = Ok (Some p)
    /\ In h (ResearchPaper.hypotheses p)
    /\ Hypothesis_.status h = "confirmed"
    /\ Hypothesis_.confidence h = (95 # 100)%Q.
Proof.
  destruct (update_hypothesis_read_back Sample.next_second Sample.hid (Some "confirmed")
              (Some (95 # 100)%Q) None Sample.db_hyp
              (HypRow.mk Sample.hid Sample.pid "X" "proposed" (9 # 10) (Json.dumps ["e1"])
                 (_now Sample.noon) (_now Sample.noon)))
    as (db' & p & h & ev0 & H1 & _ & H3 & H4 & _ & H6 & _ & H8 & _);
    [vm_compute; reflexivity ..|].
  exists db', p, h. split; [exact H1|]. split; [exact H3|]. split; [exact H4|].
  split; [apply (H6 "c"%char "onfirmed"); reflexivity | apply H8; reflexivity].
Defined.

(** *** The average score of the statistics *)

(** X25. The average score of [corpus_stats] is taken over the papers
    with a positive score only.  It is 0 when there is none.  When there
    is one, in a corpus of at most 2^49 papers, it lies between any two
    whole numbers from 0 to 10 that bound the positive scores, and it is
    the double of a number of hundredths: with the scores in [0, 10], as
    the analyzer keeps them, so is their average, and papers of score 0
    do not lower it. *)
Theorem corpus_stats_avg_score (db : DB) (st : Stats.t) (lo hi : Z) :
  ResearchAnalyzer.corpus_stats db = Ok st ->
  Z.of_nat (List.length (papers db)) <= 2 ^ 49 ->
  0 <= lo <= hi -> hi <= 10 ->
  (forall r, In r (papers db) -> (0 < PaperRow.score r)%Q ->
             (inject_Z lo <= PaperRow.score r /\ PaperRow.score r <= inject_Z hi)%Q) ->
  ((forall r, In r (papers db) -> (PaperRow.score r <= 0)%Q) ->
   Stats.avg_score st = Finite 0)
  /\ ((exists r, In r (papers db) /\ (0 < PaperRow.score r)%Q) ->
      exists (a : Q) (k : Z),
        Stats.avg_score st = Finite a
        /\ a = fl (k # 100)
        /\ 100 * lo <= k <= 100 * hi
        /\ (inject_Z lo <= a /\ a <= inject_Z hi)%Q).
Proof.
  intros H Hsize Hb Hhi Hrange. unfold ResearchAnalyzer.corpus_stats in H.
  destruct (ResearchAnalyzer.count_tags (papers db) []) as [d|]; [|discriminate].
  cbn [bind] in H.
  destruct (ResearchAnalyzer.confirmation_rate _ _) as [rate|]; [|discriminate].
  cbn [bind] in H.
  remember (firstn 10 (sort_by ResearchAnalyzer.by_count_desc d)) as top eqn:Etop.
  remember (sort_by ResearchAnalyzer.by_key _) as bs eqn:Ebs.
  injection H as <-. cbn [Stats.avg_score].
  unfold ResearchAnalyzer.avg_positive_score.
  set (pos := filter (fun r => Qlt_bool 0 (PaperRow.score r)) (papers db)).
  set (scored := sort_by ResearchAnalyzer.by_score_asc pos).
  assert (Hin : forall r, In r scored <-> In r (papers db) /\ (0 < PaperRow.score r)%Q).
  { intro r. unfold scored, pos. rewrite sort_by_In, filter_In, Qlt_bool_iff. tauto. }
  split.
  - intro Hzero. destruct scored as [|r l] eqn:E; [vm_compute; reflexivity|].
    exfalso. destruct (proj1 (Hin r) (or_introl eq_refl)) as [Hr Hp].
    specialize (Hzero r Hr). lra.
  - intros (r0 & Hr0 & Hp0).
    assert (Hne : In r0 scored) by (apply Hin; tauto).
    assert (Hlen : (0 < Z.of_nat (List.length scored) <= 2 ^ 49)%Z).
    { split; [destruct scored; [contradiction | cbn [List.length]; lia]|].
      unfold scored. rewrite <- (Permutation_length (sort_by_perm _ pos)).
      pose proof (filter_length_le (fun r => Qlt_bool 0 (PaperRow.score r)) (papers db)).
      fold pos in H. lia. }
    destruct (float_sum_between lo hi (map PaperRow.score scored) 0 0)
      as (s & Hs & Hs0 & Hs1); [lia | lia | | discriminate | discriminate | |].
    { rewrite length_map. nia. }
    { intros x Hx. apply in_map_iff in Hx. destruct Hx as (r & <- & Hr).
      apply Hin in Hr. now apply Hrange. }
    rewrite length_map in Hs0, Hs1. cbn [Z.add] in Hs0, Hs1.
    destruct (float_div_between lo hi s (Z.of_nat (List.length scored)))
      as (a & Ha & Ha0 & Ha1); [lia | lia | lia | exact Hs0 | exact Hs1 |].
    destruct (py_round2_between lo hi a) as (k & Hk & Ek & Hk0 & Hk1);
      [lia | lia | exact Ha0 | exact Ha1 |].
    exists (py_round a 2), k.
    split; [|split; [exact Ek | split; [exact Hk | split; assumption]]].
    destruct scored as [|r l] eqn:E; [contradiction|].
    unfold py_sum. rewrite Hs, Ha. reflexivity.
Qed.

Lemma corpus_stats_avg_score_sample :
  exists st a,
    ResearchAnalyzer.corpus_stats Sample.db_scored = Ok st
    /\ Stats.avg_score st = Finite a
    /\ (8 <= a /\ a <= 10)%Q.
Proof.
  assert (H : exists st, ResearchAnalyzer.corpus_stats Sample.db_scored = Ok st)
    by (eexists; vm_compute; reflexivity).
  destruct H as [st H]. exists st.
  assert (Hrange : forall r, In r (papers Sample.db_scored) -> (0 < PaperRow.score r)%Q ->
                             (inject_Z 8 <= PaperRow.score r
                              /\ PaperRow.score r <= inject_Z 10)%Q).
  { intros r Hr _. vm_compute in Hr.
    destruct Hr as [<-|[<-|[]]]; split; vm_compute; discriminate. }
  assert (Hsize : Z.of_nat (List.length (papers Sample.db_scored)) <= 2 ^ 49)
    by (vm_compute; discriminate).
  destruct (proj2 (corpus_stats_avg_score Sample.db_scored st 8 10 H Hsize
                     ltac:(lia) ltac:(lia) Hrange))
    as (a & k & Ha & _ & _ & Hr).
  - eexists. split; [left; reflexivity | vm_compute; reflexivity].
  - exists a. split; [exact H|]. split; [exact Ha | exact Hr].
Defined.

(** the scores 8.5 and 9.2 average to 8.85; with the second paper left at
    0.0 the average is 8.5; 2.675 rounds to 2.67 and 0.125 to 0.12, as in
    Python *)
Example corpus_stats_avg_score_value :
  (exists st,
     ResearchAnalyzer.corpus_stats Sample.db_scored = Ok st
     /\ Stats.avg_score st = Finite (fl (885 # 100))
     /\ Stats.total_papers st = 2)
  /\ (exists db st,
        ResearchAnalyzer.update_score Sample.next_second Sample.pid (85 # 10) Sample.db_two
        = Ok (db, tt)
        /\ ResearchAnalyzer.corpus_stats db = Ok st
        /\ Stats.avg_score st = Finite (17 # 2)
        /\ Stats.total_papers st = 2)
  /\ py_round (fl (2675 # 1000)) 2 = fl (267 # 100)
  /\ py_round (1 # 8) 2 = fl (12 # 100).
Proof.
  split; [|split; [|split]].
  - eexists. split; [vm_compute; reflexivity|]. split; vm_compute; reflexivity.
  - eexists. eexists. split; [vm_compute; reflexivity|].
    split; [vm_compute; reflexivity|]. split; vm_compute; reflexivity.
  - vm_compute. reflexivity.
  - vm_compute. reflexivity.
Qed.

(** *** Time stamps sort in the order of time *)

Lemma string_compare_refl (s : string) : String.compare s s = Eq.
Proof.
  induction s as [|c s IH]; [reflexivity|]. cbn [String.compare].
  unfold Ascii.compare. now rewrite N.compare_refl.
Qed.

Lemma string_compare_app (p1 p2 s1 s2 : string) :
  String.length p1 = String.length p2 ->
  String.compare (p1 ++ s1) (p2 ++ s2) = lex (String.compare p1 p2) (String.compare s1 s2).
Proof.
  revert p2. induction p1 as [|c p1 IH]; intros [|d p2] H; try discriminate; [reflexivity|].
  cbn [append String.compare]. destruct (Ascii.compare c d); [|reflexivity..].
  apply IH. now injection H.
Qed.

Lemma string_compare_prefix (p s1 s2 : string) :
  String.compare (p ++ s1) (p ++ s2) = String.compare s1 s2.
Proof. now rewrite string_compare_app, string_compare_refl. Qed.

Lemma digits_app (w : nat) (n : Z) (acc : string) :
  digits w n acc = digits w n "" ++ acc.
Proof.
  revert n acc. induction w as [|w IH]; intros n acc; [reflexivity|].
  cbn [digits]. rewrite (IH _ (String _ acc)), (IH _ (String _ "")), sapp_assoc.
  reflexivity.
Qed.

Lemma zfill_succ (w : nat) (n : Z) :
  zfill (S w) n = zfill w (n / 10) ++ String (chr (48 + n mod 10)) "".
Proof. unfold zfill. cbn [digits]. apply digits_app. Qed.

Lemma zfill_length (w : nat) (n : Z) : String.length (zfill w n) = w.
Proof.
  revert n. induction w as [|w IH]; intro n; [reflexivity|].
  rewrite zfill_succ, length_sapp, IH. simpl. lia.
Qed.

Lemma digit_compare (x y : Z) :
  0 <= x < 10 -> 0 <= y < 10 ->
  Ascii.compare (chr (48 + x)) (chr (48 + y)) = (x ?= y).
Proof.
  intros Hx Hy.
  assert (Hall : forallb (fun i =>
                   forallb (fun j =>
                     match Ascii.compare (chr (48 + Z.of_nat i)) (chr (48 + Z.of_nat j)),
                           (Z.of_nat i ?= Z.of_nat j) with
                     | Eq, Eq | Lt, Lt | Gt, Gt => true
                     | _, _ => false
                     end) (seq 0 10)) (seq 0 10) = true) by (vm_compute; reflexivity).
  rewrite forallb_forall in Hall.
  specialize (Hall (Z.to_nat x)). rewrite forallb_forall in Hall.
  specialize (Hall ltac:(apply in_seq; lia) (Z.to_nat y) ltac:(apply in_seq; lia)).
  rewrite !Z2Nat.id in Hall by lia.
  destruct (Ascii.compare _ _), (x ?= y); congruence.
Qed.

Lemma lex_div_mod (a b : Z) :
  0 <= a -> 0 <= b -> lex (a / 10 ?= b / 10) (a mod 10 ?= b mod 10) = (a ?= b).
Proof.
  intros Ha Hb.
  pose proof (Z.div_mod a 10 ltac:(lia)). pose proof (Z.div_mod b 10 ltac:(lia)).
  pose proof (Z.mod_pos_bound a 10 ltac:(lia)). pose proof (Z.mod_pos_bound b 10 ltac:(lia)).
  destruct (Z.compare_spec (a / 10) (b / 10)) as [E|E|E]; cbn [lex].
  - destruct (Z.compare_spec (a mod 10) (b mod 10)); symmetry;
      [apply Z.compare_eq_iff | apply Z.compare_lt_iff | apply Z.compare_gt_iff]; lia.
  - symmetry. apply Z.compare_lt_iff. lia.
  - symmetry. apply Z.compare_gt_iff. lia.
Qed.

(** zero-padded numbers of one width compare as the numbers do *)
Lemma zfill_compare (w : nat) (a b : Z) :
  0 <= a < 10 ^ Z.of_nat w -> 0 <= b < 10 ^ Z.of_nat w ->
  String.compare (zfill w a) (zfill w b) = (a ?= b).
Proof.
  revert a b. induction w as [|w IH]; intros a b Ha Hb.
  - change (10 ^ Z.of_nat 0) with 1 in *.
    assert (a = 0) by lia. assert (b = 0) by lia. subst. reflexivity.
  - rewrite Nat2Z.inj_succ, Z.pow_succ_r in Ha, Hb by lia.
    rewrite !zfill_succ, string_compare_app by (now rewrite !zfill_length).
    rewrite IH.
    + cbn [String.compare].
      rewrite digit_compare by (apply Z.mod_pos_bound; lia).
      replace (match a mod 10 ?= b mod 10 with Eq => Eq | Lt => Lt | Gt => Gt end)
        with (a mod 10 ?= b mod 10) by (destruct (a mod 10 ?= b mod 10); reflexivity).
      apply lex_div_mod; lia.
    + split; [apply Z.div_pos; lia | apply Z.div_lt_upper_bound; lia].
    + split; [apply Z.div_pos; lia | apply Z.div_lt_upper_bound; lia].
Qed.

(** the fraction and the offset that end a stamp *)
Lemma fraction_compare (ua ub : Z) :
  0 <= ua <= 999999 -> 0 <= ub <= 999999 ->
  String.compare ((if ua =? 0 then "" else "." ++ zfill 6 ua) ++ "+00:00")
                 ((if ub =? 0 then "" else "." ++ zfill 6 ub) ++ "+00:00")
  = (ua ?= ub).
Proof.
  intros Ha Hb.
  destruct (Z.eqb_spec ua 0) as [Ea|Ea]; destruct (Z.eqb_spec ub 0) as [Eb|Eb]; subst.
  - reflexivity.
  - symmetry. cbn [append String.compare]. apply Z.compare_lt_iff. lia.
  - symmetry. cbn [append String.compare]. apply Z.compare_gt_iff. lia.
  - rewrite string_compare_app by (cbn [append String.length]; now rewrite !zfill_length).
    change ("." ++ zfill 6 ua) with (String "." (zfill 6 ua)).
    change ("." ++ zfill 6 ub) with (String "." (zfill 6 ub)).
    cbn [String.compare]. change (Ascii.compare "." ".") with Eq. cbv iota.
    rewrite zfill_compare by (change (10 ^ Z.of_nat 6) with 1000000; lia).
    destruct (ua ?= ub); reflexivity.
Qed.

(** X26. The stamps of [_now()] sort as the readings do: for two clock
    readings the comparison of the ISO-8601 texts, character by character
    as SQLite's [ORDER BY created_at] makes it, is the comparison of the
    readings in time, a whole second before its fractions included. *)
Theorem isoformat_chronological (a b : datetime) :
  valid_datetime a -> valid_datetime b ->
  String.compare (_now a) (_now b) = datetime_compare a b
  /\ (String.ltb (_now a) (_now b) = true <-> datetime_compare a b = Lt)
  /\ (_now a = _now b <-> datetime_compare a b = Eq).
Proof.
  intros (Hy & Hmo & Hd & Hh & Hmi & Hs & Hu) (Hy' & Hmo' & Hd' & Hh' & Hmi' & Hs' & Hu').
  assert (Hcmp : String.compare (_now a) (_now b) = datetime_compare a b).
  { unfold _now, isoformat, datetime_compare.
    rewrite string_compare_app by (now rewrite !zfill_length).
    rewrite zfill_compare by (change (10 ^ Z.of_nat 4) with 10000; lia). f_equal.
    rewrite string_compare_prefix.
    rewrite string_compare_app by (now rewrite !zfill_length).
    rewrite zfill_compare by (change (10 ^ Z.of_nat 2) with 100; lia). f_equal.
    rewrite string_compare_prefix.
    rewrite string_compare_app by (now rewrite !zfill_length).
    rewrite zfill_compare by (change (10 ^ Z.of_nat 2) with 100; lia). f_equal.
    rewrite string_compare_prefix.
    rewrite string_compare_app by (now rewrite !zfill_length).
    rewrite zfill_compare by (change (10 ^ Z.of_nat 2) with 100; lia). f_equal.
    rewrite string_compare_prefix.
    rewrite string_compare_app by (now rewrite !zfill_length).
    rewrite zfill_compare by (change (10 ^ Z.of_nat 2) with 100; lia). f_equal.
    rewrite string_compare_prefix.
    rewrite string_compare_app by (now rewrite !zfill_length).
    rewrite zfill_compare by (change (10 ^ Z.of_nat 2) with 100; lia). f_equal.
    now apply fraction_compare. }
  split; [exact Hcmp|]. split.
  - unfold String.ltb. rewrite Hcmp. destruct (datetime_compare a b); split; congruence.
  - rewrite <- Hcmp. split.
    + intros ->. apply string_compare_refl.
    + apply String.compare_eq_iff.
Qed.

Lemma isoformat_chronological_sample :
  String.ltb (_now Sample.noon) (_now Sample.noon_later) = true
  /\ String.ltb (_now Sample.noon_later) (_now Sample.next_second) = true.
Proof.
  split.
  - apply (proj1 (proj2 (isoformat_chronological Sample.noon Sample.noon_later
                           ltac:(vm_compute; repeat split; discriminate)
                           ltac:(vm_compute; repeat split; discriminate)))).
    reflexivity.
  - apply (proj1 (proj2 (isoformat_chronological Sample.noon_later Sample.next_second
                           ltac:(vm_compute; repeat split; discriminate)
                           ltac:(vm_compute; repeat split; discriminate)))).
    reflexivity.
Defined.
